(** * Hevy -> Notion synchronisation engine

    A shallow embedding of the synchronisation engine of
    [function/hevy_webhook/notion_handler.py], of the two orchestrators
    [function/full_sync/full_sync.py] and
    [function/hevy_webhook/hevy_webhook.py], and the properties the
    specification states about them.

    Layout: Python values and string helpers; JSON; the effect monad; the
    request gateway; the resolver and the page writer; the source
    entities and their destination properties; the four upsert operations
    and the batch fan-outs; the orchestrators; a model of the destination
    service; sample runs; then the properties, in the same order. *)

From Stdlib Require Import ZArith QArith String Ascii List.
From Stdlib Require Import PrimFloat FloatOps SpecFloat.
From Stdlib Require DecimalString DecimalNat.
From stdpp Require Import gmap strings list fin_maps.

(* ===================================================================== *)
(** ** Python strings *)
(* ===================================================================== *)

(** A Python [str] is modelled as a [string] of ASCII characters, one
    [ascii] for each character of the text; the operations below are
    those of Python on such texts. *)
Module Py.

(** [bool(s)] for a [str]: the empty string is falsy. *)
Definition truthy (s : string) : bool :=
  match s with
  | EmptyString => false
  | String _ _ => true
  end.

(** [bool(x)] for an [Optional[str]]: [None] and [""] are falsy. *)
Definition truthy_opt (o : option string) : bool :=
  match o with
  | Some s => truthy s
  | None => false
  end.

(** [s.replace(old, new)] for a one-character [old]. *)
Fixpoint replace (old : ascii) (new s : string) : string :=
  match s with
  | EmptyString => EmptyString
  | String c rest =>
      if Ascii.eqb c old then new +:+ replace old new rest
      else String c (replace old new rest)
  end.

Definition between (lo hi c : ascii) : bool :=
  (nat_of_ascii lo <=? nat_of_ascii c)%nat && (nat_of_ascii c <=? nat_of_ascii hi)%nat.

Definition is_upper (c : ascii) : bool := between "A"%char "Z"%char c.
Definition is_lower (c : ascii) : bool := between "a"%char "z"%char c.
Definition is_digit (c : ascii) : bool := between "0"%char "9"%char c.

Definition upper (c : ascii) : ascii :=
  if is_lower c then ascii_of_nat (nat_of_ascii c - 32) else c.
Definition lower (c : ascii) : ascii :=
  if is_upper c then ascii_of_nat (nat_of_ascii c + 32) else c.

(** [s.title()] on ASCII text: a cased character is upper-cased when the
    character before it is not cased, lower-cased when it is. *)
Fixpoint title_from (previous_is_cased : bool) (s : string) : string :=
  match s with
  | EmptyString => EmptyString
  | String c rest =>
      if is_lower c || is_upper c then
        String (if previous_is_cased then lower c else upper c)
               (title_from true rest)
      else String c (title_from false rest)
  end.

Definition title (s : string) : string := title_from false s.

(** [f"{x}"] for an [Optional[str]]: [None] renders as the text None. *)
Definition format (o : option string) : string :=
  match o with
  | Some s => s
  | None => "None"
  end.


(** [s[:n]] on ASCII text: the first [n] characters, or all of [s] when
    it is shorter. *)
Definition prefix (n : nat) (s : string) : string := String.substring 0 n s.

(** [str(n)] for a non-negative [int]. *)
Definition str_of_nat (n : nat) : string :=
  DecimalString.NilZero.string_of_uint (Nat.to_uint n).

(** White space: tab to carriage return, the four separators, and the
    blank. *)
Definition is_space (c : ascii) : bool :=
  let n := nat_of_ascii c in
  (n =? 32)%nat || ((9 <=? n)%nat && (n <=? 13)%nat) || ((28 <=? n)%nat && (n <=? 31)%nat).

Fixpoint lstrip (s : string) : string :=
  match s with
  | String c rest => if is_space c then lstrip rest else s
  | EmptyString => EmptyString
  end.

Definition strip (s : string) : string :=
  String.rev (lstrip (String.rev (lstrip s))).

Fixpoint digits_value (acc : Z) (after_digit : bool) (s : string) : option Z :=
  match s with
  | EmptyString => if after_digit then Some acc else None
  | String c rest =>
      if is_digit c then
        digits_value (10 * acc + Z.of_nat (nat_of_ascii c - 48)) true rest
      else if Ascii.eqb c "_"%char && after_digit then digits_value acc false rest
      else None
  end.

(** [int(s)] for a [str], base 10, on ASCII text: surrounding white space
    is dropped, one sign is allowed, and single underscores may separate
    digits.  [None] stands for the [ValueError] Python raises. *)
Definition int_of_str (s : string) : option Z :=
  match strip s with
  | String "-"%char rest => Z.opp <$> digits_value 0 false rest
  | String "+"%char rest => digits_value 0 false rest
  | body => digits_value 0 false body
  end.

Definition hex_digit (n : nat) : ascii :=
  if (n <? 10)%nat then ascii_of_nat (48 + n) else ascii_of_nat (87 + n).

(** How [repr] renders one character inside the quotes [quote]. *)
Definition repr_char (quote c : ascii) : string :=
  let n := nat_of_ascii c in
  if Ascii.eqb c quote || Ascii.eqb c "\"%char then String "\"%char (String c EmptyString)
  else if (n =? 9)%nat then "\t"
  else if (n =? 10)%nat then "\n"
  else if (n =? 13)%nat then "\r"
  else if (n <? 32)%nat || (n =? 127)%nat then
    String "\"%char (String "x"%char
      (String (hex_digit (n / 16)) (String (hex_digit (n mod 16)) EmptyString)))
  else String c EmptyString.

Fixpoint contains (c : ascii) (s : string) : bool :=
  match s with
  | EmptyString => false
  | String c' rest => Ascii.eqb c' c || contains c rest
  end.

Fixpoint repr_body (quote : ascii) (s : string) : string :=
  match s with
  | EmptyString => String quote EmptyString
  | String c rest => repr_char quote c +:+ repr_body quote rest
  end.

(** [repr(s)] for a [str], on ASCII text: single quotes, unless the text
    holds a single quote and no double quote. *)
Definition repr (s : string) : string :=
  let quote :=
    if contains "'"%char s && negb (contains "034"%char s) then "034"%char else "'"%char in
  String quote (repr_body quote s).

(** The message of the [ValueError] that [int(s)] raises; the format
    [%.200R] keeps the first 200 characters of [repr(s)]. *)
Definition int_error (s : string) : string :=
  "invalid literal for int() with base 10: " +:+ prefix 200 (repr s).

(** [round(x, 2)] for a [float].  CPython rounds the exact binary value
    of [x] to the nearest multiple of 1/100, ties to the even multiple,
    and returns the double nearest to that decimal. *)
Definition nearest_hundredth (m : positive) (e : Z) : Z :=
  (* |x| = m * 2^e with e < 0; the result is the integer nearest to
     100 * |x| *)
  let num := (Z.pos m * 100)%Z in
  let den := (2 ^ (- e))%Z in
  let q := (num / den)%Z in
  let r := (num mod den)%Z in
  if (2 * r <? den)%Z then q
  else if (den <? 2 * r)%Z then (q + 1)%Z
  else if Z.even q then q else (q + 1)%Z.

Definition hundredths (negative : bool) (n : Z) : float :=
  match n with
  | Zpos p =>
      SF2Prim (SFdiv prec emax (S754_finite negative p 0) (S754_finite false 100 0))
  | _ => SF2Prim (S754_zero negative)
  end.

(** [a / b] for two [int]s with [0 < b]: the double nearest to the
    quotient. *)
Definition truediv (a : Z) (b : positive) : float :=
  match a with
  | Z0 => SF2Prim (S754_zero false)
  | Zpos p => SF2Prim (SFdiv prec emax (S754_finite false p 0) (S754_finite false b 0))
  | Zneg p => SF2Prim (SFdiv prec emax (S754_finite true p 0) (S754_finite false b 0))
  end.

Definition round2 (x : float) : float :=
  match Prim2SF x with
  | S754_finite s m e =>
      if (0 <=? e)%Z then x else hundredths s (nearest_hundredth m e)
  | _ => x
  end.

End Py.

(* ===================================================================== *)
(** ** JSON values *)
(* ===================================================================== *)

(** The values [json.loads] produces and [json.dumps] accepts.  A Python
    [dict] that is serialised keeps its insertion order, so objects are
    association lists; [None] is [JNull]. *)
Inductive json : Type :=
  | JNull
  | JBool (b : bool)
  | JInt (z : Z)
  | JFloat (f : float)
  | JStr (s : string)
  | JList (items : list json)
  | JDict (fields : list (string * json)).

Abbreviation dict := (list (string * json)).

Module Dict.

(** [d.get(k)] *)
Fixpoint get (k : string) (d : dict) : option json :=
  match d with
  | [] => None
  | (k', v) :: rest => if String.eqb k' k then Some v else get k rest
  end.

(** [d[k] = v]: an existing key keeps its position. *)
Fixpoint set (k : string) (v : json) (d : dict) : dict :=
  match d with
  | [] => [(k, v)]
  | (k', v') :: rest =>
      if String.eqb k' k then (k, v) :: rest else (k', v') :: set k v rest
  end.

(** [k in d] *)
Definition mem (k : string) (d : dict) : bool :=
  match get k d with
  | Some _ => true
  | None => false
  end.

(** [{**d, **e}] up to the order of the keys: the entries of [e], then
    those of [d] that [e] does not replace. *)
Definition merge (d e : dict) : dict :=
  e ++ List.filter (fun kv => negb (mem (fst kv) e)) d.

End Dict.

(** An [Optional[str]] as a JSON value. *)
Definition json_of_str (o : option string) : json :=
  match o with
  | Some s => JStr s
  | None => JNull
  end.

(** A decoded document as an [Optional[Dict]]: [json.loads] turns the
    document [null] into [None]. *)
Definition decoded (document : json) : option json :=
  match document with
  | JNull => None
  | _ => Some document
  end.

(** [bool(j)] *)
Definition json_truthy (j : json) : bool :=
  match j with
  | JNull => false
  | JBool b => b
  | JInt z => negb (z =? 0)%Z
  | JFloat f => negb (PrimFloat.eqb f 0)
  | JStr s => Py.truthy s
  | JList items => match items with [] => false | _ => true end
  | JDict fields => match fields with [] => false | _ => true end
  end.

(* ===================================================================== *)
(** ** Effects: the host, exceptions and the trace *)
(* ===================================================================== *)

Inductive exn : Type :=
  | TimeoutError                 (* asyncio.TimeoutError *)
  | ClientError (msg : string)   (* aiohttp.ClientError and its subclasses *)
  | ValueError (msg : string)
  | KeyError (key : string)
  | IndexError
  | TypeError (msg : string)
  | AttributeError (msg : string)
  | SourceError (msg : string).  (* whatever the Hevy client raises *)

Inductive result (A : Type) : Type :=
  | Ok (a : A)
  | Raise (e : exn).
Arguments Ok {A} a.
Arguments Raise {A} e.

Record request : Type := {
  req_method : string;
  req_url : string;
  req_headers : list (string * string);
  req_json : option json
}.

(** What the code reads of an [aiohttp] response. *)
Record response : Type := {
  resp_status : Z;                  (* response.status *)
  resp_retry_after : option string; (* response.headers.get("Retry-After") *)
  resp_json : json;                 (* the document response.json() decodes *)
  resp_text : string                (* await response.text() *)
}.

Inductive reply : Type :=
  | Response (r : response)
  | TimedOut                    (* the 30 s ClientTimeout fired *)
  | Broken (msg : string).      (* connection error *)

(** [datetime]: its ISO rendering and its position on the time line in
    microseconds. *)
Record datetime : Type := {
  isoformat : string;
  microseconds : Z
}.

(** The world the engine runs in: what a physical send does, and the
    clock. *)
Class Host (W : Type) : Type := {
  send : request -> W -> reply * W;
  utcnow : W -> datetime
}.

Inductive event : Type :=
  | Slept (seconds : Q)         (* await asyncio.sleep(seconds) *)
  | Sent (r : request).         (* one physical request *)

(** A computation reads and updates the world, may raise, and emits the
    events it performs in order. *)
Definition M (W A : Type) : Type := W -> result A * W * list event.

Definition mret {W A} (a : A) : M W A := fun w => (Ok a, w, []).

Definition mbind {W A B} (m : M W A) (k : A -> M W B) : M W B :=
  fun w =>
    match m w with
    | (Ok a, w1, t1) =>
        match k a w1 with
        | (r, w2, t2) => (r, w2, t1 ++ t2)
        end
    | (Raise e, w1, t1) => (Raise e, w1, t1)
    end.

Definition raise {W A} (e : exn) : M W A := fun w => (Raise e, w, []).

(** [try: m  except E: handler] for the exceptions [catches] selects. *)
Definition try_except {W A} (m : M W A) (catches : exn -> bool) (handler : M W A)
  : M W A :=
  fun w =>
    match m w with
    | (Raise e, w1, t1) =>
        if catches e then
          match handler w1 with
          | (r, w2, t2) => (r, w2, t1 ++ t2)
          end
        else (Raise e, w1, t1)
    | done => done
    end.

(** Run [m] and hand back its outcome as a value; never raises. *)
Definition capture {W A} (m : M W A) : M W (result A) :=
  fun w => match m w with (r, w1, t1) => (Ok r, w1, t1) end.

Declare Scope monad_scope.
Delimit Scope monad_scope with monad.
Notation "'let*' x ':=' m 'in' k" := (mbind m (fun x => k))
  (at level 10, x name, m at level 100, k at level 200,
   format "'let*'  x  ':='  m  'in' '//' k") : monad_scope.
Notation "'let*' ' pat ':=' m 'in' k" :=
  (mbind m (fun x => match x with pat => k end))
  (at level 10, pat pattern, m at level 100, k at level 200,
   format "'let*'  ' pat  ':='  m  'in' '//' k") : monad_scope.
Notation "m ';;' k" := (mbind m (fun _ => k))
  (at level 100, k at level 200, right associativity,
   format "m  ';;' '//' k") : monad_scope.
Local Open Scope monad_scope.

Definition is_timeout (e : exn) : bool :=
  match e with TimeoutError => true | _ => false end.

Definition sent (t : list event) : list request :=
  omap (fun e => match e with Sent r => Some r | Slept _ => None end) t.

Definition sleeps (t : list event) : list Q :=
  omap (fun e => match e with Slept d => Some d | Sent _ => None end) t.

Section Engine.

Context {W : Type} `{Host W}.

(** [await asyncio.sleep(seconds)] *)
Definition sleep (seconds : Q) : M W unit :=
  fun w => (Ok tt, w, [Slept seconds]).

(** [session.get/post/patch(url, headers=…, json=…, timeout=30)] *)
Definition transmit (r : request) : M W response :=
  fun w =>
    match send r w with
    | (Response resp, w1) => (Ok resp, w1, [Sent r])
    | (TimedOut, w1) => (Raise TimeoutError, w1, [Sent r])
    | (Broken msg, w1) => (Raise (ClientError msg), w1, [Sent r])
    end.

(** [datetime.utcnow()] *)
Definition now : M W datetime := fun w => (Ok (utcnow w), w, []).

End Engine.

(* ===================================================================== *)
(** ** Requests *)
(* ===================================================================== *)

(** The request one pass of the retry loop sends: [session.get] carries no
    body. *)
Definition request_of (method url : string) (headers : list (string * string))
    (json_data : option json) : request :=
  {| req_method := method; req_url := url; req_headers := headers;
     req_json := if String.eqb method "GET" then None else json_data |}.

Definition known_method (method : string) : Prop :=
  method = "GET" ∨ method = "POST" ∨ method = "PATCH".

(* ===================================================================== *)
(** ** Remote request gateway *)
(* ===================================================================== *)

Definition NOTION_SEMAPHORE_LIMIT : nat := 2.
Definition NOTION_REQUEST_DELAY : Q := 1 # 2.       (* 0.5 seconds *)
Definition NOTION_MAX_RETRIES : nat := 5.
Definition NOTION_RETRY_BASE_DELAY : Z := 2.
Definition NOTION_MAX_RETRY_DELAY : Z := 30.

(** [Tuple[int, Optional[Dict], Optional[str]]] *)
Definition triple : Type := Z * option json * option string.

(** How one pass through the body of a [for] loop ends. *)
Inductive flow (A : Type) : Type :=
  | Return (a : A)
  | Continue.
Arguments Return {A} a.
Arguments Continue {A}.

Definition get_notion_headers (notion_api_key : string) : list (string * string) :=
  [ ("Authorization", "Bearer " +:+ notion_api_key);
    ("Content-Type", "application/json");
    ("Notion-Version", "2022-06-28") ].

Section Gateway.

Context {W : Type} `{Host W}.

(** [int(response.headers.get("Retry-After",
          NOTION_RETRY_BASE_DELAY * (2 ** attempt)))] *)
Definition header_delay (attempt : nat) (r : response) : M W Z :=
  match resp_retry_after r with
  | None => mret (NOTION_RETRY_BASE_DELAY * 2 ^ Z.of_nat attempt)%Z
  | Some text =>
      match Py.int_of_str text with
      | Some z => mret z
      | None => raise (ValueError (Py.int_error text))
      end
  end.

(** The [if status == 200 / elif status == 429 / else] block, which the
    source repeats verbatim under GET, POST and PATCH. *)
Definition on_response (attempt : nat) (r : response) : M W (flow triple) :=
  let status := resp_status r in
  if (status =? 200)%Z then
    mret (Return (status, decoded (resp_json r), None))
  else if (status =? 429)%Z then
    let* delay := header_delay attempt r in
    let retry_after := Z.min delay NOTION_MAX_RETRY_DELAY in
    sleep (inject_Z retry_after) ;;
    mret Continue
  else
    mret (Return (status, None, Some (resp_text r))).

(** One iteration of [for attempt in range(NOTION_MAX_RETRIES)].  The
    semaphore only bounds how many such iterations overlap; a single
    run does not observe it. *)
Definition attempt_once (method url : string) (headers : list (string * string))
    (json_data : option json) (attempt : nat) : M W (flow triple) :=
  sleep NOTION_REQUEST_DELAY ;;
  try_except
    (if String.eqb method "GET" then
       let* r := transmit {| req_method := "GET"; req_url := url;
                             req_headers := headers; req_json := None |} in
       on_response attempt r
     else if String.eqb method "POST" then
       let* r := transmit {| req_method := "POST"; req_url := url;
                             req_headers := headers; req_json := json_data |} in
       on_response attempt r
     else if String.eqb method "PATCH" then
       let* r := transmit {| req_method := "PATCH"; req_url := url;
                             req_headers := headers; req_json := json_data |} in
       on_response attempt r
     else mret Continue)
    is_timeout
    (if (attempt <? NOTION_MAX_RETRIES - 1)%nat then
       sleep (inject_Z (NOTION_RETRY_BASE_DELAY * 2 ^ Z.of_nat attempt)) ;;
       mret Continue
     else mret (Return (0%Z, None, Some "Request timeout after retries"))).

Fixpoint for_attempts (method url : string) (headers : list (string * string))
    (json_data : option json) (attempts : list nat) : M W triple :=
  match attempts with
  | [] => mret (429%Z, None, Some "Rate limited after max retries")
  | attempt :: rest =>
      let* outcome := attempt_once method url headers json_data attempt in
      match outcome with
      | Return t => mret t
      | Continue => for_attempts method url headers json_data rest
      end
  end.

Definition notion_request_with_retry (method url : string)
    (headers : list (string * string)) (json_data : option json) : M W triple :=
  for_attempts method url headers json_data (seq 0 NOTION_MAX_RETRIES).

(* ------------------------------------------------------------------- *)
(** ** Identifier resolver and page writer *)
(* ------------------------------------------------------------------- *)

(** [bool(data)] for an [Optional[Dict]] *)
Definition body_truthy (data : option json) : bool :=
  match data with
  | Some j => json_truthy j
  | None => false
  end.

(** [data.get(key, default)] on a decoded body *)
Definition body_get (key : string) (default : json) (data : option json) : M W json :=
  match data with
  | Some (JDict fields) => mret (from_option id default (Dict.get key fields))
  | _ => raise (AttributeError "get")
  end.

(** [data.get("id")] of a page object, typed as the [Optional[str]] the
    code declares: the identifier when it is a string, [None] when it is
    [null].  The code returns a value of any other type as it is and
    fails where the value is first used as a string; bodies with such an
    identifier are not among the answers of Notion, and the model ends
    their run here. *)
Definition as_page_id (j : json) : M W (option string) :=
  match j with
  | JStr s => mret (Some s)
  | JNull => mret None
  | _ => raise (TypeError "page id is not a string")
  end.

(** [results[0]["id"]] *)
Definition first_result_id (results : json) : M W (option string) :=
  match results with
  | JList (JDict fields :: _) =>
      match Dict.get "id" fields with
      | Some j => as_page_id j
      | None => raise (KeyError "id")
      end
  | JList [] => raise IndexError
  | _ => raise (TypeError "results[0] is not a page object")
  end.

Definition find_page_by_hevy_id (database_id : option string)
    (hevy_id_property hevy_id : string)
    (notion_api_key : string) (property_type : string) : M W (option string) :=
  let headers := get_notion_headers notion_api_key in
  let filter_config :=
    if String.eqb property_type "title" then
      JDict [ ("property", JStr hevy_id_property);
              ("title", JDict [("equals", JStr hevy_id)]) ]
    else
      JDict [ ("property", JStr hevy_id_property);
              ("rich_text", JDict [("equals", JStr hevy_id)]) ] in
  let search_payload := JDict [("filter", filter_config)] in
  let url := "https://api.notion.com/v1/databases/" +:+ Py.format database_id
               +:+ "/query" in
  let* '(status, data, error) :=
    notion_request_with_retry "POST" url headers (Some search_payload) in
  if (status =? 200)%Z && body_truthy data then
    let* results := body_get "results" (JList []) data in
    if json_truthy results then first_result_id results else mret None
  else
    (* elif error: logging.warning(...) *)
    mret None.

Definition create_or_update_page (database_id : option string) (page_id : option string)
    (properties : dict) (notion_api_key : string) : M W (option string) :=
  let headers := get_notion_headers notion_api_key in
  let* '(status, data, error) :=
    if Py.truthy_opt page_id then
      (* Update existing page *)
      let url := "https://api.notion.com/v1/pages/" +:+ default "" page_id in
      let payload := JDict [("properties", JDict properties)] in
      notion_request_with_retry "PATCH" url headers (Some payload)
    else
      (* Create new page *)
      let url := "https://api.notion.com/v1/pages" in
      let payload := JDict [ ("parent", JDict [("database_id", json_of_str database_id)]);
                             ("properties", JDict properties) ] in
      notion_request_with_retry "POST" url headers (Some payload) in
  if (status =? 200)%Z && body_truthy data then
    let* id := body_get "id" JNull data in
    as_page_id id
  else
    (* logging.error(...) *)
    mret None.

(** The query-before-write protocol every upsert operation ends with: look
    the source id up, then patch the page found or create one. *)
Definition resolve_and_write (database_id : option string) (hevy_id : string)
    (properties : dict) (notion_api_key : string) : M W (option string) :=
  let* existing_page_id :=
    find_page_by_hevy_id database_id "Hevy ID" hevy_id notion_api_key "rich_text" in
  create_or_update_page database_id existing_page_id properties notion_api_key.

End Gateway.

(* ===================================================================== *)
(** ** Source entities *)
(* ===================================================================== *)

(** Payloads of the Hevy API, typed by its schema: texts are strings,
    numbers that the engine reads with [float()] are doubles, those it
    reads with [int()] are integers.  A field read with [.get(key)] is
    [None] when the key is missing or [null], which the code does not
    tell apart.  A field read with [.get(key, default)] is [None] when the
    key is missing, and the default stands in for it; a payload that
    holds [null] under such a key (where the code goes on with [None]
    instead of the default) is not a value of these types. *)

Record set_data : Type := {
  set_type : option string;
  weight_kg : option float;
  reps : option Z;
  distance_meters : option float;
  duration_seconds : option Z;
  rpe : option float
}.

Record exercise : Type := {
  ex_title : option string;
  ex_superset_id : option Z;
  ex_notes : option string;
  exercise_template_id : option string;
  ex_sets : option (list set_data)
}.

Record workout : Type := {
  wk_id : option string;
  wk_title : option string;
  wk_description : option string;
  wk_start_time : option string;
  wk_end_time : option string;
  wk_created_at : option string;
  wk_exercises : option (list exercise);
  routine_id : option string
}.

Record routine : Type := {
  rt_id : option string;
  rt_title : option string;
  rt_folder_id : option Z;
  rt_notes : option string;
  rt_exercises : option (list exercise);
  rt_created_at : option string;
  rt_updated_at : option string
}.

Record exercise_template : Type := {
  et_id : option string;
  et_title : option string;
  et_type : option string;
  et_primary_muscle_group : option string;
  et_secondary_muscle_groups : option (list string);
  et_equipment_category : option string;
  et_is_custom : option bool
}.

(** An entity arrives flat, or wrapped one level under a key named after
    its kind. *)
Inductive enveloped (A : Type) : Type :=
  | Bare (a : A)
  | Wrapped (a : A).
Arguments Bare {A} a.
Arguments Wrapped {A} a.

(** [payload.get(kind, payload)] *)
Definition unwrap {A} (payload : enveloped A) : A :=
  match payload with
  | Bare a => a
  | Wrapped a => a
  end.

(** [payload.get(field, default)] on the payload itself, which finds the
    field only when the payload is flat. *)
Definition outer {A B} (field : A -> option B) (fallback : B) (payload : enveloped A) : B :=
  match payload with
  | Bare a => default fallback (field a)
  | Wrapped _ => fallback
  end.

(* ===================================================================== *)
(** ** Destination properties *)
(* ===================================================================== *)

Definition text_content (s : string) : json :=
  JList [JDict [("text", JDict [("content", JStr s)])]].
Definition title_prop (s : string) : json := JDict [("title", text_content s)].
Definition rich_text_prop (s : string) : json := JDict [("rich_text", text_content s)].
Definition number_prop (n : json) : json := JDict [("number", n)].
Definition select_prop (s : string) : json := JDict [("select", JDict [("name", JStr s)])].
Definition date_prop (s : string) : json := JDict [("date", JDict [("start", JStr s)])].
Definition relation_prop (page_id : string) : json :=
  JDict [("relation", JList [JDict [("id", JStr (Py.replace "-"%char "" page_id))]])].

(** [if cond: properties[key] = value] *)
Definition set_if (cond : bool) (key : string) (value : json) (properties : dict) : dict :=
  if cond then Dict.set key value properties else properties.

(** [if x is not None: properties[key] = f(x)] *)
Definition set_some {A} (x : option A) (key : string) (f : A -> json) (properties : dict) : dict :=
  match x with
  | Some a => Dict.set key (f a) properties
  | None => properties
  end.

Definition pretty_category (s : string) : string :=
  Py.title (Py.replace "_"%char " " s).

Definition template_properties (last_synced : datetime) (template_data : exercise_template)
  : dict :=
  let hevy_id := default "" (et_id template_data) in
  let title := default "Unknown Exercise" (et_title template_data) in
  let exercise_type := default "" (et_type template_data) in
  let primary_muscle := default "" (et_primary_muscle_group template_data) in
  let secondary_muscles := default [] (et_secondary_muscle_groups template_data) in
  let equipment := default "" (et_equipment_category template_data) in
  let is_custom := default false (et_is_custom template_data) in
  let properties :=
    [ ("Name", title_prop title);
      ("Hevy ID", rich_text_prop hevy_id);
      ("Last Synced", date_prop (isoformat last_synced)) ] in
  let properties :=
    set_if (Py.truthy exercise_type) "Exercise Type" (select_prop exercise_type) properties in
  let properties :=
    set_if (Py.truthy primary_muscle) "Primary Muscle"
           (select_prop (pretty_category primary_muscle)) properties in
  let formatted :=
    (fun m => JDict [("name", JStr (pretty_category m))])
      <$> List.filter Py.truthy secondary_muscles in
  let properties :=
    set_if (match formatted with [] => false | _ => true end) "Secondary Muscles"
           (JDict [("multi_select", JList formatted)]) properties in
  let properties :=
    set_if (Py.truthy equipment) "Equipment"
           (select_prop (pretty_category equipment)) properties in
  Dict.set "Is Custom" (JDict [("checkbox", JBool is_custom)]) properties.

Definition routine_properties (last_synced : datetime) (routine_data : routine) : dict :=
  let hevy_id := default "" (rt_id routine_data) in
  let title := default "Unnamed Routine" (rt_title routine_data) in
  let folder_id := rt_folder_id routine_data in
  let notes := default "" (rt_notes routine_data) in
  let exercises := default [] (rt_exercises routine_data) in
  let created_at := rt_created_at routine_data in
  let updated_at := rt_updated_at routine_data in
  let properties :=
    [ ("Name", title_prop title);
      ("Hevy ID", rich_text_prop hevy_id);
      ("Exercise Count", number_prop (JInt (Z.of_nat (length exercises))));
      ("Last Synced", date_prop (isoformat last_synced)) ] in
  let properties := set_some folder_id "Folder ID" (fun n => number_prop (JInt n)) properties in
  let properties :=
    set_if (Py.truthy notes) "Notes" (rich_text_prop (Py.prefix 2000 notes)) properties in
  let properties :=
    set_if (Py.truthy_opt created_at) "Created" (date_prop (default "" created_at)) properties in
  set_if (Py.truthy_opt updated_at) "Updated" (date_prop (default "" updated_at)) properties.

Definition workout_properties (last_synced : datetime) (workout_data : workout)
    (routine_page_id : option string) : dict :=
  let hevy_id := default "" (wk_id workout_data) in
  let title := default "Workout" (wk_title workout_data) in
  let description := default "" (wk_description workout_data) in
  let start_time := wk_start_time workout_data in
  let end_time := wk_end_time workout_data in
  let created_at := wk_created_at workout_data in
  let exercises := default [] (wk_exercises workout_data) in
  (* Calculate totals *)
  let exercise_count := length exercises in
  let total_sets := list_sum ((fun ex => length (default [] (ex_sets ex))) <$> exercises) in
  let properties :=
    [ ("Name", title_prop title);
      ("Hevy ID", rich_text_prop hevy_id);
      ("Exercise Count", number_prop (JInt (Z.of_nat exercise_count)));
      ("Total Sets", number_prop (JInt (Z.of_nat total_sets)));
      ("Last Synced", date_prop (isoformat last_synced)) ] in
  let properties :=
    set_if (Py.truthy description) "Description"
           (rich_text_prop (Py.prefix 2000 description)) properties in
  let properties :=
    set_if (Py.truthy_opt start_time) "Start Time" (date_prop (default "" start_time)) properties in
  let properties :=
    set_if (Py.truthy_opt end_time) "End Time" (date_prop (default "" end_time)) properties in
  let properties :=
    set_if (Py.truthy_opt created_at) "Created" (date_prop (default "" created_at)) properties in
  (* Add routine relation if available *)
  set_if (Py.truthy_opt routine_page_id) "Routine"
         (relation_prop (default "" routine_page_id)) properties.

(** [f"{workout_id}-{exercise_index}-{set_index}"] *)
Definition composite_set_id (workout_id : string) (exercise_index set_index : nat) : string :=
  workout_id +:+ "-" +:+ Py.str_of_nat exercise_index +:+ "-" +:+ Py.str_of_nat set_index.

(** A decimal contains no ["-"]. *)
Fixpoint dashless (s : string) : Prop :=
  match s with
  | EmptyString => True
  | String c rest => c ≠ "-"%char ∧ dashless rest
  end.

Definition set_properties (last_synced : datetime) (workout_id : string)
    (workout_page_id : string) (exercise : exercise) (exercise_index : nat)
    (set_data : set_data) (set_index : nat)
    (exercise_template_page_id : option string) : dict :=
  (* Composite Set ID for upsert *)
  let composite_set_id := composite_set_id workout_id exercise_index set_index in
  let exercise_name := default "Unknown Exercise" (ex_title exercise) in
  let set_type := default "normal" (set_type set_data) in
  let weight_kg := weight_kg set_data in
  let reps := reps set_data in
  let distance_meters := distance_meters set_data in
  let duration_seconds := duration_seconds set_data in
  let rpe := rpe set_data in
  let superset_id := ex_superset_id exercise in
  let notes := default "" (ex_notes exercise) in
  let properties :=
    [ ("Exercise Name", title_prop exercise_name);
      ("Hevy ID", rich_text_prop composite_set_id);
      ("Exercise Order", number_prop (JInt (Z.of_nat exercise_index + 1)));  (* 1-based *)
      ("Set Number", number_prop (JInt (Z.of_nat set_index + 1)));           (* 1-based *)
      ("Set Type", select_prop set_type);
      ("Last Synced", date_prop (isoformat last_synced)) ] in
  (* Add workout relation *)
  let properties :=
    set_if (Py.truthy workout_page_id) "Workout" (relation_prop workout_page_id) properties in
  (* Add exercise template relation *)
  let properties :=
    set_if (Py.truthy_opt exercise_template_page_id) "Exercise"
           (relation_prop (default "" exercise_template_page_id)) properties in
  (* Convert kg to lbs (1 kg = 2.20462 lbs) *)
  let properties :=
    set_some weight_kg "Weight (lb)"
      (fun kg => let weight_lbs := (kg * 2.20462)%float in
                 number_prop (JFloat (Py.round2 weight_lbs))) properties in
  let properties := set_some reps "Reps" (fun n => number_prop (JInt n)) properties in
  let properties :=
    set_some distance_meters "Distance (m)" (fun d => number_prop (JFloat d)) properties in
  let properties :=
    set_some duration_seconds "Duration (s)" (fun n => number_prop (JInt n)) properties in
  let properties := set_some rpe "RPE" (fun x => number_prop (JFloat x)) properties in
  let properties :=
    set_some superset_id "Superset ID" (fun n => number_prop (JInt n)) properties in
  set_if (Py.truthy notes) "Notes" (rich_text_prop (Py.prefix 2000 notes)) properties.

(* ===================================================================== *)
(** ** Entity upsert operations and batch fan-out *)
(* ===================================================================== *)

(** The outcome of one task under
    [asyncio.gather] called with [return_exceptions=True]. *)
Abbreviation outcome := (result (option string)).

(** The loop [for i, result in enumerate(results)] of
    [sync_exercise_templates] and [sync_routines]: exceptions and [None]
    are skipped, a page id is counted and stored under the source id of
    [entities[i]]. *)
Fixpoint tally {A} (hevy_id : A -> string) (entities : list A) (i : nat)
    (results : list outcome) (count : nat) (id_mapping : gmap string string)
  : result (nat * gmap string string) :=
  match results with
  | [] => Ok (count, id_mapping)
  | Raise _ :: rest => tally hevy_id entities (S i) rest count id_mapping
  | Ok None :: rest => tally hevy_id entities (S i) rest count id_mapping
  | Ok (Some page_id) :: rest =>
      match entities !! i with
      | Some entity =>
          tally hevy_id entities (S i) rest (S count)
                (<[hevy_id entity := page_id]> id_mapping)
      | None => Raise IndexError
      end
  end.

(** [id_mapping[hevy_id] = result] *)
Definition store_pair (id_mapping : gmap string string) (kv : string * string)
  : gmap string string :=
  <[kv.1 := kv.2]> id_mapping.

(** The loop [for result in results] of [sync_workout_sets]. *)
Definition count_synced (results : list outcome) : nat :=
  length (List.filter (fun r => match r with Ok (Some _) => true | _ => false end) results).

(** A task fails when it raises or returns [None]. *)
Definition failed (r : outcome) : bool :=
  match r with
  | Ok (Some _) => false
  | _ => true
  end.

(** The pairs source id, page id of the entities whose task succeeded, in
    the order of the batch. *)
Definition synced {A} (hevy_id : A -> string) (entities : list A) (results : list outcome)
  : list (string * string) :=
  omap (fun er : A * outcome =>
          match er.2 with
          | Ok (Some page_id) => Some (hevy_id er.1, page_id)
          | _ => None
          end)
       (zip entities results).

Definition template_hevy_id (template : enveloped exercise_template) : string :=
  default "" (et_id (unwrap template)).

Definition routine_hevy_id (routine : enveloped routine) : string :=
  default "" (rt_id (unwrap routine)).

Section Upserts.

Context {W : Type} `{Host W}.

Definition lift {A} (r : result A) : M W A :=
  match r with
  | Ok a => mret a
  | Raise e => raise e
  end.

(** [await asyncio.gather(...)] with [return_exceptions=True].  The
    event loop interleaves the tasks at their [await]s; the model runs
    them to completion one after the other in the order of the list.
    Common to both: the result list is in task order, an exception of a
    task is an entry of the list, and the events of one task are in the
    order of its program.  What the model fixes beyond the code is the
    order of the events of different tasks and, for a host whose answers
    depend on what it has been sent before, which answer a task meets.
    The example runs through [gather] below use hosts that answer a
    request by its content, so that their results are those of every
    schedule. *)
Fixpoint gather {A} (tasks : list (M W A)) : M W (list (result A)) :=
  match tasks with
  | [] => mret []
  | task :: rest =>
      let* r := capture task in
      let* rs := gather rest in
      mret (r :: rs)
  end.

Definition upsert_exercise_template (template : enveloped exercise_template)
    (notion_api_key database_id : string) : M W (option string) :=
  (* Handle wrapped response *)
  let template_data := unwrap template in
  let hevy_id := default "" (et_id template_data) in
  let* last_synced := now in
  let properties := template_properties last_synced template_data in
  (* Check if exists *)
  let* existing_page_id :=
    find_page_by_hevy_id (Some database_id) "Hevy ID" hevy_id notion_api_key "rich_text" in
  create_or_update_page (Some database_id) existing_page_id properties notion_api_key.

Definition sync_exercise_templates (templates : list (enveloped exercise_template))
    (notion_api_key database_id : string) : M W (nat * gmap string string) :=
  let tasks :=
    (fun t => upsert_exercise_template t notion_api_key database_id) <$> templates in
  let* results := gather tasks in
  lift (tally template_hevy_id templates 0 results 0 ∅).

Definition upsert_routine (routine : enveloped routine)
    (notion_api_key database_id : string) : M W (option string) :=
  (* Handle wrapped response *)
  let routine_data := unwrap routine in
  let hevy_id := default "" (rt_id routine_data) in
  let* last_synced := now in
  let properties := routine_properties last_synced routine_data in
  (* Check if exists *)
  let* existing_page_id :=
    find_page_by_hevy_id (Some database_id) "Hevy ID" hevy_id notion_api_key "rich_text" in
  create_or_update_page (Some database_id) existing_page_id properties notion_api_key.

Definition sync_routines (routines : list (enveloped routine))
    (notion_api_key database_id : string) : M W (nat * gmap string string) :=
  let tasks := (fun r => upsert_routine r notion_api_key database_id) <$> routines in
  let* results := gather tasks in
  lift (tally routine_hevy_id routines 0 results 0 ∅).

Definition upsert_workout (workout : enveloped workout)
    (notion_api_key workouts_db_id : string) (routine_page_id : option string)
  : M W (option string) :=
  (* Handle wrapped response *)
  let workout_data := unwrap workout in
  let hevy_id := default "" (wk_id workout_data) in
  let* last_synced := now in
  let properties := workout_properties last_synced workout_data routine_page_id in
  (* Check if exists *)
  let* existing_page_id :=
    find_page_by_hevy_id (Some workouts_db_id) "Hevy ID" hevy_id notion_api_key "rich_text" in
  create_or_update_page (Some workouts_db_id) existing_page_id properties notion_api_key.

Definition upsert_set (workout_id workout_page_id : string) (exercise : exercise)
    (exercise_index : nat) (set_data : set_data) (set_index : nat)
    (notion_api_key : string) (sets_db_id : option string)
    (exercise_template_page_id : option string) : M W (option string) :=
  let composite_set_id := composite_set_id workout_id exercise_index set_index in
  let* last_synced := now in
  let properties :=
    set_properties last_synced workout_id workout_page_id exercise exercise_index
                   set_data set_index exercise_template_page_id in
  (* Check if exists by Hevy ID (rich_text property) *)
  let* existing_page_id :=
    find_page_by_hevy_id sets_db_id "Hevy ID" composite_set_id notion_api_key "rich_text" in
  create_or_update_page sets_db_id existing_page_id properties notion_api_key.

(** The tasks [sync_workout_sets] appends, exercise by exercise and set
    by set. *)
Definition set_tasks (workout_id workout_page_id : string) (exercises : list exercise)
    (notion_api_key : string) (sets_db_id : option string)
    (exercise_template_mapping : gmap string string) : list (M W (option string)) :=
  concat
    (imap
       (fun exercise_index exercise =>
          let exercise_template_id := default "" (exercise_template_id exercise) in
          let exercise_template_page_id :=
            exercise_template_mapping !! exercise_template_id in
          imap
            (fun set_index set_data =>
               upsert_set workout_id workout_page_id exercise exercise_index
                          set_data set_index notion_api_key sets_db_id
                          exercise_template_page_id)
            (default [] (ex_sets exercise)))
       exercises).

Definition sync_workout_sets (workout_id workout_page_id : string)
    (exercises : list exercise) (notion_api_key : string) (sets_db_id : option string)
    (exercise_template_mapping : gmap string string) : M W nat :=
  let tasks := set_tasks workout_id workout_page_id exercises notion_api_key
                         sets_db_id exercise_template_mapping in
  match tasks with
  | [] => mret 0%nat
  | _ =>
      let* results := gather tasks in
      mret (count_synced results)
  end.

(** [routine_mapping.get(routine_id) if routine_id else None] *)
Definition routine_page_for (routine_mapping : gmap string string)
    (workout_data : workout) : option string :=
  let routine_id := routine_id workout_data in
  if Py.truthy_opt routine_id then routine_mapping !! default "" routine_id else None.

(** The loop [for workout in workouts] of [sync_workouts_and_sets], with
    its two counters. *)
Fixpoint for_workouts (workouts : list (enveloped workout))
    (notion_api_key workouts_db_id : string) (sets_db_id : option string)
    (routine_mapping exercise_template_mapping : gmap string string)
    (workout_count set_count : nat) : M W (nat * nat) :=
  match workouts with
  | [] => mret (workout_count, set_count)
  | workout :: rest =>
      let workout_data := unwrap workout in
      let routine_page_id := routine_page_for routine_mapping workout_data in
      (* Upsert workout *)
      let* workout_page_id :=
        upsert_workout workout notion_api_key workouts_db_id routine_page_id in
      if Py.truthy_opt workout_page_id then
        (* Sync all sets for this workout *)
        let exercises := default [] (wk_exercises workout_data) in
        let* sets_synced :=
          sync_workout_sets (default "" (wk_id workout_data))
                            (default "" workout_page_id) exercises notion_api_key
                            sets_db_id exercise_template_mapping in
        for_workouts rest notion_api_key workouts_db_id sets_db_id routine_mapping
                     exercise_template_mapping (S workout_count)
                     (set_count + sets_synced)
      else
        for_workouts rest notion_api_key workouts_db_id sets_db_id routine_mapping
                     exercise_template_mapping workout_count set_count
  end.

Definition sync_workouts_and_sets (workouts : list (enveloped workout))
    (notion_api_key workouts_db_id : string) (sets_db_id : option string)
    (routine_mapping exercise_template_mapping : gmap string string)
  : M W (nat * nat) :=
  for_workouts workouts notion_api_key workouts_db_id sets_db_id routine_mapping
               exercise_template_mapping 0 0.

End Upserts.

(* ===================================================================== *)
(** ** Sync orchestrators *)
(* ===================================================================== *)

(** The Hevy client, [hevy_webhook/hevy_api.py], and the input validators,
    [shared/validators.py], are used by the orchestrators but are not part
    of the engine; they are taken as given operations. *)
Class HevyApi (W : Type) : Type := {
  get_all_exercise_templates : M W (list (enveloped exercise_template));
  get_all_routines : M W (list (enveloped routine));
  get_all_workouts : M W (list (enveloped workout));
  get_workout_and_routine_async :
    string -> M W (option (enveloped workout) * option (enveloped routine));
  get_exercise_templates_async :
    list string -> M W (list (enveloped exercise_template));
  extract_unique_exercises : enveloped workout -> list exercise;
  sanitize_text_input : json -> string -> nat -> result string;
  MAX_REQUEST_SIZE : Z;
  (** [f"{MAX_REQUEST_SIZE / (1024*1024):.0f}"] *)
  max_request_megabytes : string
}.

(** [str(e)] *)
Definition exn_str (e : exn) : string :=
  match e with
  | TimeoutError => ""
  | ClientError msg => msg
  | ValueError msg => msg
  | KeyError key => "'" +:+ key +:+ "'"
  | IndexError => "list index out of range"
  | TypeError msg => msg
  | AttributeError msg => msg
  | SourceError msg => msg
  end.

(** [func.HttpResponse]: the body is a text or the [json.dumps] of a
    value. *)
Inductive body : Type :=
  | Text (s : string)
  | Dumps (j : json).

Record http_response : Type := {
  http_body : body;
  status_code : Z;
  mimetype : option string
}.

(** [func.HttpRequest], as far as the webhook reads it; [req_body] is
    [None] when [get_json()] raises [ValueError]. *)
Record http_request : Type := {
  http_headers : gmap string string;
  http_json : option json
}.

Definition json_of_nat (n : nat) : json := JInt (Z.of_nat n).

Section Orchestrators.

Context {W : Type} `{Host W} `{HevyApi W}.

Definition perform_full_sync (notion_api_key workouts_db_id : string)
    (routines_db_id templates_db_id sets_db_id : option string) : M W dict :=
  let* start_time := now in
  (* Step 1: Sync Exercise Templates *)
  let* '(template_count, template_mapping) :=
    if Py.truthy_opt templates_db_id then
      let* templates := get_all_exercise_templates in
      match templates with
      | [] => mret (0%nat, ∅)
      | _ => sync_exercise_templates templates notion_api_key (default "" templates_db_id)
      end
    else mret (0%nat, ∅) in
  (* Step 2: Sync Routines *)
  let* '(routine_count, routine_mapping) :=
    if Py.truthy_opt routines_db_id then
      let* routines := get_all_routines in
      match routines with
      | [] => mret (0%nat, ∅)
      | _ => sync_routines routines notion_api_key (default "" routines_db_id)
      end
    else mret (0%nat, ∅) in
  (* Step 3: Sync Workouts and Sets *)
  let* workouts := get_all_workouts in
  let* '(workout_count, set_count) :=
    match workouts with
    | [] => mret (0%nat, 0%nat)
    | _ => sync_workouts_and_sets workouts notion_api_key workouts_db_id sets_db_id
                                  routine_mapping template_mapping
    end in
  let* end_time := now in
  let duration_seconds :=
    Py.truediv (microseconds end_time - microseconds start_time) 1000000 in
  mret [ ("status", JStr "success");
         ("exercise_templates", json_of_nat template_count);
         ("routines", json_of_nat routine_count);
         ("workouts", json_of_nat workout_count);
         ("sets", json_of_nat set_count);
         ("duration_seconds", JFloat (Py.round2 duration_seconds));
         ("timestamp", JStr (isoformat end_time)) ].

Definition json_response (j : json) (code : Z) : http_response :=
  {| http_body := Dumps j; status_code := code; mimetype := Some "application/json" |}.

Definition text_response (s : string) (code : Z) : http_response :=
  {| http_body := Text s; status_code := code; mimetype := None |}.

(** The body of [full_sync_handler] under its outer [try]. *)
Definition full_sync_handler_body (environ : gmap string string) : M W http_response :=
  let hevy_api_key := environ !! "HEVY_API_KEY" in
  let notion_api_key := environ !! "NOTION_API_KEY" in
  let notion_workouts_db_id := environ !! "NOTION_WORKOUTS_DATABASE_ID" in
  let notion_routines_db_id := environ !! "NOTION_ROUTINES_DATABASE_ID" in
  let notion_templates_db_id := environ !! "NOTION_EXERCISE_TEMPLATES_DATABASE_ID" in
  let notion_sets_db_id := environ !! "NOTION_SETS_DATABASE_ID" in
  if negb (Py.truthy_opt hevy_api_key) then
    mret (json_response (JDict [("error", JStr "HEVY_API_KEY not configured")]) 500)
  else if negb (Py.truthy_opt notion_api_key) then
    mret (json_response (JDict [("error", JStr "NOTION_API_KEY not configured")]) 500)
  else if negb (Py.truthy_opt notion_workouts_db_id) then
    mret (json_response
            (JDict [("error", JStr "NOTION_WORKOUTS_DATABASE_ID not configured")]) 500)
  else
    (* Run the async full sync *)
    let* run :=
      capture (perform_full_sync (default "" notion_api_key)
                                 (default "" notion_workouts_db_id)
                                 notion_routines_db_id notion_templates_db_id
                                 notion_sets_db_id) in
    match run with
    | Raise e =>
        let* stamp := now in
        mret (json_response
                (JDict [ ("status", JStr "error");
                         ("error", JStr (exn_str e));
                         ("timestamp", JStr (isoformat stamp)) ]) 500)
    | Ok result => mret (json_response (JDict result) 200)
    end.

Definition full_sync_handler (environ : gmap string string) : M W http_response :=
  try_except (full_sync_handler_body environ)
             (fun _ => true)
             (let* stamp := now in
              mret (json_response
                      (JDict [ ("status", JStr "error");
                               ("error", JStr "Internal server error");
                               ("timestamp", JStr (isoformat stamp)) ]) 500)).

(** [[ex["exercise_template_id"] for ex in unique_exercises]] *)
Fixpoint template_ids (unique_exercises : list exercise) : result (list string) :=
  match unique_exercises with
  | [] => Ok []
  | ex :: rest =>
      match exercise_template_id ex, template_ids rest with
      | None, _ => Raise (KeyError "exercise_template_id")
      | Some _, Raise e => Raise e
      | Some id, Ok ids => Ok (id :: ids)
      end
  end.

Definition process_workout_webhook (workout_id webhook_id notion_api_key : string)
    (workouts_db_id : string) (routines_db_id templates_db_id sets_db_id : option string)
  : M W dict :=
  (* Fetch workout and routine from Hevy *)
  let* '(fetched, routine_data) := get_workout_and_routine_async workout_id in
  match fetched with
  | None => raise (ValueError ("Failed to fetch workout data for ID: " +:+ workout_id))
  | Some workout_data =>
      (* Sync routine if available *)
      let* routine_page_id :=
        match routine_data with
        | Some routine =>
            if Py.truthy_opt routines_db_id then
              upsert_routine routine notion_api_key (default "" routines_db_id)
            else mret None
        | None => mret None
        end in
      (* Extract and sync exercise templates *)
      let* '(template_count, template_mapping) :=
        if Py.truthy_opt templates_db_id then
          match extract_unique_exercises workout_data with
          | [] => mret (0%nat, ∅)
          | unique_exercises =>
              let* exercise_template_ids := lift (template_ids unique_exercises) in
              let* exercise_templates :=
                get_exercise_templates_async exercise_template_ids in
              match exercise_templates with
              | [] => mret (0%nat, ∅)
              | _ => sync_exercise_templates exercise_templates notion_api_key
                                             (default "" templates_db_id)
              end
          end
        else mret (0%nat, ∅) in
      (* Upsert the workout *)
      let* workout_page_id :=
        upsert_workout workout_data notion_api_key workouts_db_id routine_page_id in
      if negb (Py.truthy_opt workout_page_id) then
        raise (ValueError "Failed to create/update workout in Notion")
      else
        (* Sync all sets if sets database is configured *)
        let* set_count :=
          if Py.truthy_opt sets_db_id then
            let exercises := outer wk_exercises [] workout_data in
            sync_workout_sets (outer wk_id "" workout_data) (default "" workout_page_id)
                              exercises notion_api_key sets_db_id template_mapping
          else mret 0%nat in
        let* stamp := now in
        mret [ ("status", JStr "success");
               ("webhook_id", JStr webhook_id);
               ("workout_id", JStr workout_id);
               ("notion_page_id", json_of_str workout_page_id);
               ("routine_name",
                match routine_data with
                | Some (Bare r) => json_of_str (rt_title r)
                | _ => JNull
                end);
               ("routine_page_id", json_of_str routine_page_id);
               ("exercise_templates_synced", json_of_nat template_count);
               ("sets_synced", json_of_nat set_count);
               ("message", JStr "Workout successfully synced to Notion");
               ("timestamp", JStr (isoformat stamp)) ]
  end.


(** The body of [hevy_workout_webhook] under its outer [try]. *)
Definition hevy_workout_webhook_body (environ : gmap string string) (req : http_request)
  : M W http_response :=
  (* Validate authorization *)
  let webhook_auth_token := environ !! "WEBHOOK_AUTH_TOKEN" in
  let auth_header := default "" (http_headers req !! "Authorization") in
  let expected_auth := "Bearer " +:+ default "" webhook_auth_token in
  if Py.truthy_opt webhook_auth_token && negb (String.eqb auth_header expected_auth) then
    mret (text_response "Unauthorized" 401)
  else
    (* Validate request size *)
    let content_length := http_headers req !! "Content-Length" in
    let* too_large :=
      if Py.truthy_opt content_length then
        match Py.int_of_str (default "" content_length) with
        | Some content_length_int => mret (MAX_REQUEST_SIZE <? content_length_int)%Z
        | None => raise (ValueError (Py.int_error (default "" content_length)))
        end
      else mret false in
    if too_large then
      mret (text_response ("Request too large. Maximum size is "
                           +:+ max_request_megabytes +:+ "MB") 413)
    else
      (* Parse JSON payload *)
      match http_json req with
      | None => mret (text_response "Invalid JSON payload" 400)
      | Some req_body =>
          (* Validate required fields *)
          let* webhook_id := body_get "id" JNull (Some req_body) in
          let* payload := body_get "payload" (JDict []) (Some req_body) in
          let* workout_id := body_get "workoutId" JNull (Some payload) in
          if negb (json_truthy webhook_id) || negb (json_truthy workout_id) then
            mret (text_response
                    "Missing required fields: 'id' and 'payload.workoutId' are required"
                    400)
          else
            (* Sanitize inputs *)
            let* webhook_id := lift (sanitize_text_input webhook_id "webhook_id" 100) in
            let* workout_id := lift (sanitize_text_input workout_id "workout_id" 100) in
            (* Check for required environment variables *)
            let hevy_api_key := environ !! "HEVY_API_KEY" in
            let notion_api_key := environ !! "NOTION_API_KEY" in
            let notion_workouts_db_id := environ !! "NOTION_WORKOUTS_DATABASE_ID" in
            let notion_routines_db_id := environ !! "NOTION_ROUTINES_DATABASE_ID" in
            let notion_templates_db_id :=
              environ !! "NOTION_EXERCISE_TEMPLATES_DATABASE_ID" in
            let notion_sets_db_id := environ !! "NOTION_SETS_DATABASE_ID" in
            if negb (Py.truthy_opt hevy_api_key) then
              mret (text_response "Server configuration error: HEVY_API_KEY not set" 500)
            else if negb (Py.truthy_opt notion_api_key)
                    || negb (Py.truthy_opt notion_workouts_db_id) then
              mret (text_response
                      "Server configuration error: NOTION_API_KEY or NOTION_WORKOUTS_DATABASE_ID not set"
                      500)
            else
              (* Run the async processing *)
              let* run :=
                capture (process_workout_webhook workout_id webhook_id
                           (default "" notion_api_key) (default "" notion_workouts_db_id)
                           notion_routines_db_id notion_templates_db_id
                           notion_sets_db_id) in
              match run with
              | Raise e =>
                  mret (text_response ("Failed to process workout: " +:+ exn_str e) 500)
              | Ok result => mret (json_response (JDict result) 200)
              end
      end.

Definition hevy_workout_webhook (environ : gmap string string) (req : http_request)
  : M W http_response :=
  try_except (hevy_workout_webhook_body environ req)
             (fun _ => true)
             (mret (text_response "Internal server error" 500)).

End Orchestrators.

(* ===================================================================== *)
(** ** The destination service *)
(* ===================================================================== *)

(** The three operations of the destination the engine relies on (query by
    property filter, create a page under a database, patch the properties
    of a page), over a store of pages.  The service assigns page
    identifiers itself and has no uniqueness constraint on any property. *)
Module Notion.

Record page : Type := {
  page_id : string;
  parent : string;          (* database id *)
  properties : dict
}.

Record store : Type := {
  databases : list string;
  pages : list page;
  minted : nat              (* identifiers handed out so far *)
}.

Definition mint (n : nat) : string := "page-" +:+ Py.str_of_nat n.

Definition query_url (database_id : string) : string :=
  "https://api.notion.com/v1/databases/" +:+ database_id +:+ "/query".
Definition pages_url : string := "https://api.notion.com/v1/pages".
Definition page_url (page_id : string) : string :=
  "https://api.notion.com/v1/pages/" +:+ page_id.

Definition page_json (p : page) : json :=
  JDict [ ("object", JStr "page");
          ("id", JStr (page_id p));
          ("parent", JDict [("database_id", JStr (parent p))]);
          ("properties", JDict (properties p)) ].

(** The text of a [title] or [rich_text] property value. *)
Definition plain_text (kind : string) (value : json) : option string :=
  match value with
  | JDict fields =>
      match Dict.get kind fields with
      | Some (JList [JDict item]) =>
          match Dict.get "text" item with
          | Some (JDict text) =>
              match Dict.get "content" text with
              | Some (JStr s) => Some s
              | _ => None
              end
          | _ => None
          end
      | _ => None
      end
  | _ => None
  end.

(** Does page [p] of database [database_id] carry [value] in its
    property [property] of kind [kind]? *)
Definition matches (database_id kind property value : string) (p : page) : bool :=
  String.eqb (parent p) database_id &&
  match Dict.get property (properties p) with
  | Some v =>
      match plain_text kind v with
      | Some s => String.eqb s value
      | None => false
      end
  | None => false
  end.

(** The records of a database whose identifier property equals
    [value]. *)
Definition records (s : store) (database_id property value : string) : list page :=
  List.filter (matches database_id "rich_text" property value) (pages s).

Definition ok (j : json) : response :=
  {| resp_status := 200; resp_retry_after := None; resp_json := j; resp_text := "" |}.

Definition failure (status : Z) (message : string) : response :=
  {| resp_status := status; resp_retry_after := None;
     resp_json := JDict [("object", JStr "error"); ("message", JStr message)];
     resp_text := message |}.

(** [{"filter": {"property": p, kind: {"equals": v}}}] *)
Definition parse_filter (payload : option json) : option (string * string * string) :=
  match payload with
  | Some (JDict fields) =>
      match Dict.get "filter" fields with
      | Some (JDict [("property", JStr property); (kind, JDict [("equals", JStr value)])]) =>
          if String.eqb kind "rich_text" || String.eqb kind "title"
          then Some (property, kind, value) else None
      | _ => None
      end
  | _ => None
  end.

Definition query (s : store) (database_id : string) (payload : option json) : reply * store :=
  match parse_filter payload with
  | Some (property, kind, value) =>
      let found := List.filter (matches database_id kind property value) (pages s) in
      (Response (ok (JDict [ ("object", JStr "list");
                             ("results", JList (page_json <$> found)) ])), s)
  | None => (Response (failure 400 "body failed validation"), s)
  end.

(** [{"parent": {"database_id": d}, "properties": {...}}] *)
Definition parse_create (payload : option json) : option (string * dict) :=
  match payload with
  | Some (JDict fields) =>
      match Dict.get "parent" fields, Dict.get "properties" fields with
      | Some (JDict [("database_id", JStr database_id)]), Some (JDict props) =>
          Some (database_id, props)
      | _, _ => None
      end
  | _ => None
  end.

Definition new_page (s : store) (database_id : string) (props : dict) : page :=
  {| page_id := mint (minted s); parent := database_id; properties := props |}.

(** The store after a page was created under [database_id]. *)
Definition with_new_page (s : store) (database_id : string) (props : dict) : store :=
  {| databases := databases s;
     pages := pages s ++ [new_page s database_id props];
     minted := S (minted s) |}.

Definition create (s : store) (payload : option json) : reply * store :=
  match parse_create payload with
  | Some (database_id, props) =>
      if bool_decide (database_id ∈ databases s) then
        (Response (ok (page_json (new_page s database_id props))),
         with_new_page s database_id props)
      else (Response (failure 404 "Could not find database"), s)
  | None => (Response (failure 400 "body failed validation"), s)
  end.

(** [{"properties": {...}}] *)
Definition parse_update (payload : option json) : option dict :=
  match payload with
  | Some (JDict fields) =>
      match Dict.get "properties" fields with
      | Some (JDict props) => Some props
      | _ => None
      end
  | _ => None
  end.

Definition patched (id : string) (props : dict) (p : page) : page :=
  if String.eqb (page_id p) id then
    {| page_id := page_id p; parent := parent p;
       properties := Dict.merge (properties p) props |}
  else p.

(** The store after the pages called [id] were patched. *)
Definition with_patched_page (s : store) (id : string) (props : dict) : store :=
  {| databases := databases s;
     pages := patched id props <$> pages s;
     minted := minted s |}.

Definition update (s : store) (target : page) (payload : option json) : reply * store :=
  match parse_update payload with
  | Some props =>
      (Response (ok (page_json (patched (page_id target) props target))),
       with_patched_page s (page_id target) props)
  | None => (Response (failure 400 "body failed validation"), s)
  end.

(** What the upsert of [value] with [props] does to the store and the
    page identifier it yields: the first record that carries [value] is
    patched, or a page is created. *)
Definition upserted (s : store) (database_id value : string) (props : dict)
  : store * string :=
  match records s database_id "Hevy ID" value with
  | p :: _ => (with_patched_page s (page_id p) props, page_id p)
  | [] => (with_new_page s database_id props, mint (minted s))
  end.

Definition serve (r : request) (s : store) : reply * store :=
  if String.eqb (req_method r) "POST" then
    if String.eqb (req_url r) pages_url then create s (req_json r)
    else
      match List.find (fun d => String.eqb (req_url r) (query_url d)) (databases s) with
      | Some database_id => query s database_id (req_json r)
      | None => (Response (failure 404 "Could not find database"), s)
      end
  else if String.eqb (req_method r) "PATCH" then
    match List.find (fun p => String.eqb (req_url r) (page_url (page_id p))) (pages s) with
    | Some target => update s target (req_json r)
    | None => (Response (failure 404 "Could not find page"), s)
    end
  else (Response (failure 400 "Invalid request URL"), s).

(** The three requests of the engine. *)
Definition query_request (notion_api_key database_id value : string) : request :=
  request_of "POST" (query_url database_id) (get_notion_headers notion_api_key)
    (Some (JDict [("filter",
                   JDict [ ("property", JStr "Hevy ID");
                           ("rich_text", JDict [("equals", JStr value)]) ])])).

Definition create_request (notion_api_key database_id : string) (props : dict) : request :=
  request_of "POST" pages_url (get_notion_headers notion_api_key)
    (Some (JDict [ ("parent", JDict [("database_id", JStr database_id)]);
                   ("properties", JDict props) ])).

Definition update_request (notion_api_key id : string) (props : dict) : request :=
  request_of "PATCH" (page_url id) (get_notion_headers notion_api_key)
    (Some (JDict [("properties", JDict props)])).

(** A property set carries [value] as its source identifier. *)
Definition carries (props : dict) (value : string) : Prop :=
  Dict.get "Hevy ID" props = Some (rich_text_prop value).

(** A run against the service alone, with every send answered; the
    clock stands at [clock]. *)
Definition host (clock : datetime) : Host store :=
  {| send := serve; utcnow := fun _ => clock |}.

(** Identifiers are distinct, non-empty, and none collides with one the
    service has yet to hand out. *)
Definition wf (s : store) : Prop :=
  NoDup (page_id <$> pages s) ∧
  Forall (fun p => page_id p ≠ "") (pages s) ∧
  Forall (fun p => forall k, (minted s <= k)%nat -> page_id p ≠ mint k) (pages s).

End Notion.

(** A store with one workout page that another client wrote, and a
    workout of the source. *)
Definition one_workout_store : Notion.store :=
  {| Notion.databases := ["workouts-db"; "sets-db"];
     Notion.pages :=
       [ {| Notion.page_id := "1a2b-3c4d"; Notion.parent := "workouts-db";
            Notion.properties := [ ("Name", title_prop "Push day");
                                   ("Hevy ID", rich_text_prop "w1") ] |} ];
     Notion.minted := 0 |}.

Definition push_day : workout :=
  {| wk_id := Some "w1"; wk_title := Some "Push day"; wk_description := None;
     wk_start_time := Some "2025-01-05T09:00:00+00:00"; wk_end_time := None;
     wk_created_at := None; wk_exercises := None; routine_id := None |}.

Definition heavy_set : set_data :=
  {| set_type := Some "normal"; weight_kg := Some 100%float; reps := Some 5%Z;
     distance_meters := None; duration_seconds := None; rpe := None |}.

Definition bench_press : exercise :=
  {| ex_title := Some "Bench Press (Barbell)"; ex_superset_id := None; ex_notes := None;
     exercise_template_id := Some "79D0BB3A"; ex_sets := Some [heavy_set; heavy_set] |}.

(** Two upserts in a row of the entity with source id [hevy_id] into
    [database_id], from any well-formed store that holds at most one
    record for it: both return the same page id and exactly one record
    carries the source id afterwards. *)
Definition idempotent_upsert (database_id hevy_id : string)
    (first second : M Notion.store (option string)) : Prop :=
  ∀ s : Notion.store,
    Notion.wf s ->
    database_id ∈ Notion.databases s ->
    length (Notion.records s database_id "Hevy ID" hevy_id) ≤ 1 ->
    ∃ (page_id : string) (s1 s2 : Notion.store) (t1 t2 : list event),
      first s = (Ok (Some page_id), s1, t1) ∧
      second s1 = (Ok (Some page_id), s2, t2) ∧
      length (Notion.records s1 database_id "Hevy ID" hevy_id) = 1 ∧
      length (Notion.records s2 database_id "Hevy ID" hevy_id) = 1.

(* ===================================================================== *)
(** ** Runs of the gateway *)
(* ===================================================================== *)

(** The delay a 429 response asks for at pass [attempt], when [int()]
    accepts the header. *)
Definition suggested_delay (attempt : nat) (retry_after : option string) : option Z :=
  match retry_after with
  | None => Some (NOTION_RETRY_BASE_DELAY * 2 ^ Z.of_nat attempt)%Z
  | Some text => Py.int_of_str text
  end.

Definition rate_limit (retry_after : option string) : response :=
  {| resp_status := 429; resp_retry_after := retry_after;
     resp_json := JNull; resp_text := "rate_limited" |}.

Definition epoch : datetime :=
  {| isoformat := "1970-01-01T00:00:00"; microseconds := 0 |}.

(** A destination that answers every request with 429 and tells, as a
    date, when to come back. *)
Definition come_back_later : Host unit :=
  {| send := fun _ _ =>
       (Response (rate_limit (Some "Wed, 21 Oct 2015 07:28:00 GMT")), tt);
     utcnow := fun _ => epoch |}.

(** A host that answers the sends it receives from a script, in order. *)
Definition scripted : Host (list reply) :=
  {| send := fun _ script =>
       match script with
       | [] => (Broken "connection closed", [])
       | r :: rest => (r, rest)
       end;
     utcnow := fun _ => epoch |}.

(** The events of a pass that is answered 429 and asks for [delay]. *)
Definition limited_pass (r : request) (delay : Z) : list event :=
  [ Slept NOTION_REQUEST_DELAY; Sent r;
    Slept (inject_Z (Z.min delay NOTION_MAX_RETRY_DELAY)) ].

(** A batch of five exercise templates and a script under which the task
    of the third raises: its query meets a connection error.  The others
    find no page and create one. *)
Definition template_named (id title : string) : exercise_template :=
  {| et_id := Some id; et_title := Some title; et_type := Some "weight_reps";
     et_primary_muscle_group := Some "upper_back"; et_secondary_muscle_groups := None;
     et_equipment_category := Some "barbell"; et_is_custom := Some false |}.

Definition five_templates : list (enveloped exercise_template) :=
  [ Bare (template_named "T1" "Squat"); Bare (template_named "T2" "Bench Press");
    Wrapped (template_named "T3" "Deadlift"); Bare (template_named "T4" "Row");
    Wrapped (template_named "T5" "Press") ].

Definition no_match : reply :=
  Response {| resp_status := 200; resp_retry_after := None;
              resp_json := JDict [("object", JStr "list"); ("results", JList [])];
              resp_text := "" |}.

Definition created (page_id : string) : reply :=
  Response {| resp_status := 200; resp_retry_after := None;
              resp_json := JDict [("object", JStr "page"); ("id", JStr page_id)];
              resp_text := "" |}.



(** A Hevy client that serves one workout and nothing else. *)
Definition leg_day : workout :=
  {| wk_id := Some "w1"; wk_title := Some "Leg day"; wk_description := None;
     wk_start_time := None; wk_end_time := None; wk_created_at := None;
     wk_exercises := Some [bench_press]; routine_id := None |}.

Definition canned_source (W : Type) : HevyApi W :=
  {| get_all_exercise_templates := mret [];
     get_all_routines := mret [];
     get_all_workouts := mret [Bare leg_day];
     get_workout_and_routine_async := fun _ => mret (Some (Bare leg_day), None);
     get_exercise_templates_async := fun _ => mret [];
     extract_unique_exercises := fun _ => [];
     sanitize_text_input := fun j _ _ =>
       match j with
       | JStr s => Ok s
       | _ => Raise (ValueError "not a text")
       end;
     MAX_REQUEST_SIZE := 10485760;
     max_request_megabytes := "10" |}.

Definition one_workout_source : HevyApi (list reply) := canned_source (list reply).

Definition rejected : reply :=
  Response {| resp_status := 400; resp_retry_after := None; resp_json := JNull;
              resp_text := "validation_error" |}.

(** A destination that rejects whatever it is sent. *)
Definition rejecting : Host unit :=
  {| send := fun _ _ => (rejected, tt); utcnow := fun _ => epoch |}.

(** The source id a request is about: the value its query asks for, or
    the "Hevy ID" of the property set it writes. *)
Definition subject (r : request) : option string :=
  match Notion.parse_filter (req_json r) with
  | Some (_, _, value) => Some value
  | None =>
      match req_json r with
      | Some (JDict fields) =>
          match Dict.get "properties" fields with
          | Some (JDict props) =>
              match Dict.get "Hevy ID" props with
              | Some value => Notion.plain_text "rich_text" value
              | None => None
              end
          | _ => None
          end
      | _ => None
      end
  end.

Definition about (ids : list string) (r : request) : bool :=
  match subject r with
  | Some id => existsb (String.eqb id) ids
  | None => false
  end.

(** Every request about one of [ids] meets a connection error. *)
Definition cut_off (ids : list string) (r : request) : option reply :=
  if about ids r then Some (Broken "connection reset") else None.

(** The queries are served; the page of each of [ids] is rejected when it
    is written. *)
Definition turned_down (ids : list string) (r : request) : option reply :=
  match Notion.parse_filter (req_json r) with
  | Some _ => None
  | None => if about ids r then Some rejected else None
  end.

(** The destination service with faults: a request that [fault] picks
    gets the reply [fault] gives and leaves the store as it is; any other
    request is served.  What a request is answered depends on the request
    and on the records of its source id, not on the place of the request
    among the others. *)
Definition faulty (fault : request -> option reply) (clock : datetime) : Host Notion.store :=
  {| send := fun r s =>
       match fault r with
       | Some rep => (rep, s)
       | None => Notion.serve r s
       end;
     utcnow := fun _ => clock |}.

(** The name a request gives the page it writes. *)
Definition title_of (r : request) : option string :=
  match req_json r with
  | Some (JDict fields) =>
      match Dict.get "properties" fields with
      | Some (JDict props) =>
          match Dict.get "Name" props with
          | Some value => Notion.plain_text "title" value
          | None => None
          end
      | _ => None
      end
  | _ => None
  end.

(** A destination that finds no page and creates every page under the
    name its property set gives it, unless [fault] picks the request.
    What a request is answered depends on the request alone. *)
Definition naming (fault : request -> option reply) : Host unit :=
  {| send := fun r _ =>
       (match fault r with
        | Some rep => rep
        | None =>
            match Notion.parse_filter (req_json r) with
            | Some _ => no_match
            | None =>
                match title_of r with
                | Some name => created name
                | None => rejected
                end
            end
        end, tt);
     utcnow := fun _ => epoch |}.

(** Every search finds nothing and every creation is answered with a
    page. *)
Definition all_created : list reply :=
  [ no_match; created "page-1"; no_match; created "page-2"; no_match; created "page-3" ].


Definition configured : gmap string string :=
  {[ "HEVY_API_KEY" := "hevy-key"; "NOTION_API_KEY" := "secret";
     "NOTION_WORKOUTS_DATABASE_ID" := "workouts-db";
     "NOTION_SETS_DATABASE_ID" := "sets-db" ]}.

Definition workout_event : http_request :=
  {| http_headers := ∅;
     http_json := Some (JDict [ ("id", JStr "evt-1");
                                ("payload", JDict [("workoutId", JStr "w1")]) ]) |}.

(** How a run of the gateway that returns has ended. *)
Inductive ending : Type :=
  | answered_ok         (* a response with status 200 *)
  | answered_error      (* a response with a status other than 200 and 429 *)
  | timed_out           (* the last attempt ran into the time-out *)
  | rate_limited_out.   (* the last attempt, like those before, ended in a retry *)

Section GatewayRuns.

Context {W : Type} `{Host W}.

(** The passes over [attempts] from [w] all end in [continue]; the world
    and the events they leave behind. *)
Fixpoint retried (method url : string) (headers : list (string * string))
    (json_data : option json) (attempts : list nat) (w : W)
  : option (W * list event) :=
  match attempts with
  | [] => Some (w, [])
  | attempt :: rest =>
      match attempt_once method url headers json_data attempt w with
      | (Ok Continue, w1, t1) =>
          match retried method url headers json_data rest w1 with
          | Some (w2, t2) => Some (w2, t1 ++ t2)
          | None => None
          end
      | _ => None
      end
  end.


(** The run of the gateway from [w] that returned [result] in the world
    [w1] with the events [t1] has ended in the way [e]: after some passes
    that all ended in a retry, the reply to the next send was a response
    with status 200, whose decoded document is the body of the result; or
    a response with another status than 200 and 429, whose status and
    text are in the result; or that send was the fifth and timed out; or
    all five passes ended in a retry, the fifth on a response with status
    429. *)
Definition ended (method url : string) (headers : list (string * string))
    (json_data : option json) (w : W) (result : triple) (w1 : W) (t1 : list event)
    (e : ending) : Prop :=
  let r := request_of method url headers json_data in
  match e with
  | answered_ok =>
      ∃ passes w0 t0 resp,
        (passes < NOTION_MAX_RETRIES)%nat ∧
        retried method url headers json_data (seq 0 passes) w = Some (w0, t0) ∧
        send r w0 = (Response resp, w1) ∧
        t1 = t0 ++ [Slept NOTION_REQUEST_DELAY; Sent r] ∧
        resp_status resp = 200%Z ∧
        result = (200%Z, decoded (resp_json resp), None)
  | answered_error =>
      ∃ passes w0 t0 resp,
        (passes < NOTION_MAX_RETRIES)%nat ∧
        retried method url headers json_data (seq 0 passes) w = Some (w0, t0) ∧
        send r w0 = (Response resp, w1) ∧
        t1 = t0 ++ [Slept NOTION_REQUEST_DELAY; Sent r] ∧
        resp_status resp ≠ 200%Z ∧ resp_status resp ≠ 429%Z ∧
        result = (resp_status resp, None, Some (resp_text resp))
  | timed_out =>
      ∃ w0 t0,
        retried method url headers json_data (seq 0 (NOTION_MAX_RETRIES - 1)) w
        = Some (w0, t0) ∧
        send r w0 = (TimedOut, w1) ∧
        t1 = t0 ++ [Slept NOTION_REQUEST_DELAY; Sent r] ∧
        result = (0%Z, None, Some "Request timeout after retries")
  | rate_limited_out =>
      ∃ w0 t0 resp delay,
        retried method url headers json_data (seq 0 (NOTION_MAX_RETRIES - 1)) w
        = Some (w0, t0) ∧
        send r w0 = (Response resp, w1) ∧
        resp_status resp = 429%Z ∧
        suggested_delay (NOTION_MAX_RETRIES - 1) (resp_retry_after resp) = Some delay ∧
        t1 = t0 ++ limited_pass r delay ∧
        result = (429%Z, None, Some "Rate limited after max retries")
  end.

End GatewayRuns.

(* ===================================================================== *)
(** ** Runs that meet time-outs *)
(* ===================================================================== *)

Section TimedOutRuns.

Context {W : Type} `{Host W}.

(** From [w] on, [n] sends of [r] in a row run into the 30 s time-out;
    [w'] is the world they leave. *)
Fixpoint timing_out (r : request) (n : nat) (w w' : W) : Prop :=
  match n with
  | O => w' = w
  | S n' => ∃ w1, send r w = (TimedOut, w1) ∧ timing_out r n' w1 w'
  end.

End TimedOutRuns.

(** The events of a pass that times out and is followed by another one
    after [delay] seconds. *)
Definition timed_out_pass (r : request) (delay : Z) : list event :=
  [ Slept NOTION_REQUEST_DELAY; Sent r; Slept (inject_Z delay) ].

(** A host on which every send runs into the time-out. *)
Definition unreachable : Host unit :=
  {| send := fun _ _ => (TimedOut, tt); utcnow := fun _ => epoch |}.

(* ===================================================================== *)
(** ** What an upsert sends and what it leaves behind *)
(* ===================================================================== *)

(** A computation that neither sends nor sleeps nor changes the world. *)
Definition silent {W A} (m : M W A) : Prop := ∀ w, ∃ r, m w = (r, w, []).

(** The requests of one upsert: the query for the source id, at most five
    times, then one write, at most five times, which creates a page under
    the database or patches one page. *)
Definition query_then_write (notion_api_key database_id hevy_id : string) (props : dict)
    (t : list event) : Prop :=
  ∃ (n m : nat) (write : request),
    n ≤ NOTION_MAX_RETRIES ∧ m ≤ NOTION_MAX_RETRIES ∧
    sent t = replicate n (Notion.query_request notion_api_key database_id hevy_id)
             ++ replicate m write ∧
    (write = Notion.create_request notion_api_key database_id props ∨
     ∃ page_id, page_id ≠ "" ∧ write = Notion.update_request notion_api_key page_id props).

(** An upsert of the entity with source id [hevy_id] into [database_id],
    run against the destination from any well-formed store: it returns the
    id of a record that now carries the source id; it adds a record only
    when there was none, and never removes one; the records of every other
    source id, and of every other database, are what they were. *)
Definition touches_one_record (database_id hevy_id : string)
    (upsert : M Notion.store (option string)) : Prop :=
  ∀ s : Notion.store,
    Notion.wf s ->
    database_id ∈ Notion.databases s ->
    ∃ (page_id : string) (s' : Notion.store) (t : list event),
      upsert s = (Ok (Some page_id), s', t) ∧
      Notion.wf s' ∧
      (∃ q, q ∈ Notion.records s' database_id "Hevy ID" hevy_id ∧
            Notion.page_id q = page_id) ∧
      length (Notion.records s' database_id "Hevy ID" hevy_id)
      = Nat.max 1 (length (Notion.records s database_id "Hevy ID" hevy_id)) ∧
      ∀ database_id' hevy_id',
        (database_id', hevy_id') ≠ (database_id, hevy_id) ->
        Notion.records s' database_id' "Hevy ID" hevy_id'
        = Notion.records s database_id' "Hevy ID" hevy_id'.

(** A store in which two pages already carry the source id "w1". *)
Definition duplicated_store : Notion.store :=
  {| Notion.databases := ["workouts-db"; "sets-db"];
     Notion.pages :=
       [ {| Notion.page_id := "1a2b-3c4d"; Notion.parent := "workouts-db";
            Notion.properties := [ ("Name", title_prop "Push day");
                                   ("Hevy ID", rich_text_prop "w1") ] |};
         {| Notion.page_id := "5e6f-7a8b"; Notion.parent := "workouts-db";
            Notion.properties := [ ("Name", title_prop "Push day");
                                   ("Hevy ID", rich_text_prop "w1") ] |};
         {| Notion.page_id := "9c0d-1e2f"; Notion.parent := "workouts-db";
            Notion.properties := [ ("Name", title_prop "Pull day");
                                   ("Hevy ID", rich_text_prop "w2") ] |} ];
     Notion.minted := 0 |}.

Definition server_error : reply :=
  Response {| resp_status := 502; resp_retry_after := None; resp_json := JNull;
              resp_text := "Bad Gateway" |}.

(* ===================================================================== *)
(** ** Readings of the property sets *)
(* ===================================================================== *)

(** [s] holds no occurrence of [c]. *)
Fixpoint lacks (c : ascii) (s : string) : Prop :=
  match s with
  | EmptyString => True
  | String c' rest => c' ≠ c ∧ lacks c rest
  end.






(** The number of sets of a workout. *)
Definition sets_of (workout_data : workout) : nat :=
  list_sum ((fun ex => length (default [] (ex_sets ex)))
              <$> default [] (wk_exercises workout_data)).




(** A destination with a workouts and a sets database and no page yet. *)
Definition blank_store : Notion.store :=
  {| Notion.databases := ["workouts-db"; "sets-db"]; Notion.pages := [];
     Notion.minted := 0 |}.

(** Workouts that name a routine: one by the id "r-1", one by the empty
    id. *)
Definition routine_day (id : string) (routine : option string) : workout :=
  {| wk_id := Some id; wk_title := Some "Push day"; wk_description := None;
     wk_start_time := None; wk_end_time := None; wk_created_at := None;
     wk_exercises := None; routine_id := routine |}.

(** A reference to [page_id] in a relation property. *)
Definition relation_to (page_id : string) : json :=
  JDict [("relation", JList [JDict [("id", JStr page_id)]])].

(** A character that has an upper and a lower case. *)
Definition cased (c : ascii) : bool := Py.is_lower c || Py.is_upper c.

(** Two templates of a batch that carry the same source id. *)
Definition twin_templates : list (enveloped exercise_template) :=
  [ Bare (template_named "T1" "Squat"); Wrapped (template_named "T1" "Squat (Barbell)") ].

(* ===================================================================== *)
(** ** Requests to the webhook endpoint *)
(* ===================================================================== *)

(** A request passes the authorization check of the webhook: no token is
    configured, or its Authorization header is "Bearer " followed by the
    token. *)
Definition authorised (environ : gmap string string) (req : http_request) : Prop :=
  Py.truthy_opt (environ !! "WEBHOOK_AUTH_TOKEN") = false ∨
  http_headers req !! "Authorization"
  = Some ("Bearer " +:+ default "" (environ !! "WEBHOOK_AUTH_TOKEN")).

(** A request passes the size check of the webhook: it states no length,
    or one that is not above the limit. *)
Definition fits {W : Type} `{HevyApi W} (req : http_request) : Prop :=
  Py.truthy_opt (http_headers req !! "Content-Length") = false ∨
  ∃ n, Py.int_of_str (default "" (http_headers req !! "Content-Length")) = Some n ∧
       (n <= MAX_REQUEST_SIZE)%Z.

(** [d.get(key)] as a value: a missing key reads as [None]. *)
Definition field (key : string) (d : dict) : json :=
  from_option id JNull (Dict.get key d).



Definition is_object (j : json) : bool :=
  match j with
  | JDict _ => true
  | _ => false
  end.

(** An event whose bearer token is "s3cret". *)
Definition guarded : gmap string string := <["WEBHOOK_AUTH_TOKEN" := "s3cret"]> configured.

Definition with_headers (headers : gmap string string) (req : http_request) : http_request :=
  {| http_headers := headers; http_json := http_json req |}.

(** A Hevy client that knows no workout. *)
Definition empty_source (W : Type) : HevyApi W :=
  {| get_all_exercise_templates := mret [];
     get_all_routines := mret [];
     get_all_workouts := mret [];
     get_workout_and_routine_async := fun _ => mret (None, None);
     get_exercise_templates_async := fun _ => mret [];
     extract_unique_exercises := fun _ => [];
     sanitize_text_input := fun j _ _ =>
       match j with
       | JStr s => Ok s
       | _ => Raise (ValueError "not a text")
       end;
     MAX_REQUEST_SIZE := 10485760;
     max_request_megabytes := "10" |}.

Definition event_of (headers : gmap string string) (body : option json) : http_request :=
  {| http_headers := headers; http_json := body |}.

(* ===================================================================== *)
(** ** The legacy writer *)
(* ===================================================================== *)

(** [add_workout_to_notion] of [notion_handler.py] talks to the
    destination through the blocking [requests] library: one send for each
    call, no pacing and no retry.  The exceptions of that library all
    derive from [requests.exceptions.RequestException], which the function
    catches around its search and update; they are carried as values, next
    to the exceptions of [M]. *)
Inductive request_exception : Type :=
  | ConnectionError (msg : string)   (* requests.exceptions.ConnectionError *)
  | ReadTimeout                      (* requests.exceptions.Timeout *)
  | HTTPError (status : Z).          (* raised by raise_for_status() *)

(** A computation that may raise a [RequestException]. *)
Definition rbind {W A B} (m : M W (request_exception + A))
    (k : A -> M W (request_exception + B)) : M W (request_exception + B) :=
  let* outcome := m in
  match outcome with
  | inl e => mret (inl e)
  | inr a => k a
  end.

Notation "'let?' x ':=' m 'in' k" := (rbind m (fun x => k))
  (at level 10, x name, m at level 100, k at level 200,
   format "'let?'  x  ':='  m  'in' '//' k") : monad_scope.

(** The property set of the legacy writer: the title goes under "Title". *)
Definition legacy_properties (last_synced : datetime) (workout_data : workout) : dict :=
  let workout_id := default "" (wk_id workout_data) in
  let title := default "Workout" (wk_title workout_data) in
  let start_time := wk_start_time workout_data in
  let exercises := default [] (wk_exercises workout_data) in
  let properties :=
    [ ("Title", title_prop title);
      ("Hevy ID", rich_text_prop workout_id);
      ("Exercise Count", number_prop (JInt (Z.of_nat (length exercises))));
      ("Total Sets",
       number_prop
         (JInt (Z.of_nat (list_sum ((fun ex => length (default [] (ex_sets ex)))
                                      <$> exercises)))));
      ("Last Synced", date_prop (isoformat last_synced)) ] in
  set_if (Py.truthy_opt start_time) "Start Time" (date_prop (default "" start_time))
         properties.

Section Legacy.

Context {W : Type} `{Host W}.

(** [requests.post(url, headers=…, json=…, timeout=10)] and
    [requests.patch(…)] *)
Definition requests_call (r : request) : M W (request_exception + response) :=
  fun w =>
    match send r w with
    | (Response resp, w1) => (Ok (inr resp), w1, [Sent r])
    | (TimedOut, w1) => (Ok (inl ReadTimeout), w1, [Sent r])
    | (Broken msg, w1) => (Ok (inl (ConnectionError msg)), w1, [Sent r])
    end.

(** [response.raise_for_status()]: an [HTTPError] for a 4xx or 5xx
    status. *)
Definition raise_for_status (r : response) : M W (request_exception + unit) :=
  if (400 <=? resp_status r)%Z && (resp_status r <? 600)%Z
  then mret (inl (HTTPError (resp_status r)))
  else mret (inr tt).

(** The [try] block of [add_workout_to_notion]: [Some page] when it
    returns the updated page, [None] when it falls through to the
    creation. *)
Definition search_and_update (notion_workouts_db_id : string)
    (headers : list (string * string)) (workout_id : string) (properties : dict)
  : M W (request_exception + option json) :=
  let search_payload :=
    JDict [("filter", JDict [ ("property", JStr "Hevy ID");
                              ("rich_text", JDict [("equals", JStr workout_id)]) ])] in
  let? search_response :=
    requests_call {| req_method := "POST";
                     req_url := "https://api.notion.com/v1/databases/"
                                +:+ notion_workouts_db_id +:+ "/query";
                     req_headers := headers; req_json := Some search_payload |} in
  if (resp_status search_response =? 200)%Z then
    let* results := body_get "results" (JList []) (decoded (resp_json search_response)) in
    if json_truthy results then
      let* page_id := first_result_id results in
      let? update_response :=
        requests_call {| req_method := "PATCH";
                         req_url := "https://api.notion.com/v1/pages/" +:+ Py.format page_id;
                         req_headers := headers;
                         req_json := Some (JDict [("properties", JDict properties)]) |} in
      if (resp_status update_response =? 200)%Z then
        mret (inr (Some (resp_json update_response)))
      else
        let? _ := raise_for_status update_response in
        mret (inr None)
    else mret (inr None)
  else mret (inr None).

Definition add_workout_to_notion (environ : gmap string string) (workout_data : workout)
    (routine_name : option string) : M W (request_exception + json) :=
  let notion_api_key := environ !! "NOTION_API_KEY" in
  let notion_workouts_db_id := environ !! "NOTION_WORKOUTS_DATABASE_ID" in
  if negb (Py.truthy_opt notion_api_key) || negb (Py.truthy_opt notion_workouts_db_id) then
    raise (ValueError "NOTION_API_KEY and NOTION_WORKOUTS_DATABASE_ID must be set")
  else
    let headers := get_notion_headers (default "" notion_api_key) in
    let workout_id := default "" (wk_id workout_data) in
    let* last_synced := now in
    let properties := legacy_properties last_synced workout_data in
    (* Check if exists *)
    let* attempt :=
      search_and_update (default "" notion_workouts_db_id) headers workout_id properties in
    match attempt with
    | inr (Some page) => mret (inr page)
    | _ =>
        (* except RequestException: logging.warning(...), or no page was
           updated; create new *)
        let payload :=
          JDict [ ("parent", JDict [("database_id", json_of_str notion_workouts_db_id)]);
                  ("properties", JDict properties) ] in
        let? response :=
          requests_call {| req_method := "POST"; req_url := "https://api.notion.com/v1/pages";
                           req_headers := headers; req_json := Some payload |} in
        if negb (resp_status response =? 200)%Z then
          let? _ := raise_for_status response in
          mret (inr (resp_json response))
        else mret (inr (resp_json response))
    end.

End Legacy.

(** The environment of the legacy writer. *)
Definition legacy_environ : gmap string string :=
  {[ "NOTION_API_KEY" := "secret"; "NOTION_WORKOUTS_DATABASE_ID" := "workouts-db" ]}.

(** The search finds the page "1a2b-3c4d". *)
Definition one_match : reply :=
  Response {| resp_status := 200; resp_retry_after := None;
              resp_json := JDict [ ("object", JStr "list");
                                   ("results",
                                    JList [JDict [ ("object", JStr "page");
                                                   ("id", JStr "1a2b-3c4d") ]]) ];
              resp_text := "" |}.

(** A computation that never sleeps and sends at most [n] requests,
    however it ends. *)
Definition sends_at_most {W A} (n : nat) (m : M W A) : Prop :=
  ∀ w res w' t, m w = (res, w', t) -> sleeps t = [] ∧ length (sent t) ≤ n.

(* ===================================================================== *)
(** ** The image endpoint: request limiter *)
(* ===================================================================== *)

(** [check_rate_limit] of [function_app.py] keeps, for every client, the
    arrival times of the requests it let through during the last minute.
    A [datetime] is its position on the time line in microseconds;
    [now] is what [datetime.now()] returns at the call. *)

Definition MAX_REQUESTS_PER_MINUTE : nat := 10.

(** [timedelta(minutes=1)] *)
Definition one_minute : Z := 60000000.

(** [td.total_seconds()] for a [timedelta] of [us] microseconds *)
Definition total_seconds (us : Z) : float := Py.truediv us 1000000.

(** [int(x)] for a finite [float]: truncation towards zero.  (Python
    raises on an infinity or a NaN, which a time difference never is.) *)
Definition int_of_float (x : float) : Z :=
  match Prim2SF x with
  | S754_finite negative m e =>
      let magnitude :=
        if (0 <=? e)%Z then (Z.pos m * 2 ^ e)%Z else (Z.pos m / 2 ^ (- e))%Z in
      if negative then (- magnitude)%Z else magnitude
  | _ => 0%Z
  end.

(** [min(l)] for a non-empty list *)
Definition minimum (l : list Z) : Z :=
  match l with
  | [] => 0%Z
  | x :: rest => foldr Z.min x rest
  end.

Definition check_rate_limit (identifier : string) (now : Z)
    (request_counts : gmap string (list Z)) : (bool * Z) * gmap string (list Z) :=
  let cutoff := (now - one_minute)%Z in
  (* Clean old entries *)
  let recent :=
    List.filter (fun req_time => (cutoff <? req_time)%Z)
                (default [] (request_counts !! identifier)) in
  let request_counts := <[identifier := recent]> request_counts in
  (* Check limit *)
  if (MAX_REQUESTS_PER_MINUTE <=? length recent)%nat then
    let oldest := minimum recent in
    let retry_after := int_of_float (total_seconds (oldest + one_minute - now)) in
    ((false, retry_after), request_counts)
  else
    (* Add current request *)
    ((true, 0%Z), <[identifier := recent ++ [now]]> request_counts).

(** The decisions for a sequence of requests, each given by its client
    and the reading of the clock at its arrival. *)
Fixpoint decisions (calls : list (string * Z)) (request_counts : gmap string (list Z))
  : list bool :=
  match calls with
  | [] => []
  | (identifier, now) :: rest =>
      let '((is_allowed, _), request_counts) :=
        check_rate_limit identifier now request_counts in
      is_allowed :: decisions rest request_counts
  end.

(** The arrival times of the requests of [identifier] that were let
    through. *)
Definition admitted (identifier : string) (calls : list (string * Z)) (allowed : list bool)
  : list Z :=
  omap (fun ca : string * Z * bool =>
          if ca.2 && String.eqb ca.1.1 identifier then Some ca.1.2 else None)
       (zip calls allowed).

(** The decisions taken for the requests of [identifier]. *)
Definition decided (identifier : string) (calls : list (string * Z)) (allowed : list bool)
  : list bool :=
  omap (fun ca : string * Z * bool =>
          if String.eqb ca.1.1 identifier then Some ca.2 else None)
       (zip calls allowed).

(** The clock does not go back: the readings start at [lo] or later and
    never decrease. *)
Fixpoint non_decreasing_from (lo : Z) (times : list Z) : Prop :=
  match times with
  | [] => True
  | t :: rest => (lo <= t)%Z ∧ non_decreasing_from t rest
  end.

(** The requests among [times] that fall into the minute that ends at
    [T]. *)
Definition within_minute (T : Z) (times : list Z) : list Z :=
  List.filter (fun t => (T - one_minute <? t)%Z && (t <=? T)%Z) times.

(** What the limiter holds for [identifier], against the times [A] of the
    requests it has let through so far: the part of [A] later than some
    [c] that lies a minute or more before every reading to come. *)
Definition tracks (identifier : string) (request_counts : gmap string (list Z))
    (A : list Z) (lo : Z) : Prop :=
  Forall (fun t => (t <= lo)%Z) A ∧
  (∃ c, (c <= lo - one_minute)%Z ∧
        default [] (request_counts !! identifier)
        = List.filter (fun t => (c <? t)%Z) A) ∧
  ∀ T, length (within_minute T A) ≤ MAX_REQUESTS_PER_MINUTE.

(** Twelve requests of one client, one every second, and one of another
    client in between. *)
Definition burst : list (string * Z) :=
  [ ("10.0.0.1", 0); ("10.0.0.1", 1000000); ("10.0.0.1", 2000000); ("10.0.0.1", 3000000);
    ("10.0.0.1", 4000000); ("10.0.0.2", 4500000); ("10.0.0.1", 5000000);
    ("10.0.0.1", 6000000); ("10.0.0.1", 7000000); ("10.0.0.1", 8000000);
    ("10.0.0.1", 9000000); ("10.0.0.1", 10000000); ("10.0.0.1", 11000000) ]%Z.

(* ===================================================================== *)
(** ** The image endpoint: input sanitiser *)
(* ===================================================================== *)

(** [sanitize_text_input] of [function_app.py], on ASCII text.  (The
    webhook of the sync engine imports a function of this name from
    [shared/validators.py]; that one is a given of [HevyApi].) *)
Module FunctionApp.

(** [c.isspace()]: tab to carriage return, the four separators, and the
    blank. *)
Definition isspace (c : ascii) : bool :=
  let n := nat_of_ascii c in
  (n =? 32)%nat || ((9 <=? n)%nat && (n <=? 13)%nat) || ((28 <=? n)%nat && (n <=? 31)%nat).

(** [c.isprintable()] *)
Definition isprintable (c : ascii) : bool :=
  let n := nat_of_ascii c in
  (32 <=? n)%nat && (n <=? 126)%nat.

Fixpoint lstrip (s : string) : string :=
  match s with
  | String c rest => if isspace c then lstrip rest else s
  | EmptyString => EmptyString
  end.

(** [s.strip()] *)
Definition strip (s : string) : string :=
  String.rev (lstrip (String.rev (lstrip s))).

(** [''.join(char for char in s if keep(char))] *)
Fixpoint join_if (keep : ascii -> bool) (s : string) : string :=
  match s with
  | EmptyString => EmptyString
  | String char rest =>
      if keep char then String char (join_if keep rest) else join_if keep rest
  end.

Definition sanitize_text_input (text : option string) (field_name : string)
    (max_length : nat) : option string :=
  if negb (Py.truthy_opt text) then None
  else
    (* Convert to string and strip whitespace *)
    let text := strip (default "" text) in
    (* Check length *)
    let text :=
      if (max_length <? String.length text)%nat then Py.prefix max_length text else text in
    (* Remove null bytes and other control characters *)
    let text := join_if (fun char => isprintable char || isspace char) text in
    if Py.truthy text then Some text else None.

End FunctionApp.

(** Every character of [s] passes [test]. *)
Fixpoint every (test : ascii -> bool) (s : string) : Prop :=
  match s with
  | EmptyString => True
  | String c rest => test c = true ∧ every test rest
  end.

(** A character the sanitiser lets through. *)
Definition presentable (c : ascii) : bool :=
  FunctionApp.isprintable c || FunctionApp.isspace c.

(* ===================================================================== *)
(** * Properties *)
(* ===================================================================== *)

(** ** The effect monad *)

Section MonadFacts.

Context {W : Type}.

Lemma mbind_ok {A B} (m : M W A) (k : A -> M W B) w a w1 t1 :
  m w = (Ok a, w1, t1) ->
  mbind m k w = (let '(r, w2, t2) := k a w1 in (r, w2, t1 ++ t2)).
Proof. intros Hm. unfold mbind. rewrite Hm. destruct (k a w1) as [[r w2] t2]. reflexivity. Qed.

Lemma mbind_raise {A B} (m : M W A) (k : A -> M W B) w e w1 t1 :
  m w = (Raise e, w1, t1) -> mbind m k w = (Raise e, w1, t1).
Proof. intros Hm. unfold mbind. rewrite Hm. reflexivity. Qed.

Lemma mbind_ok_inv {A B} (m : M W A) (k : A -> M W B) w b w2 t :
  mbind m k w = (Ok b, w2, t) ->
  ∃ a w1 t1 t2, m w = (Ok a, w1, t1) ∧ k a w1 = (Ok b, w2, t2) ∧ t = t1 ++ t2.
Proof.
  unfold mbind. destruct (m w) as [[[a|e] w1] t1]; [|discriminate].
  destruct (k a w1) as [[r w2'] t2] eqn:Hk. intros [= -> -> <-].
  exists a, w1, t1, t2. auto.
Qed.

Lemma capture_total {A} (m : M W A) w :
  ∃ r w1 t1, capture m w = (Ok r, w1, t1) ∧ m w = (r, w1, t1).
Proof. unfold capture. destruct (m w) as [[r w1] t1]. eauto. Qed.

End MonadFacts.

(** ** The request gateway *)

Section GatewayFacts.

Context {W : Type} `{Host W}.

Implicit Types (method url : string) (headers : list (string * string))
               (json_data : option json) (attempt : nat) (w : W).

(** For a method the gateway knows, the three branches of a pass are the
    same code. *)
Lemma attempt_once_known method url headers json_data attempt :
  known_method method ->
  attempt_once method url headers json_data attempt =
    (sleep NOTION_REQUEST_DELAY ;;
     try_except
       (let* r := transmit (request_of method url headers json_data) in
        on_response attempt r)
       is_timeout
       (if (attempt <? NOTION_MAX_RETRIES - 1)%nat then
          sleep (inject_Z (NOTION_RETRY_BASE_DELAY * 2 ^ Z.of_nat attempt)) ;;
          mret Continue
        else mret (Return (0%Z, None, Some "Request timeout after retries")))).
Proof. intros [-> | [-> | ->]]; reflexivity. Qed.

Lemma attempt_once_unknown method url headers json_data attempt w :
  method ≠ "GET" -> method ≠ "POST" -> method ≠ "PATCH" ->
  attempt_once method url headers json_data attempt w
  = (Ok Continue, w, [Slept NOTION_REQUEST_DELAY]).
Proof.
  intros Hg Hp Hq. unfold attempt_once.
  apply String.eqb_neq in Hg, Hp, Hq. rewrite Hg, Hp, Hq. reflexivity.
Qed.

Lemma on_response_ok attempt (r : response) w :
  resp_status r = 200%Z ->
  on_response attempt r w = (Ok (Return (200%Z, decoded (resp_json r), None)), w, []).
Proof. intros Hs. unfold on_response. rewrite Hs. reflexivity. Qed.

Lemma on_response_other attempt (r : response) w :
  resp_status r ≠ 200%Z -> resp_status r ≠ 429%Z ->
  on_response attempt r w
  = (Ok (Return (resp_status r, None, Some (resp_text r))), w, []).
Proof.
  intros H200 H429. unfold on_response.
  apply Z.eqb_neq in H200, H429. rewrite H200, H429. reflexivity.
Qed.

Lemma on_response_429 attempt (r : response) w delay :
  resp_status r = 429%Z ->
  suggested_delay attempt (resp_retry_after r) = Some delay ->
  on_response attempt r w
  = (Ok Continue, w, [Slept (inject_Z (Z.min delay NOTION_MAX_RETRY_DELAY))]).
Proof.
  intros Hs Hd. unfold on_response, header_delay. rewrite Hs. simpl.
  unfold suggested_delay in Hd.
  destruct (resp_retry_after r) as [text|].
  - rewrite Hd. reflexivity.
  - injection Hd as <-. reflexivity.
Qed.

Lemma on_response_429_malformed attempt (r : response) w :
  resp_status r = 429%Z ->
  suggested_delay attempt (resp_retry_after r) = None ->
  on_response attempt r w
  = (Raise (ValueError (Py.int_error (default "" (resp_retry_after r)))), w, []).
Proof.
  intros Hs Hd. unfold on_response, header_delay. rewrite Hs. simpl.
  unfold suggested_delay in Hd.
  destruct (resp_retry_after r) as [text|]; [|discriminate].
  rewrite Hd. reflexivity.
Qed.

(** What a pass does once the reply to its send is known. *)
Lemma attempt_once_reply method url headers json_data attempt w rep w1 :
  known_method method ->
  send (request_of method url headers json_data) w = (rep, w1) ->
  attempt_once method url headers json_data attempt w =
    let sent := [Slept NOTION_REQUEST_DELAY;
                 Sent (request_of method url headers json_data)] in
    match rep with
    | Response r =>
        match on_response attempt r w1 with
        | (res, w2, t2) => (res, w2, sent ++ t2)
        end
    | TimedOut =>
        if (attempt <? NOTION_MAX_RETRIES - 1)%nat then
          (Ok Continue, w1,
           sent ++ [Slept (inject_Z (NOTION_RETRY_BASE_DELAY * 2 ^ Z.of_nat attempt))])
        else (Ok (Return (0%Z, None, Some "Request timeout after retries")), w1, sent)
    | Broken msg => (Raise (ClientError msg), w1, sent)
    end.
Proof.
  intros Hm Hsend. rewrite (attempt_once_known _ _ _ _ _ Hm).
  unfold mbind at 1. unfold sleep at 1. unfold try_except, mbind at 1, transmit.
  rewrite Hsend. destruct rep as [r | | msg].
  - destruct (on_response attempt r w1) as [[res w2] t2] eqn:Hon.
    destruct res as [fl | e]; [reflexivity|].
    (* the only exception a response can cause is the ValueError of int() *)
    assert (is_timeout e = false) as ->; [|reflexivity].
    unfold on_response, header_delay in Hon.
    destruct (resp_status r =? 200)%Z; [discriminate|].
    destruct (resp_status r =? 429)%Z; [|discriminate].
    destruct (resp_retry_after r) as [text|]; [|discriminate].
    destruct (Py.int_of_str text); [discriminate|].
    injection Hon as <- _ _. reflexivity.
  - simpl. destruct (attempt <? 4)%nat; reflexivity.
  - reflexivity.
Qed.

Lemma for_attempts_continue method url headers json_data attempt rest w w1 t1 :
  attempt_once method url headers json_data attempt w = (Ok Continue, w1, t1) ->
  for_attempts method url headers json_data (attempt :: rest) w =
    (let '(r, w2, t2) := for_attempts method url headers json_data rest w1 in
     (r, w2, t1 ++ t2)).
Proof. intros Ha. simpl. unfold mbind at 1. rewrite Ha. reflexivity. Qed.

Lemma for_attempts_return method url headers json_data attempt rest w w1 t1 t :
  attempt_once method url headers json_data attempt w = (Ok (Return t), w1, t1) ->
  for_attempts method url headers json_data (attempt :: rest) w = (Ok t, w1, t1).
Proof.
  intros Ha. simpl. unfold mbind. rewrite Ha. simpl. rewrite app_nil_r. reflexivity.
Qed.

Lemma for_attempts_raise method url headers json_data attempt rest w w1 t1 e :
  attempt_once method url headers json_data attempt w = (Raise e, w1, t1) ->
  for_attempts method url headers json_data (attempt :: rest) w = (Raise e, w1, t1).
Proof. intros Ha. simpl. apply mbind_raise, Ha. Qed.

Lemma for_attempts_retried method url headers json_data attempts rest w w1 t1 :
  retried method url headers json_data attempts w = Some (w1, t1) ->
  for_attempts method url headers json_data (attempts ++ rest) w =
    (let '(r, w2, t2) := for_attempts method url headers json_data rest w1 in
     (r, w2, t1 ++ t2)).
Proof.
  revert w t1. induction attempts as [|a attempts IH]; intros w t1 Hr.
  - injection Hr as <- <-. simpl. destruct (for_attempts _ _ _ _ rest w) as [[r w2] t2].
    reflexivity.
  - simpl in Hr.
    destruct (attempt_once method url headers json_data a w) as [[[fl|e] wa] ta] eqn:Ha;
      [|discriminate].
    destruct fl; [discriminate|].
    destruct (retried method url headers json_data attempts wa) as [[wb tb]|] eqn:Hb;
      [|discriminate].
    injection Hr as <- <-.
    rewrite <- app_comm_cons, (for_attempts_continue _ _ _ _ _ _ _ _ _ Ha).
    rewrite (IH _ _ Hb).
    destruct (for_attempts method url headers json_data rest wb) as [[r w2] t2].
    rewrite app_assoc. reflexivity.
Qed.

End GatewayFacts.

Section GatewayTheorems.

Context {W : Type} `{Host W}.

Implicit Types (method url : string) (headers : list (string * string))
               (json_data : option json) (w : W).







(** C4: a response whose status is neither 200 nor 429 ends the request
    at once, at whatever pass it arrives: the gateway returns
    (status, None, response text) and the send that received it is the
    last event of the run. *)
Theorem other_status_returned_at_once method url headers json_data
    passes w w1 t1 (r : response) w2 :
  known_method method ->
  (passes < NOTION_MAX_RETRIES)%nat ->
  retried method url headers json_data (seq 0 passes) w = Some (w1, t1) ->
  send (request_of method url headers json_data) w1 = (Response r, w2) ->
  resp_status r ≠ 200%Z ->
  resp_status r ≠ 429%Z ->
  notion_request_with_retry method url headers json_data w
  = (Ok (resp_status r, None, Some (resp_text r)), w2,
     t1 ++ [Slept NOTION_REQUEST_DELAY;
            Sent (request_of method url headers json_data)]).
Proof.
  intros Hm Hlt Hretried Hsend H200 H429.
  unfold notion_request_with_retry.
  replace NOTION_MAX_RETRIES with (passes + S (NOTION_MAX_RETRIES - S passes))%nat by lia.
  rewrite seq_app, (for_attempts_retried _ _ _ _ _ _ _ _ _ Hretried).
  cbn [seq].
  rewrite (for_attempts_return _ _ _ _ _ _ _ w2
             [Slept NOTION_REQUEST_DELAY; Sent (request_of method url headers json_data)]
             (resp_status r, None, Some (resp_text r))); [reflexivity|].
  rewrite (attempt_once_reply _ _ _ _ _ _ _ _ Hm Hsend).
  cbv zeta. rewrite (on_response_other _ _ _ H200 H429). reflexivity.
Qed.

Lemma classic_known (method : string) : known_method method ∨ ¬ known_method method.
Proof.
  unfold known_method.
  destruct (decide (method = "GET")); [auto|].
  destruct (decide (method = "POST")); [auto|].
  destruct (decide (method = "PATCH")); [auto|]. right. tauto.
Qed.

Lemma retried_app method url headers json_data (l1 l2 : list nat) w :
  retried method url headers json_data (l1 ++ l2) w
  = match retried method url headers json_data l1 w with
    | Some (w0, t0) =>
        match retried method url headers json_data l2 w0 with
        | Some (w', t') => Some (w', t0 ++ t')
        | None => None
        end
    | None => None
    end.
Proof.
  revert w. induction l1 as [|a l1 IH]; intros w.
  - simpl. destruct (retried method url headers json_data l2 w) as [[w' t']|]; reflexivity.
  - simpl.
    destruct (attempt_once method url headers json_data a w) as [[[[t|]|e] wa] ta];
      try reflexivity.
    rewrite IH.
    destruct (retried method url headers json_data l1 wa) as [[w0 t0]|]; [|reflexivity].
    destruct (retried method url headers json_data l2 w0) as [[w' t']|]; [|reflexivity].
    rewrite app_assoc. reflexivity.
Qed.

(** A pass whose send is answered by a response with a status other than
    429, or that is the last and times out, is no retry. *)
Lemma retried_stops method url headers json_data attempt rest w rep w' :
  known_method method ->
  send (request_of method url headers json_data) w = (rep, w') ->
  match rep with
  | Response resp => resp_status resp ≠ 429%Z
  | TimedOut => (attempt <? NOTION_MAX_RETRIES - 1)%nat = false
  | Broken _ => True
  end ->
  retried method url headers json_data (attempt :: rest) w = None.
Proof.
  intros Hm Hsend Hrep. cbn [retried].
  rewrite (attempt_once_reply _ _ _ _ _ _ _ _ Hm Hsend). cbv zeta.
  destruct rep as [resp| |msg].
  - destruct (decide (resp_status resp = 200%Z)) as [H200|H200].
    + rewrite (on_response_ok _ _ _ H200). reflexivity.
    + rewrite (on_response_other _ _ _ H200 Hrep). reflexivity.
  - rewrite Hrep. reflexivity.
  - reflexivity.
Qed.

(** How a run over the passes [a, a + n) that returns has ended. *)
Lemma for_attempts_ended method url headers json_data (n : nat) :
  known_method method ->
  ∀ (a : nat) w result w1 t1,
    (0 < n)%nat -> (a + n = NOTION_MAX_RETRIES)%nat ->
    for_attempts method url headers json_data (seq a n) w = (Ok result, w1, t1) ->
    let r := request_of method url headers json_data in
    ∃ k w0 t0 rep,
      (k < n)%nat ∧
      retried method url headers json_data (seq a k) w = Some (w0, t0) ∧
      send r w0 = (rep, w1) ∧
      match rep with
      | Response resp =>
          (resp_status resp = 200%Z ∧
           t1 = t0 ++ [Slept NOTION_REQUEST_DELAY; Sent r] ∧
           result = (200%Z, decoded (resp_json resp), None)) ∨
          (resp_status resp ≠ 200%Z ∧ resp_status resp ≠ 429%Z ∧
           t1 = t0 ++ [Slept NOTION_REQUEST_DELAY; Sent r] ∧
           result = (resp_status resp, None, Some (resp_text resp))) ∨
          (resp_status resp = 429%Z ∧ (a + k = NOTION_MAX_RETRIES - 1)%nat ∧
           ∃ delay,
             suggested_delay (NOTION_MAX_RETRIES - 1) (resp_retry_after resp) = Some delay ∧
             t1 = t0 ++ limited_pass r delay ∧
             result = (429%Z, None, Some "Rate limited after max retries"))
      | TimedOut =>
          (a + k = NOTION_MAX_RETRIES - 1)%nat ∧
          t1 = t0 ++ [Slept NOTION_REQUEST_DELAY; Sent r] ∧
          result = (0%Z, None, Some "Request timeout after retries")
      | Broken _ => False
      end.
Proof.
  intros Hm. cbv zeta. induction n as [|n IH]; intros a w result w1 t1 Hpos Hsum Hrun; [lia|].
  cbn [seq] in Hrun.
  destruct (send (request_of method url headers json_data) w) as [rep w'] eqn:Hsend.
  pose proof (attempt_once_reply _ _ _ _ a _ _ _ Hm Hsend) as Hpass. cbv zeta in Hpass.
  (* the passes after a retry *)
  assert (∀ ta,
             attempt_once method url headers json_data a w = (Ok Continue, w', ta) ->
             (0 < n)%nat ->
             ∃ k w0 t0 rep0,
               (k < S n)%nat ∧
               retried method url headers json_data (seq a k) w = Some (w0, t0) ∧
               send (request_of method url headers json_data) w0 = (rep0, w1) ∧
               match rep0 with
               | Response resp =>
                   (resp_status resp = 200%Z ∧
                    t1 = t0 ++ [Slept NOTION_REQUEST_DELAY;
                                Sent (request_of method url headers json_data)] ∧
                    result = (200%Z, decoded (resp_json resp), None)) ∨
                   (resp_status resp ≠ 200%Z ∧ resp_status resp ≠ 429%Z ∧
                    t1 = t0 ++ [Slept NOTION_REQUEST_DELAY;
                                Sent (request_of method url headers json_data)] ∧
                    result = (resp_status resp, None, Some (resp_text resp))) ∨
                   (resp_status resp = 429%Z ∧ (a + k = NOTION_MAX_RETRIES - 1)%nat ∧
                    ∃ delay,
                      suggested_delay (NOTION_MAX_RETRIES - 1) (resp_retry_after resp)
                      = Some delay ∧
                      t1 = t0 ++ limited_pass (request_of method url headers json_data) delay ∧
                      result = (429%Z, None, Some "Rate limited after max retries"))
               | TimedOut =>
                   (a + k = NOTION_MAX_RETRIES - 1)%nat ∧
                   t1 = t0 ++ [Slept NOTION_REQUEST_DELAY;
                               Sent (request_of method url headers json_data)] ∧
                   result = (0%Z, None, Some "Request timeout after retries")
               | Broken _ => False
               end) as Hlater.
  { intros ta Ha Hn.
    rewrite (for_attempts_continue _ _ _ _ _ _ _ _ _ Ha) in Hrun.
    destruct (for_attempts method url headers json_data (seq (S a) n) w')
      as [[res w2] t2] eqn:Hrest.
    injection Hrun as -> -> <-.
    destruct (IH (S a) w' result w1 t2 Hn ltac:(lia) Hrest)
      as (k & w0 & t0 & rep0 & Hk & Hret & Hsend0 & Hend).
    exists (S k), w0, (ta ++ t0), rep0.
    split; [lia|]. split; [|split; [exact Hsend0|]].
    - cbn [seq retried]. rewrite Ha, Hret. reflexivity.
    - destruct rep0 as [resp| |msg]; [| |exact Hend].
      + destruct Hend as [(Hs & -> & ->) | [(H200 & H429 & -> & ->) | (Hs & Hlast & d & Hd & -> & ->)]].
        * left. rewrite <- app_assoc. auto.
        * right; left. rewrite <- app_assoc. auto.
        * right; right. split; [exact Hs|]. split; [lia|]. exists d.
          rewrite <- app_assoc. auto.
      + destruct Hend as (Hlast & -> & ->). split; [lia|]. rewrite <- app_assoc. auto. }
  destruct rep as [resp| |msg].
  - destruct (decide (resp_status resp = 200%Z)) as [H200|H200].
    { rewrite (on_response_ok _ _ _ H200) in Hpass.
      rewrite (for_attempts_return _ _ _ _ _ _ _ _ _ _ Hpass) in Hrun.
      injection Hrun as <- <- <-.
      exists 0%nat, w, [], (Response resp). split; [lia|]. split; [reflexivity|].
      split; [exact Hsend|]. left. auto. }
    destruct (decide (resp_status resp = 429%Z)) as [H429|H429].
    2: { rewrite (on_response_other _ _ _ H200 H429) in Hpass.
         rewrite (for_attempts_return _ _ _ _ _ _ _ _ _ _ Hpass) in Hrun.
         injection Hrun as <- <- <-.
         exists 0%nat, w, [], (Response resp). split; [lia|]. split; [reflexivity|].
         split; [exact Hsend|]. right; left. auto. }
    destruct (suggested_delay a (resp_retry_after resp)) as [d|] eqn:Hd.
    2: { rewrite (on_response_429_malformed _ _ _ H429 Hd) in Hpass.
         rewrite (for_attempts_raise _ _ _ _ _ _ _ _ _ _ Hpass) in Hrun. discriminate. }
    rewrite (on_response_429 _ _ _ _ H429 Hd) in Hpass.
    destruct n as [|n'].
    + (* the last pass *)
      rewrite (for_attempts_continue _ _ _ _ _ _ _ _ _ Hpass) in Hrun.
      cbn [seq for_attempts] in Hrun. injection Hrun as <- <- <-.
      assert (a = NOTION_MAX_RETRIES - 1)%nat as Ha by lia.
      exists 0%nat, w, [], (Response resp). split; [lia|]. split; [reflexivity|].
      split; [exact Hsend|]. right; right. split; [exact H429|]. split; [lia|].
      exists d. rewrite <- Ha. split; [exact Hd|]. split; [|reflexivity].
      simpl. rewrite ?app_nil_r. reflexivity.
    + apply (Hlater _ Hpass). lia.
  - destruct (a <? NOTION_MAX_RETRIES - 1)%nat eqn:Hlast.
    + apply Nat.ltb_lt in Hlast. apply (Hlater _ Hpass). lia.
    + apply Nat.ltb_ge in Hlast.
      rewrite (for_attempts_return _ _ _ _ _ _ _ _ _ _ Hpass) in Hrun.
      injection Hrun as <- <- <-.
      exists 0%nat, w, [], TimedOut. split; [lia|]. split; [reflexivity|].
      split; [exact Hsend|]. split; [lia|]. auto.
  - rewrite (for_attempts_raise _ _ _ _ _ _ _ _ _ _ Hpass) in Hrun. discriminate.
Qed.

(** A run cannot have ended both on the response of an earlier send and
    on what the fifth send met. *)
Lemma retried_then_answered method url headers json_data passes w w0 t0 resp w1 w0' t0' :
  known_method method ->
  (passes < NOTION_MAX_RETRIES - 1)%nat ->
  retried method url headers json_data (seq 0 passes) w = Some (w0, t0) ->
  send (request_of method url headers json_data) w0 = (Response resp, w1) ->
  resp_status resp ≠ 429%Z ->
  retried method url headers json_data (seq 0 (NOTION_MAX_RETRIES - 1)) w = Some (w0', t0') ->
  False.
Proof.
  intros Hm Hlt Hret Hsend H429 Hall.
  replace (NOTION_MAX_RETRIES - 1)%nat
    with (passes + S (NOTION_MAX_RETRIES - 1 - S passes))%nat in Hall by lia.
  rewrite seq_app, retried_app, Hret in Hall. cbn [seq] in Hall.
  rewrite (retried_stops _ _ _ _ _ _ _ _ _ Hm Hsend H429) in Hall. discriminate.
Qed.

Lemma ended_unique method url headers json_data w result w1 t1 (e1 e2 : ending) :
  known_method method ->
  ended method url headers json_data w result w1 t1 e1 ->
  ended method url headers json_data w result w1 t1 e2 ->
  e1 = e2.
Proof.
  intros Hm H1 H2.
  assert (∀ passes w0 t0 resp w0' t0',
             (passes < NOTION_MAX_RETRIES)%nat ->
             retried method url headers json_data (seq 0 passes) w = Some (w0, t0) ->
             send (request_of method url headers json_data) w0 = (Response resp, w1) ->
             resp_status resp ≠ 429%Z ->
             retried method url headers json_data (seq 0 (NOTION_MAX_RETRIES - 1)) w
             = Some (w0', t0') ->
             send (request_of method url headers json_data) w0' = (TimedOut, w1) ->
             False) as Hclash.
  { intros passes w0 t0 resp w0' t0' Hlt Hret Hsend H429 Hall Htimed.
    destruct (decide (passes = NOTION_MAX_RETRIES - 1)%nat) as [->|Hne].
    - rewrite Hall in Hret. injection Hret as -> _. rewrite Hsend in Htimed. discriminate.
    - eapply (retried_then_answered _ _ _ _ passes); eauto. lia. }
  destruct e1, e2; try reflexivity; exfalso; cbn [ended] in H1, H2; cbv zeta in H1, H2.
  all: repeat match goal with
              | E : ∃ _, _ |- _ => destruct E
              | E : _ ∧ _ |- _ => destruct E
              end.
  all: try congruence.
  all: eapply Hclash; eassumption.
Qed.

Lemma for_attempts_unknown method url headers json_data attempts w :
  ¬ known_method method ->
  for_attempts method url headers json_data attempts w
  = (Ok (429%Z, None, Some "Rate limited after max retries"), w,
     replicate (length attempts) (Slept NOTION_REQUEST_DELAY)).
Proof.
  intros Hm. unfold known_method in Hm.
  induction attempts as [|a attempts IH]; [reflexivity|].
  rewrite (for_attempts_continue _ _ _ _ _ _ _ _ _
             (attempt_once_unknown method url headers json_data a w
                ltac:(tauto) ltac:(tauto) ltac:(tauto))).
  rewrite IH. reflexivity.
Qed.

(** C10 (as amended): whatever the gateway returns for a GET, POST or
    PATCH request arose in exactly one of four ways, each of which fixes
    the triple: (200, the decoded document of the last response, None)
    when that response has status 200; (s, None, the text of the last
    response) when that response has a status s other than 200 and 429;
    (0, None, "Request timeout after retries") when the fifth send timed
    out; (429, None, "Rate limited after max retries") when the fifth
    send, like the ones before it, ended in a retry.  For any other
    method nothing is sent and the last triple is returned.  So a 200
    comes without an error, and with a body unless the document is null;
    any other status comes without a body and with an error text, which
    may be empty when it is the text of a response. *)
Theorem gateway_result_shape method url headers json_data w
    (status : Z) (data : option json) (error : option string) w1 t1 :
  notion_request_with_retry method url headers json_data w
  = (Ok (status, data, error), w1, t1) ->
  (known_method method ->
   exists ! e : ending, ended method url headers json_data w (status, data, error) w1 t1 e) ∧
  (¬ known_method method ->
   (status, data, error) = (429%Z, None, Some "Rate limited after max retries") ∧
   sent t1 = []) ∧
  (status = 200%Z -> error = None) ∧
  (status ≠ 200%Z -> data = None ∧ ∃ text, error = Some text).
Proof.
  intros Hrun.
  assert (known_method method ->
          ∃ e : ending, ended method url headers json_data w (status, data, error) w1 t1 e)
    as Hex.
  { intros Hm. unfold notion_request_with_retry in Hrun.
    destruct (for_attempts_ended _ _ _ _ NOTION_MAX_RETRIES Hm 0%nat w _ w1 t1
                ltac:(unfold NOTION_MAX_RETRIES; lia) eq_refl Hrun)
      as (k & w0 & t0 & rep & Hk & Hret & Hsend & Hend).
    destruct rep as [resp| |msg]; [| |contradiction].
    - destruct Hend as [(Hs & Ht & Hres) | [(H200 & H429 & Ht & Hres) | (Hs & Hlast & d & Hd & Ht & Hres)]].
      + exists answered_ok. exists k, w0, t0, resp. auto 10.
      + exists answered_error. exists k, w0, t0, resp. auto 10.
      + exists rate_limited_out. cbn in Hlast. subst k. exists w0, t0, resp, d. auto 10.
    - destruct Hend as (Hlast & Ht & Hres). cbn in Hlast. subst k.
      exists timed_out. exists w0, t0. auto. }
  split; [|split].
  - intros Hm. destruct (Hex Hm) as [e He]. exists e. split; [exact He|].
    intros e' He'. eapply ended_unique; eassumption.
  - intros Hm. unfold notion_request_with_retry in Hrun.
    rewrite (for_attempts_unknown _ _ _ _ _ _ Hm) in Hrun.
    injection Hrun as <- <- <- _ <-. split; reflexivity.
  - destruct (classic_known method) as [Hm|Hm].
    + destruct (Hex Hm) as [[| | |] He]; cbn [ended] in He; cbv zeta in He.
      * destruct He as (? & ? & ? & ? & _ & _ & _ & _ & _ & [= -> -> ->]).
        split; [reflexivity|]. intros []. reflexivity.
      * destruct He as (? & ? & ? & resp & _ & _ & _ & _ & H200 & _ & [= -> -> ->]).
        split; [contradiction | eauto].
      * destruct He as (? & ? & _ & _ & _ & [= -> -> ->]). split; [discriminate | eauto].
      * destruct He as (? & ? & ? & ? & _ & _ & _ & _ & _ & [= -> -> ->]).
        split; [discriminate | eauto].
    + unfold notion_request_with_retry in Hrun.
      rewrite (for_attempts_unknown _ _ _ _ _ _ Hm) in Hrun.
      injection Hrun as <- <- <- _ _. split; [discriminate | eauto].
Qed.

End GatewayTheorems.


(** C3 as stated fails: a destination may answer 429 with a Retry-After
    header that is a date, as HTTP allows.  Then the first attempt is the
    last: int() raises on the header and the gateway neither sleeps for
    the reply nor sends again nor returns the failure triple. *)
Lemma retry_after_date_ends_the_run :
  let r := request_of "POST" "https://api.notion.com/v1/pages" [] None in
  (∀ q w, ∃ resp, send (Host := come_back_later) q w = (Response resp, tt) ∧
                  resp_status resp = 429%Z) ∧
  notion_request_with_retry (H := come_back_later) "POST" "https://api.notion.com/v1/pages"
                            [] None tt
  = (Raise (ValueError ("invalid literal for int() with base 10: "
                        +:+ "'Wed, 21 Oct 2015 07:28:00 GMT'")), tt,
     [Slept NOTION_REQUEST_DELAY; Sent r]).
Proof.
  cbv zeta. split.
  - intros q w. eexists. split; reflexivity.
  - vm_compute. reflexivity.
Qed.

(** One 429 reply, then a 400. *)
Lemma other_status_returned_at_once_witness :
  let r := request_of "PATCH" "https://api.notion.com/v1/pages/p1" [] (Some (JDict [])) in
  notion_request_with_retry (H := scripted) "PATCH" "https://api.notion.com/v1/pages/p1" []
    (Some (JDict []))
    [ Response (rate_limit (Some "1"));
      Response {| resp_status := 400; resp_retry_after := None; resp_json := JNull;
                  resp_text := "validation_error" |};
      Response (rate_limit None) ]
  = (Ok (400%Z, None, Some "validation_error"), [Response (rate_limit None)],
     limited_pass r 1 ++ [Slept NOTION_REQUEST_DELAY; Sent r]).
Proof.
  apply (other_status_returned_at_once (H := scripted) "PATCH"
           "https://api.notion.com/v1/pages/p1" [] (Some (JDict [])) 1
           _ [ Response {| resp_status := 400; resp_retry_after := None;
                           resp_json := JNull; resp_text := "validation_error" |};
               Response (rate_limit None) ]
           (limited_pass
              (request_of "PATCH" "https://api.notion.com/v1/pages/p1" [] (Some (JDict []))) 1)
           {| resp_status := 400; resp_retry_after := None; resp_json := JNull;
              resp_text := "validation_error" |}).
  - right; right; reflexivity.
  - unfold NOTION_MAX_RETRIES. lia.
  - vm_compute. reflexivity.
  - reflexivity.
  - discriminate.
  - discriminate.
Defined.

(** A 404 with an empty body, after one attempt that was told to come
    back. *)
Lemma gateway_result_shape_witness :
  let not_found := {| resp_status := 404; resp_retry_after := None; resp_json := JNull;
                      resp_text := "" |} in
  let r := request_of "POST" "https://api.notion.com/v1/pages" [] None in
  let t1 := limited_pass r 1 ++ [Slept NOTION_REQUEST_DELAY; Sent r] in
  (exists ! e : ending,
      ended (H := scripted) "POST" "https://api.notion.com/v1/pages" [] None
            [Response (rate_limit (Some "1")); Response not_found]
            (404%Z, None, Some "") [] t1 e) ∧
  ended (H := scripted) "POST" "https://api.notion.com/v1/pages" [] None
        [Response (rate_limit (Some "1")); Response not_found]
        (404%Z, None, Some "") [] t1 answered_error.
Proof.
  cbv zeta. split.
  - apply (proj1 (gateway_result_shape (H := scripted) "POST"
                    "https://api.notion.com/v1/pages" [] None
                    [ Response (rate_limit (Some "1"));
                      Response {| resp_status := 404; resp_retry_after := None;
                                  resp_json := JNull; resp_text := "" |} ]
                    404 None (Some "") []
                    (limited_pass (request_of "POST" "https://api.notion.com/v1/pages" []
                                              None) 1
                     ++ [ Slept NOTION_REQUEST_DELAY;
                          Sent (request_of "POST" "https://api.notion.com/v1/pages" []
                                           None) ])
                    ltac:(vm_compute; reflexivity))).
    right; left; reflexivity.
  - exists 1%nat,
           [ Response {| resp_status := 404; resp_retry_after := None; resp_json := JNull;
                         resp_text := "" |} ],
           (limited_pass (request_of "POST" "https://api.notion.com/v1/pages" [] None) 1),
           {| resp_status := 404; resp_retry_after := None; resp_json := JNull;
              resp_text := "" |}.
    split; [unfold NOTION_MAX_RETRIES; lia|]. split; [vm_compute; reflexivity|].
    split; [reflexivity|]. split; [reflexivity|].
    split; [discriminate|]. split; [discriminate | reflexivity].
Defined.

(** C10 as stated fails in its last clause: a result with a status other
    than 200 may carry the empty string as its error, because the gateway
    returns the text of an error response as it is; and a 200 comes
    without body when the document is null. *)
Lemma error_text_may_be_empty :
  ¬ (∀ (W : Type) (H : Host W) (method url : string) (headers : list (string * string))
       (json_data : option json) (w : W) (status : Z) (data : option json)
       (error : option string) (w1 : W) (t1 : list event),
        notion_request_with_retry method url headers json_data w
        = (Ok (status, data, error), w1, t1) ->
        status ≠ 200%Z ->
        data = None ∧ ∃ text, error = Some text ∧ text ≠ "") ∧
  ¬ (∀ (W : Type) (H : Host W) (method url : string) (headers : list (string * string))
       (json_data : option json) (w : W) (status : Z) (data : option json)
       (error : option string) (w1 : W) (t1 : list event),
        notion_request_with_retry method url headers json_data w
        = (Ok (status, data, error), w1, t1) ->
        status = 200%Z ->
        (∃ body, data = Some body) ∧ error = None).
Proof.
  split; intros claim.
  - destruct (claim (list reply) scripted "POST" "https://api.notion.com/v1/pages" [] None
                [ Response {| resp_status := 404; resp_retry_after := None;
                              resp_json := JNull; resp_text := "" |} ]
                404%Z None (Some "") []
                [ Slept NOTION_REQUEST_DELAY;
                  Sent (request_of "POST" "https://api.notion.com/v1/pages" [] None) ])
      as (_ & text & Heq & Hne).
    + vm_compute. reflexivity.
    + discriminate.
    + injection Heq as <-. apply Hne. reflexivity.
  - destruct (claim (list reply) scripted "POST" "https://api.notion.com/v1/pages" [] None
                [ Response {| resp_status := 200; resp_retry_after := None;
                              resp_json := JNull; resp_text := "null" |} ]
                200%Z None None []
                [ Slept NOTION_REQUEST_DELAY;
                  Sent (request_of "POST" "https://api.notion.com/v1/pages" [] None) ])
      as ((body & Hbody) & _).
    + vm_compute. reflexivity.
    + reflexivity.
    + discriminate.
Qed.

(** ** Dictionaries and property sets *)

Lemma get_set_eq (k : string) (v : json) (d : dict) :
  Dict.get k (Dict.set k v d) = Some v.
Proof.
  induction d as [|[k' v'] d IH]; simpl.
  - rewrite String.eqb_refl. reflexivity.
  - destruct (String.eqb k' k) eqn:Hk; simpl.
    + rewrite String.eqb_refl. reflexivity.
    + rewrite Hk. exact IH.
Qed.

Lemma get_set_ne (k k' : string) (v : json) (d : dict) :
  k ≠ k' -> Dict.get k (Dict.set k' v d) = Dict.get k d.
Proof.
  intros Hne. induction d as [|[k0 v0] d IH]; simpl.
  - apply String.eqb_neq in Hne. rewrite String.eqb_sym, Hne. reflexivity.
  - destruct (String.eqb k0 k') eqn:Hk'; simpl.
    + apply String.eqb_eq in Hk'. subst k0.
      apply String.eqb_neq in Hne. rewrite String.eqb_sym, Hne. reflexivity.
    + destruct (String.eqb k0 k); [reflexivity | exact IH].
Qed.

Lemma get_set_if_ne (k k' : string) (c : bool) (v : json) (d : dict) :
  k ≠ k' -> Dict.get k (set_if c k' v d) = Dict.get k d.
Proof. intros Hne. destruct c; simpl; [apply get_set_ne, Hne | reflexivity]. Qed.

Lemma get_set_if_eq (k : string) (c : bool) (v : json) (d : dict) :
  Dict.get k (set_if c k v d) = if c then Some v else Dict.get k d.
Proof. destruct c; simpl; [apply get_set_eq | reflexivity]. Qed.

Lemma get_set_some_ne {A} (k k' : string) (x : option A) (f : A -> json) (d : dict) :
  k ≠ k' -> Dict.get k (set_some x k' f d) = Dict.get k d.
Proof. intros Hne. destruct x; simpl; [apply get_set_ne, Hne | reflexivity]. Qed.

Lemma get_set_some_eq {A} (k : string) (x : option A) (f : A -> json) (d : dict) :
  Dict.get k (set_some x k f d) = match x with Some a => Some (f a) | None => Dict.get k d end.
Proof. destruct x; simpl; [apply get_set_eq | reflexivity]. Qed.

(** Look a literal key up in a property set built by conditional
    assignments. *)
Ltac lookup_key :=
  repeat first
    [ rewrite get_set_if_ne by discriminate
    | rewrite get_set_some_ne by discriminate
    | rewrite get_set_ne by discriminate
    | rewrite get_set_if_eq
    | rewrite get_set_some_eq
    | rewrite get_set_eq ].

Lemma truthy_nonempty (s : string) : s ≠ "" -> Py.truthy s = true.
Proof. destruct s; [congruence | reflexivity]. Qed.

(** *** Workouts and their routine *)

Lemma now_bind {W : Type} `{Host W} {B} (k : datetime -> M W B) (w : W) :
  mbind now k w = k (utcnow w) w.
Proof. unfold mbind, now. destruct (k (utcnow w) w) as [[r w2] t2]. reflexivity. Qed.

(** *** Sets *)

Section SetProperties.

Variables (last_synced : datetime) (workout_id workout_page_id : string)
          (ex : exercise) (exercise_index : nat) (set : set_data) (set_index : nat)
          (exercise_template_page_id : option string).

Let properties : dict :=
  set_properties last_synced workout_id workout_page_id ex exercise_index
                 set set_index exercise_template_page_id.

Lemma set_identifier_property :
  Dict.get "Hevy ID" properties
  = Some (rich_text_prop (composite_set_id workout_id exercise_index set_index)).
Proof. unfold properties, set_properties. lookup_key. reflexivity. Qed.

Lemma set_display_numbers :
  Dict.get "Exercise Order" properties
  = Some (number_prop (JInt (Z.of_nat exercise_index + 1))) ∧
  Dict.get "Set Number" properties
  = Some (number_prop (JInt (Z.of_nat set_index + 1))).
Proof. unfold properties, set_properties. split; lookup_key; reflexivity. Qed.


End SetProperties.

(** The rounding is that of the doubles involved: 250 * 2.20462 is the
    double just below 551.155, so it rounds to 551.15. *)
Example round2_of_250_kg :
  Py.round2 (250 * 2.20462)%float = 551.15%float ∧
  Py.round2 (62.5 * 2.20462)%float = 137.79%float.
Proof. split; vm_compute; reflexivity. Qed.

(** [Py.nearest_hundredth] picks an integer nearest to 100 * m * 2^e. *)
Lemma nearest_hundredth_nearest (m : positive) (e : Z) :
  (e < 0)%Z ->
  let n := Py.nearest_hundredth m e in
  (2 * Z.abs (n * 2 ^ (- e) - 100 * Z.pos m) <= 2 ^ (- e))%Z.
Proof.
  intros He. cbv zeta. unfold Py.nearest_hundredth.
  set (den := (2 ^ (- e))%Z).
  assert (0 < den)%Z as Hden by (apply Z.pow_pos_nonneg; lia).
  pose proof (Z.div_mod (Z.pos m * 100) den ltac:(lia)) as Hdm.
  pose proof (Z.mod_pos_bound (Z.pos m * 100) den Hden) as Hr.
  set (q := (Z.pos m * 100 / den)%Z) in *.
  set (r := (Z.pos m * 100 mod den)%Z) in *.
  assert (q * den - 100 * Z.pos m = - r)%Z as Hq by lia.
  assert ((q + 1) * den - 100 * Z.pos m = den - r)%Z as Hq1 by lia.
  destruct (2 * r <? den)%Z eqn:Hlow.
  { apply Z.ltb_lt in Hlow. rewrite Hq. lia. }
  apply Z.ltb_ge in Hlow.
  destruct (den <? 2 * r)%Z eqn:Hhigh.
  { apply Z.ltb_lt in Hhigh. rewrite Hq1. lia. }
  apply Z.ltb_ge in Hhigh.
  destruct (Z.even q); [rewrite Hq | rewrite Hq1]; lia.
Qed.



(** *** Composite set identifiers *)

Lemma string_app_length (s t : string) :
  String.length (s +:+ t) = (String.length s + String.length t)%nat.
Proof. induction s as [|c s IH]; simpl; [reflexivity | rewrite IH; reflexivity]. Qed.

Lemma string_app_cons (c : ascii) (s t : string) :
  String c s +:+ t = String c (s +:+ t).
Proof. reflexivity. Qed.

Lemma string_app_inj_r (s1 s2 t : string) : s1 +:+ t = s2 +:+ t -> s1 = s2.
Proof.
  revert s2. induction s1 as [|c s1 IH]; intros [|c2 s2] Heq.
  - reflexivity.
  - apply (f_equal String.length) in Heq.
    rewrite !string_app_length in Heq. simpl in Heq. lia.
  - apply (f_equal String.length) in Heq.
    rewrite !string_app_length in Heq. simpl in Heq. lia.
  - rewrite !string_app_cons in Heq. injection Heq as -> Heq. f_equal. apply IH, Heq.
Qed.

Lemma string_of_uint_dashless (d : Decimal.uint) :
  dashless (DecimalString.NilEmpty.string_of_uint d).
Proof. induction d; simpl; auto; split; auto; discriminate. Qed.

Lemma to_uint_nonnil (n : nat) : Nat.to_uint n ≠ Decimal.Nil.
Proof.
  rewrite <- (DecimalNat.Unsigned.of_to n) at 1.
  rewrite DecimalNat.Unsigned.to_of. unfold Decimal.unorm.
  destruct (Decimal.nzhead (Nat.to_uint n)); discriminate.
Qed.

Lemma str_of_nat_alt (n : nat) :
  Py.str_of_nat n = DecimalString.NilEmpty.string_of_uint (Nat.to_uint n).
Proof.
  unfold Py.str_of_nat, DecimalString.NilZero.string_of_uint.
  pose proof (to_uint_nonnil n). destruct (Nat.to_uint n); congruence.
Qed.

Lemma str_of_nat_dashless (n : nat) : dashless (Py.str_of_nat n).
Proof. rewrite str_of_nat_alt. apply string_of_uint_dashless. Qed.

Lemma str_of_nat_inj (n1 n2 : nat) : Py.str_of_nat n1 = Py.str_of_nat n2 -> n1 = n2.
Proof.
  rewrite !str_of_nat_alt. intros Heq.
  apply DecimalNat.Unsigned.to_uint_inj.
  pose proof (DecimalString.NilEmpty.usu (Nat.to_uint n1)) as H1.
  rewrite Heq, DecimalString.NilEmpty.usu in H1. congruence.
Qed.

Lemma dashless_split (a1 a2 b1 b2 : string) :
  dashless a1 -> dashless a2 ->
  a1 +:+ "-" +:+ b1 = a2 +:+ "-" +:+ b2 -> a1 = a2 ∧ b1 = b2.
Proof.
  revert a2. induction a1 as [|c a1 IH]; intros [|c2 a2] H1 H2 Heq;
    rewrite ?string_app_cons in Heq; simpl in H1, H2.
  - change ("" +:+ "-" +:+ b1) with (String "-" b1) in Heq.
    change ("" +:+ "-" +:+ b2) with (String "-" b2) in Heq.
    injection Heq as Heq. auto.
  - change ("" +:+ "-" +:+ b1) with (String "-" b1) in Heq.
    injection Heq as Hc _. destruct H2 as [H2 _]. congruence.
  - change ("" +:+ "-" +:+ b2) with (String "-" b2) in Heq.
    injection Heq as Hc _. destruct H1 as [H1 _]. congruence.
  - injection Heq as -> Heq. destruct H1 as [_ H1], H2 as [_ H2].
    destruct (IH a2 H1 H2 Heq) as [-> ->]. auto.
Qed.

Lemma composite_set_id_inj (workout_id : string) (e1 s1 e2 s2 : nat) :
  composite_set_id workout_id e1 s1 = composite_set_id workout_id e2 s2 ->
  e1 = e2 ∧ s1 = s2.
Proof.
  unfold composite_set_id. intros Heq.
  apply String.app_inj in Heq.
  change ("-" +:+ Py.str_of_nat e1 +:+ "-" +:+ Py.str_of_nat s1)
    with (String "-" (Py.str_of_nat e1 +:+ "-" +:+ Py.str_of_nat s1)) in Heq.
  change ("-" +:+ Py.str_of_nat e2 +:+ "-" +:+ Py.str_of_nat s2)
    with (String "-" (Py.str_of_nat e2 +:+ "-" +:+ Py.str_of_nat s2)) in Heq.
  injection Heq as Heq.
  apply (dashless_split _ _ _ _ (str_of_nat_dashless e1) (str_of_nat_dashless e2)) in Heq.
  destruct Heq as [He Hs]. split; apply str_of_nat_inj; assumption.
Qed.

(** ** Batch fan-out *)

Section Tally.

Context {A : Type} (hevy_id : A -> string).

Implicit Types (entities : list A) (results : list outcome)
               (id_mapping : gmap string string).

Lemma tally_from entities results i count id_mapping :
  i + length results ≤ length entities ->
  tally hevy_id entities i results count id_mapping
  = Ok (count + length (synced hevy_id (drop i entities) results),
        foldl store_pair id_mapping (synced hevy_id (drop i entities) results)).
Proof.
  revert i count id_mapping.
  induction results as [|r results IH]; intros i count id_mapping Hlen.
  - unfold synced. rewrite zip_with_nil_r. simpl. f_equal. f_equal. lia.
  - simpl in Hlen.
    destruct (lookup_lt_is_Some_2 entities i) as [entity Hentity]; [lia|].
    rewrite (drop_S _ _ _ Hentity). unfold synced. cbn [zip_with omap list_omap].
    fold (synced hevy_id (drop (S i) entities) results).
    destruct r as [[page_id|]|e]; cbn [tally snd fst].
    + rewrite Hentity, IH by lia. simpl. f_equal. f_equal. lia.
    + rewrite IH by lia. reflexivity.
    + rewrite IH by lia. reflexivity.
Qed.

Lemma foldl_store_pair (pairs : list (string * string)) id_mapping :
  NoDup pairs.*1 ->
  (∀ k, k ∈ pairs.*1 -> id_mapping !! k = None) ->
  foldl store_pair id_mapping pairs = list_to_map pairs ∪ id_mapping.
Proof.
  revert id_mapping. induction pairs as [|[k v] pairs IH]; intros id_mapping Hnd Hfresh.
  - simpl. rewrite (left_id_L ∅ (∪)). reflexivity.
  - simpl in *. apply NoDup_cons in Hnd as [Hk Hnd].
    rewrite IH; [|exact Hnd|].
    + unfold store_pair. simpl.
      rewrite <- insert_union_r by (apply not_elem_of_list_to_map_1, Hk).
      rewrite insert_union_l. reflexivity.
    + intros k' Hk'. unfold store_pair. simpl.
      rewrite lookup_insert_ne; [apply Hfresh; right; exact Hk'|].
      intros ->. contradiction.
Qed.

Lemma synced_length entities results :
  length entities = length results ->
  length (synced hevy_id entities results) + length (List.filter failed results)
  = length results.
Proof.
  revert results. induction entities as [|e entities IH]; intros [|r results] Hlen;
    try discriminate; [reflexivity|].
  injection Hlen as Hlen. specialize (IH _ Hlen).
  unfold synced in *. cbn [zip_with omap list_omap List.filter snd fst].
  destruct r as [[page_id|]|err]; simpl; lia.
Qed.

Lemma elem_of_synced entities results id page_id :
  (id, page_id) ∈ synced hevy_id entities results ↔
  ∃ i entity, entities !! i = Some entity ∧ results !! i = Some (Ok (Some page_id)) ∧
              hevy_id entity = id.
Proof.
  unfold synced. rewrite list_elem_of_omap. split.
  - intros ([entity r] & Hin & Hsome).
    apply list_elem_of_lookup in Hin as [i Hi].
    apply lookup_zip_with_Some in Hi as (e' & r' & Heq & He & Hr).
    injection Heq as <- <-. simpl in Hsome.
    destruct r as [[p|]|]; try discriminate. injection Hsome as <- <-.
    exists i, entity. auto.
  - intros (i & entity & He & Hr & <-).
    exists (entity, Ok (Some page_id)). split; [|reflexivity].
    apply list_elem_of_lookup. exists i.
    apply lookup_zip_with_Some. eauto.
Qed.

(** What the tally of a batch returns, for results that line up with the
    entities. *)
Lemma tally_batch entities results k :
  length results = length entities ->
  length (List.filter failed results) = k ->
  NoDup (synced hevy_id entities results).*1 ->
  let mapping : gmap string string := list_to_map (synced hevy_id entities results) in
  tally hevy_id entities 0 results 0 ∅ = Ok (length entities - k, mapping) ∧
  size mapping = length entities - k ∧
  (∀ id page_id,
      mapping !! id = Some page_id ↔
      ∃ i entity, entities !! i = Some entity ∧
                  results !! i = Some (Ok (Some page_id)) ∧ hevy_id entity = id).
Proof.
  intros Hlen Hk Hnd mapping. subst mapping.
  pose proof (synced_length entities results (eq_sym Hlen)) as Hcount.
  split; [|split].
  - rewrite tally_from by (simpl; lia). rewrite drop_0.
    rewrite foldl_store_pair; [|exact Hnd|intros; apply lookup_empty].
    rewrite (right_id_L ∅ (∪)). do 2 f_equal. lia.
  - rewrite map_size_list_to_map by exact Hnd. lia.
  - intros id page_id. rewrite <- elem_of_list_to_map by exact Hnd.
    apply elem_of_synced.
Qed.

End Tally.

Section FanOut.

Context {W : Type} `{Host W}.

Lemma gather_total {A} (tasks : list (M W A)) w :
  ∃ results w' t, gather tasks w = (Ok results, w', t) ∧ length results = length tasks.
Proof.
  revert w. induction tasks as [|task tasks IH]; intros w.
  - exists [], w, []. split; reflexivity.
  - simpl. destruct (capture_total task w) as (r & w1 & t1 & Hc & _).
    destruct (IH w1) as (rs & w2 & t2 & Hg & Hlen).
    exists (r :: rs), w2, (t1 ++ t2 ++ []). split; [|simpl; congruence].
    rewrite (mbind_ok _ _ _ _ _ _ Hc). rewrite (mbind_ok _ _ _ _ _ _ Hg). reflexivity.
Qed.

Lemma gather_length {A} (tasks : list (M W A)) w results w' t :
  gather tasks w = (Ok results, w', t) -> length results = length tasks.
Proof.
  intros Hg. destruct (gather_total tasks w) as (rs & w2 & t2 & Hg' & Hlen).
  congruence.
Qed.

End FanOut.

(** C2: in a batch of N entities of which k tasks fail, by raising or by
    returning None, while the others succeed with pairwise distinct source
    ids, [sync_exercise_templates] and [sync_routines] return the count
    N - k and the mapping that holds exactly the N - k successful pairs
    source id, page id; a failed task neither aborts the batch nor touches
    the entry of another entity. *)
Theorem batch_fan_out_resilient {W : Type} `{Host W} (notion_api_key database_id : string)
    (w : W) :
  (∀ (templates : list (enveloped exercise_template)) (results : list outcome)
     (w' : W) (t : list event) (k : nat),
      gather ((fun e => upsert_exercise_template e notion_api_key database_id) <$> templates) w
      = (Ok results, w', t) ->
      length (List.filter failed results) = k ->
      NoDup (synced template_hevy_id templates results).*1 ->
      let mapping : gmap string string :=
        list_to_map (synced template_hevy_id templates results) in
      sync_exercise_templates templates notion_api_key database_id w
      = (Ok (length templates - k, mapping), w', t) ∧
      size mapping = length templates - k ∧
      (∀ id page_id,
          mapping !! id = Some page_id ↔
          ∃ i entity, templates !! i = Some entity ∧
                      results !! i = Some (Ok (Some page_id)) ∧
                      template_hevy_id entity = id)) ∧
  (∀ (routines : list (enveloped routine)) (results : list outcome)
     (w' : W) (t : list event) (k : nat),
      gather ((fun e => upsert_routine e notion_api_key database_id) <$> routines) w
      = (Ok results, w', t) ->
      length (List.filter failed results) = k ->
      NoDup (synced routine_hevy_id routines results).*1 ->
      let mapping : gmap string string :=
        list_to_map (synced routine_hevy_id routines results) in
      sync_routines routines notion_api_key database_id w
      = (Ok (length routines - k, mapping), w', t) ∧
      size mapping = length routines - k ∧
      (∀ id page_id,
          mapping !! id = Some page_id ↔
          ∃ i entity, routines !! i = Some entity ∧
                      results !! i = Some (Ok (Some page_id)) ∧
                      routine_hevy_id entity = id)).
Proof.
  split.
  - intros templates results w' t k Hgather Hk Hnd.
    pose proof (gather_length _ _ _ _ _ Hgather) as Hlen. rewrite length_fmap in Hlen.
    destruct (tally_batch template_hevy_id templates results k Hlen Hk Hnd)
      as (Htally & Hsize & Hmap).
    split; [|split; assumption].
    unfold sync_exercise_templates. rewrite (mbind_ok _ _ _ _ _ _ Hgather).
    rewrite Htally. simpl. rewrite app_nil_r. reflexivity.
  - intros routines results w' t k Hgather Hk Hnd.
    pose proof (gather_length _ _ _ _ _ Hgather) as Hlen. rewrite length_fmap in Hlen.
    destruct (tally_batch routine_hevy_id routines results k Hlen Hk Hnd)
      as (Htally & Hsize & Hmap).
    split; [|split; assumption].
    unfold sync_routines. rewrite (mbind_ok _ _ _ _ _ _ Hgather).
    rewrite Htally. simpl. rewrite app_nil_r. reflexivity.
Qed.


(** A batch of five templates; every request about the third meets a
    connection error, so that its task raises. *)
Lemma batch_fan_out_resilient_witness :
  let results : list outcome :=
    [ Ok (Some "Squat"); Ok (Some "Bench Press"); Raise (ClientError "connection reset");
      Ok (Some "Row"); Ok (Some "Press") ] in
  let mapping : gmap string string :=
    list_to_map (synced template_hevy_id five_templates results) in
  ∃ t,
    sync_exercise_templates (H := naming (cut_off ["T3"])) five_templates "secret" "db" tt
    = (Ok ((length five_templates - 1)%nat, mapping), tt, t) ∧
    size mapping = (length five_templates - 1)%nat ∧
    (∀ id page_id,
        mapping !! id = Some page_id ↔
        ∃ i entity, five_templates !! i = Some entity ∧
                    results !! i = Some (Ok (Some page_id)) ∧
                    template_hevy_id entity = id).
Proof.
  cbv zeta. eexists.
  eapply (proj1 (batch_fan_out_resilient (H := naming (cut_off ["T3"])) "secret" "db" tt)).
  - vm_compute. reflexivity.
  - reflexivity.
  - refine (bool_decide_unpack _ _). vm_compute. exact I.
Defined.

(** ** The upsert protocol against the destination *)

Section GatewaySuccess.

Context {W : Type} `{Host W}.

(** A request answered 200 at the first attempt. *)
Lemma request_answered method url headers json_data (w w1 : W) (r : response) :
  known_method method ->
  send (request_of method url headers json_data) w = (Response r, w1) ->
  resp_status r = 200%Z ->
  notion_request_with_retry method url headers json_data w
  = (Ok (200%Z, decoded (resp_json r), None), w1,
     [Slept NOTION_REQUEST_DELAY; Sent (request_of method url headers json_data)]).
Proof.
  intros Hm Hsend Hs. unfold notion_request_with_retry. cbn [seq NOTION_MAX_RETRIES].
  apply for_attempts_return.
  rewrite (attempt_once_reply _ _ _ _ _ _ _ _ Hm Hsend). cbv zeta.
  rewrite (on_response_ok _ _ _ Hs). reflexivity.
Qed.

End GatewaySuccess.

Module NotionFacts.

Import Notion.

Lemma query_url_inj (d1 d2 : string) : query_url d1 = query_url d2 -> d1 = d2.
Proof.
  unfold query_url. intros Heq. apply String.app_inj in Heq.
  apply string_app_inj_r in Heq. exact Heq.
Qed.

Lemma page_url_inj (p1 p2 : string) : page_url p1 = page_url p2 -> p1 = p2.
Proof. unfold page_url. intros Heq. apply String.app_inj in Heq. exact Heq. Qed.

Lemma mint_inj (n1 n2 : nat) : mint n1 = mint n2 -> n1 = n2.
Proof.
  unfold mint. intros Heq. apply String.app_inj in Heq. apply str_of_nat_inj, Heq.
Qed.

Lemma mint_nonempty (n : nat) : mint n ≠ "".
Proof. unfold mint. discriminate. Qed.

Lemma find_database (database_id : string) (dbs : list string) :
  database_id ∈ dbs ->
  List.find (fun d => String.eqb (query_url database_id) (query_url d)) dbs
  = Some database_id.
Proof.
  induction dbs as [|d dbs IH]; intros Hin.
  - apply elem_of_nil in Hin. contradiction.
  - cbn [List.find].
    destruct (String.eqb (query_url database_id) (query_url d)) eqn:Heq.
    + apply String.eqb_eq, query_url_inj in Heq. congruence.
    + apply elem_of_cons in Hin as [-> | Hin]; [|exact (IH Hin)].
      rewrite String.eqb_refl in Heq. discriminate.
Qed.

Lemma same_id_same_page (s : store) (p q : page) :
  NoDup (page_id <$> pages s) ->
  p ∈ pages s -> q ∈ pages s -> page_id p = page_id q -> p = q.
Proof.
  intros Hnd Hp Hq Hid.
  apply list_elem_of_lookup in Hp as [i Hi], Hq as [j Hj].
  assert (i = j) as ->.
  { eapply (NoDup_lookup _ _ _ _ Hnd).
    - rewrite list_lookup_fmap, Hi. reflexivity.
    - rewrite list_lookup_fmap, Hj, Hid. reflexivity. }
  congruence.
Qed.

Lemma find_page (s : store) (p : page) :
  NoDup (page_id <$> pages s) -> p ∈ pages s ->
  List.find (fun q => String.eqb (page_url (page_id p)) (page_url (page_id q))) (pages s)
  = Some p.
Proof.
  intros Hnd Hin.
  destruct (List.find _ (pages s)) as [q|] eqn:Hfind.
  - apply find_some in Hfind as [Hq Heq].
    apply String.eqb_eq, page_url_inj in Heq.
    f_equal. symmetry. apply (same_id_same_page s); auto.
    apply list_elem_of_In, Hq.
  - apply list_elem_of_In in Hin.
    pose proof (find_none _ _ Hfind _ Hin) as Hne. simpl in Hne.
    rewrite String.eqb_refl in Hne. discriminate.
Qed.

Section Serve.

Variables (clock : datetime) (notion_api_key : string).

Lemma serve_query (s : store) (database_id value : string) :
  database_id ∈ databases s ->
  serve (query_request notion_api_key database_id value) s
  = (Response (ok (JDict [ ("object", JStr "list");
                           ("results",
                            JList (page_json <$> records s database_id "Hevy ID" value)) ])),
     s).
Proof.
  intros Hdb. unfold serve, query_request, request_of.
  cbn [req_method req_url req_json].
  change (String.eqb "POST" "POST") with true. cbv iota.
  change (String.eqb "POST" "GET") with false. cbv iota.
  assert (String.eqb (query_url database_id) pages_url = false) as -> by reflexivity.
  rewrite (find_database _ _ Hdb). reflexivity.
Qed.

Lemma serve_create (s : store) (database_id : string) (props : dict) :
  database_id ∈ databases s ->
  serve (create_request notion_api_key database_id props) s
  = (Response (ok (page_json (new_page s database_id props))),
     with_new_page s database_id props).
Proof.
  intros Hdb. unfold serve, create_request, request_of.
  cbn [req_method req_url req_json].
  change (String.eqb "POST" "POST") with true. cbv iota.
  change (String.eqb "POST" "GET") with false. cbv iota.
  change (String.eqb pages_url pages_url) with true. cbv iota.
  unfold create. cbn [parse_create Dict.get].
  change (String.eqb "parent" "parent") with true. cbv iota.
  change (String.eqb "parent" "properties") with false. cbv iota.
  change (String.eqb "properties" "properties") with true. cbv iota.
  rewrite bool_decide_eq_true_2 by exact Hdb. reflexivity.
Qed.

Lemma serve_update (s : store) (p : page) (props : dict) :
  NoDup (page_id <$> pages s) -> p ∈ pages s ->
  serve (update_request notion_api_key (page_id p) props) s
  = (Response (ok (page_json (patched (page_id p) props p))),
     with_patched_page s (page_id p) props).
Proof.
  intros Hnd Hin. unfold serve, update_request, request_of.
  cbn [req_method req_url req_json].
  change (String.eqb "PATCH" "POST") with false. cbv iota.
  change (String.eqb "PATCH" "PATCH") with true. cbv iota.
  change (String.eqb "PATCH" "GET") with false. cbv iota.
  rewrite (find_page _ _ Hnd Hin). reflexivity.
Qed.

End Serve.

End NotionFacts.

Module UpsertFacts.

Import Notion NotionFacts.

Section OnNotion.

Variables (clock : datetime) (notion_api_key : string).

Lemma find_on_notion (s : store) (database_id value : string) :
  database_id ∈ databases s ->
  find_page_by_hevy_id (H := host clock) (Some database_id) "Hevy ID" value
                       notion_api_key "rich_text" s
  = (Ok (page_id <$> head (records s database_id "Hevy ID" value)), s,
     [Slept NOTION_REQUEST_DELAY; Sent (query_request notion_api_key database_id value)]).
Proof.
  intros Hdb. unfold find_page_by_hevy_id. cbv zeta.
  change (String.eqb "rich_text" "title") with false. cbv iota.
  erewrite mbind_ok;
    [|apply (request_answered (H := host clock));
      [right; left; reflexivity
      |apply (serve_query notion_api_key s database_id value Hdb)
      |reflexivity]].
  destruct (records s database_id "Hevy ID" value) as [|p rest]; reflexivity.
Qed.

Lemma create_on_notion (s : store) (database_id : string) (props : dict) :
  database_id ∈ databases s ->
  create_or_update_page (H := host clock) (Some database_id) None props notion_api_key s
  = (Ok (Some (mint (minted s))), with_new_page s database_id props,
     [Slept NOTION_REQUEST_DELAY; Sent (create_request notion_api_key database_id props)]).
Proof.
  intros Hdb. unfold create_or_update_page. cbv zeta. cbn [Py.truthy_opt].
  erewrite mbind_ok;
    [|apply (request_answered (H := host clock));
      [right; left; reflexivity
      |apply (serve_create notion_api_key s database_id props Hdb)
      |reflexivity]].
  reflexivity.
Qed.

Lemma update_on_notion (s : store) (database_id : string) (p : page) (props : dict) :
  NoDup (page_id <$> pages s) -> p ∈ pages s -> page_id p ≠ "" ->
  create_or_update_page (H := host clock) (Some database_id) (Some (page_id p)) props
                        notion_api_key s
  = (Ok (Some (page_id p)), with_patched_page s (page_id p) props,
     [Slept NOTION_REQUEST_DELAY; Sent (update_request notion_api_key (page_id p) props)]).
Proof.
  intros Hnd Hin Hne. unfold create_or_update_page. cbv zeta. cbn [Py.truthy_opt].
  rewrite (truthy_nonempty _ Hne).
  erewrite mbind_ok;
    [|apply (request_answered (H := host clock));
      [right; right; reflexivity
      |apply (serve_update notion_api_key s p props Hnd Hin)
      |reflexivity]].
  unfold patched. rewrite String.eqb_refl. reflexivity.
Qed.

Lemma page_id_patched (id : string) (props : dict) (p : page) :
  page_id (patched id props p) = page_id p.
Proof. unfold patched. destruct (String.eqb (page_id p) id); reflexivity. Qed.

Lemma page_ids_patched (id : string) (props : dict) (l : list page) :
  page_id <$> (patched id props <$> l) = page_id <$> l.
Proof.
  rewrite <- list_fmap_compose. apply list_fmap_ext. intros i p _. apply page_id_patched.
Qed.

Lemma wf_new_page (s : store) (database_id : string) (props : dict) :
  wf s -> wf (with_new_page s database_id props).
Proof.
  intros (Hnd & Hne & Hfresh). unfold wf, with_new_page. cbn [pages minted].
  split; [|split].
  - rewrite fmap_app. apply NoDup_app. split; [exact Hnd|]. split.
    + intros id Hin Hnew. cbn in Hnew. apply list_elem_of_singleton in Hnew. subst id.
      apply list_elem_of_fmap in Hin as (p & Hid & Hp).
      rewrite Forall_forall in Hfresh. apply (Hfresh p Hp (minted s)); [lia|].
      symmetry. exact Hid.
    + apply NoDup_singleton.
  - apply Forall_app. split; [exact Hne|].
    constructor; [apply mint_nonempty | constructor].
  - apply Forall_app. split.
    + eapply Forall_impl; [exact Hfresh|]. intros p Hp k Hk. apply Hp. lia.
    + constructor; [|constructor]. intros k Hk Heq. cbn in Heq.
      apply mint_inj in Heq. lia.
Qed.

Lemma wf_patched_page (s : store) (id : string) (props : dict) :
  wf s -> wf (with_patched_page s id props).
Proof.
  intros (Hnd & Hne & Hfresh). unfold wf, with_patched_page. cbn [pages minted].
  split; [|split].
  - rewrite page_ids_patched. exact Hnd.
  - apply Forall_fmap. eapply Forall_impl; [exact Hne|].
    intros p Hp. cbn. rewrite page_id_patched. exact Hp.
  - apply Forall_fmap. eapply Forall_impl; [exact Hfresh|].
    intros p Hp k Hk. cbn. rewrite page_id_patched. apply Hp, Hk.
Qed.

Lemma wf_upserted (s : store) (database_id value : string) (props : dict) :
  wf s -> wf (upserted s database_id value props).1.
Proof.
  intros Hwf. unfold upserted.
  destruct (records s database_id "Hevy ID" value);
    [apply wf_new_page | apply wf_patched_page]; exact Hwf.
Qed.

Lemma elem_of_records (s : store) (database_id value : string) (p : page) :
  p ∈ records s database_id "Hevy ID" value ↔
  p ∈ pages s ∧ matches database_id "rich_text" "Hevy ID" value p = true.
Proof. unfold records. rewrite !list_elem_of_In. apply filter_In. Qed.

(** One upsert against the destination: its result and the store it
    leaves are those of [upserted]. *)
Lemma resolve_and_write_on_notion (s : store) (database_id value : string) (props : dict) :
  wf s -> database_id ∈ databases s ->
  ∃ t,
    resolve_and_write (H := host clock) (Some database_id) value props notion_api_key s
    = (Ok (Some (upserted s database_id value props).2),
       (upserted s database_id value props).1, t).
Proof.
  intros (Hnd & Hne & _) Hdb. unfold resolve_and_write, upserted.
  rewrite (mbind_ok _ _ _ _ _ _ (find_on_notion s database_id value Hdb)).
  destruct (records s database_id "Hevy ID" value) as [|p rest] eqn:Hrec; cbn [head fmap option_fmap option_map].
  - rewrite (create_on_notion s database_id props Hdb). eexists. reflexivity.
  - assert (p ∈ pages s) as Hp.
    { apply (elem_of_records s database_id value). rewrite Hrec. left. }
    rewrite (update_on_notion s database_id p props Hnd Hp).
    + eexists. reflexivity.
    + rewrite Forall_forall in Hne. apply Hne, Hp.
Qed.

End OnNotion.

Lemma get_app (k : string) (d e : dict) :
  Dict.get k (d ++ e) = match Dict.get k d with Some v => Some v | None => Dict.get k e end.
Proof.
  induction d as [|[k' v'] d IH]; simpl; [reflexivity|].
  destruct (String.eqb k' k); [reflexivity | exact IH].
Qed.

Lemma get_merge (k : string) (d e : dict) :
  Dict.get k (Dict.merge d e)
  = match Dict.get k e with Some v => Some v | None => Dict.get k d end.
Proof.
  unfold Dict.merge. rewrite get_app.
  destruct (Dict.get k e) as [v|] eqn:He; [reflexivity|].
  induction d as [|[k' v'] d IH]; simpl; [reflexivity|].
  destruct (String.eqb k' k) eqn:Hk.
  - apply String.eqb_eq in Hk. subst k'. unfold Dict.mem. rewrite He. simpl.
    rewrite String.eqb_refl. reflexivity.
  - destruct (negb (Dict.mem k' e)); simpl; [rewrite Hk|]; exact IH.
Qed.

Lemma matches_carrying (database_id value : string) (p : page) :
  carries (properties p) value ->
  matches database_id "rich_text" "Hevy ID" value p = String.eqb (parent p) database_id.
Proof.
  intros Hc. unfold matches. unfold carries in Hc. rewrite Hc.
  change (plain_text "rich_text" (rich_text_prop value)) with (Some value).
  cbv beta iota. rewrite String.eqb_refl. apply andb_true_r.
Qed.

Lemma matches_functional (database_id v1 v2 : string) (p : page) :
  matches database_id "rich_text" "Hevy ID" v1 p = true ->
  matches database_id "rich_text" "Hevy ID" v2 p = true -> v1 = v2.
Proof.
  unfold matches. intros H1 H2.
  apply andb_true_iff in H1 as [_ H1], H2 as [_ H2].
  destruct (Dict.get "Hevy ID" (properties p)) as [v|]; [|discriminate].
  destruct (plain_text "rich_text" v) as [text|]; [|discriminate].
  apply String.eqb_eq in H1, H2. congruence.
Qed.

Lemma carries_merge (d props : dict) (value : string) :
  carries props value -> carries (Dict.merge d props) value.
Proof. unfold carries. intros Hc. rewrite get_merge, Hc. reflexivity. Qed.

Lemma filter_fmap_agree {A} (f : A -> bool) (g : A -> A) (l : list A) :
  (∀ x, x ∈ l -> f (g x) = f x) ->
  List.filter f (g <$> l) = g <$> List.filter f l.
Proof.
  induction l as [|x l IH]; intros Hagree; [reflexivity|].
  assert (List.filter f (g <$> l) = g <$> List.filter f l) as IH'
    by (apply IH; intros y Hy; apply Hagree; right; exact Hy).
  cbn [fmap list_fmap List.filter]. rewrite (Hagree x) by left.
  destruct (f x); cbn [fmap list_fmap]; [f_equal|]; exact IH'.
Qed.

(** After an upsert the page it names is in the store and carries the
    source id. *)
Lemma upserted_page (s : store) (database_id value : string) (props : dict) :
  wf s -> carries props value ->
  ∃ q, q ∈ pages (upserted s database_id value props).1 ∧
       page_id q = (upserted s database_id value props).2 ∧
       matches database_id "rich_text" "Hevy ID" value q = true.
Proof.
  intros Hwf Hc. unfold upserted.
  destruct (records s database_id "Hevy ID" value) as [|p rest] eqn:Hrec; cbn [fst snd].
  - exists (new_page s database_id props). split; [|split].
    + unfold with_new_page. cbn [pages]. apply elem_of_app. right. left.
    + reflexivity.
    + rewrite matches_carrying by exact Hc. apply String.eqb_refl.
  - assert (p ∈ records s database_id "Hevy ID" value) as Hp by (rewrite Hrec; left).
    apply elem_of_records in Hp as [Hp Hm].
    exists (patched (page_id p) props p). split; [|split].
    + unfold with_patched_page. cbn [pages]. apply list_elem_of_fmap. eauto.
    + apply page_id_patched.
    + unfold patched. rewrite String.eqb_refl.
      rewrite matches_carrying by (apply carries_merge, Hc). cbn [parent].
      unfold matches in Hm. apply andb_true_iff in Hm as [Hm _]. exact Hm.
Qed.

(** With at most one record for the source id before, there is exactly
    one after, and it is the page the upsert names. *)
Lemma upserted_records (s : store) (database_id value : string) (props : dict) :
  wf s -> carries props value ->
  length (records s database_id "Hevy ID" value) ≤ 1 ->
  ∃ q, records (upserted s database_id value props).1 database_id "Hevy ID" value = [q] ∧
       page_id q = (upserted s database_id value props).2.
Proof.
  intros Hwf Hc Hlen. unfold upserted.
  destruct (records s database_id "Hevy ID" value) as [|p rest] eqn:Hrec; cbn [fst snd].
  - exists (new_page s database_id props). split; [|reflexivity].
    unfold records, with_new_page in *. cbn [pages].
    rewrite List.filter_app, Hrec. cbn [List.filter app].
    rewrite matches_carrying by exact Hc. cbn [new_page parent].
    rewrite String.eqb_refl. reflexivity.
  - destruct rest as [|? ?]; [|simpl in Hlen; lia].
    assert (p ∈ records s database_id "Hevy ID" value) as Hp by (rewrite Hrec; left).
    apply elem_of_records in Hp as [Hp Hm].
    exists (patched (page_id p) props p). split; [|apply page_id_patched].
    unfold records, with_patched_page in *. cbn [pages].
    rewrite filter_fmap_agree, Hrec; [reflexivity|].
    intros q Hq. unfold patched at 1.
    destruct (String.eqb (page_id q) (page_id p)) eqn:Hid; [|reflexivity].
    apply String.eqb_eq in Hid.
    assert (q = p) as -> by (destruct Hwf as (Hnd & _); eapply same_id_same_page; eauto).
    rewrite matches_carrying by (apply carries_merge, Hc). cbn [parent].
    rewrite Hm. unfold matches in Hm. apply andb_true_iff in Hm as [Hm _]. exact Hm.
Qed.

End UpsertFacts.

(** ** Idempotence of the upsert operations *)

Lemma template_carries_id (last_synced : datetime) (t : exercise_template) :
  Notion.carries (template_properties last_synced t) (default "" (et_id t)).
Proof. unfold Notion.carries, template_properties. lookup_key. reflexivity. Qed.

Lemma routine_carries_id (last_synced : datetime) (r : routine) :
  Notion.carries (routine_properties last_synced r) (default "" (rt_id r)).
Proof. unfold Notion.carries, routine_properties. lookup_key. reflexivity. Qed.

Lemma workout_carries_id (last_synced : datetime) (w : workout) (rp : option string) :
  Notion.carries (workout_properties last_synced w rp) (default "" (wk_id w)).
Proof. unfold Notion.carries, workout_properties. lookup_key. reflexivity. Qed.

Lemma set_carries_id (last_synced : datetime) (workout_id workout_page_id : string)
    (ex : exercise) (exercise_index : nat) (set : set_data) (set_index : nat)
    (template_page : option string) :
  Notion.carries
    (set_properties last_synced workout_id workout_page_id ex exercise_index set
                    set_index template_page)
    (composite_set_id workout_id exercise_index set_index).
Proof. apply set_identifier_property. Qed.

Lemma databases_upserted (s : Notion.store) (database_id value : string) (props : dict) :
  Notion.databases (Notion.upserted s database_id value props).1 = Notion.databases s.
Proof.
  unfold Notion.upserted.
  destruct (Notion.records s database_id "Hevy ID" value); reflexivity.
Qed.

Lemma protocol_idempotent (clock1 clock2 : datetime) (notion_api_key : string)
    (database_id value : string) (props1 props2 : dict) :
  Notion.carries props1 value -> Notion.carries props2 value ->
  idempotent_upsert database_id value
    (resolve_and_write (H := Notion.host clock1) (Some database_id) value props1
                       notion_api_key)
    (resolve_and_write (H := Notion.host clock2) (Some database_id) value props2
                       notion_api_key).
Proof.
  intros Hc1 Hc2 s Hwf Hdb Hlen.
  destruct (UpsertFacts.resolve_and_write_on_notion clock1 notion_api_key s database_id
              value props1 Hwf Hdb) as [t1 Hrun1].
  destruct (UpsertFacts.upserted_records s database_id value props1 Hwf Hc1 Hlen)
    as (q & Hrec1 & Hq).
  pose proof (UpsertFacts.wf_upserted s database_id value props1 Hwf) as Hwf1.
  set (s1 := (Notion.upserted s database_id value props1).1) in *.
  assert (database_id ∈ Notion.databases s1) as Hdb1
    by (unfold s1; rewrite databases_upserted; exact Hdb).
  destruct (UpsertFacts.resolve_and_write_on_notion clock2 notion_api_key s1 database_id
              value props2 Hwf1 Hdb1) as [t2 Hrun2].
  assert (length (Notion.records s1 database_id "Hevy ID" value) ≤ 1) as Hlen1
    by (rewrite Hrec1; simpl; lia).
  destruct (UpsertFacts.upserted_records s1 database_id value props2 Hwf1 Hc2 Hlen1)
    as (q2 & Hrec2 & Hq2).
  exists (Notion.upserted s database_id value props1).2, s1,
         (Notion.upserted s1 database_id value props2).1, t1, t2.
  split; [exact Hrun1|]. split; [|split].
  - rewrite Hrun2. do 4 f_equal.
    unfold Notion.upserted at 1. rewrite Hrec1. cbn [snd]. exact Hq.
  - rewrite Hrec1. reflexivity.
  - rewrite Hrec2. reflexivity.
Qed.

(** C1: for each of the four entity kinds, upserting the same source
    entity twice against the destination, with every request answered and
    nothing else writing in between, returns the same page id both times
    and leaves exactly one record whose "Hevy ID" is the source id,
    whenever the database held at most one such record before. *)
Theorem upsert_is_idempotent (clock1 clock2 : datetime) (notion_api_key database_id : string) :
  (∀ template,
      idempotent_upsert database_id (template_hevy_id template)
        (upsert_exercise_template (H := Notion.host clock1) template notion_api_key
                                  database_id)
        (upsert_exercise_template (H := Notion.host clock2) template notion_api_key
                                  database_id)) ∧
  (∀ routine,
      idempotent_upsert database_id (routine_hevy_id routine)
        (upsert_routine (H := Notion.host clock1) routine notion_api_key database_id)
        (upsert_routine (H := Notion.host clock2) routine notion_api_key database_id)) ∧
  (∀ workout routine_page_id,
      idempotent_upsert database_id (default "" (wk_id (unwrap workout)))
        (upsert_workout (H := Notion.host clock1) workout notion_api_key database_id
                        routine_page_id)
        (upsert_workout (H := Notion.host clock2) workout notion_api_key database_id
                        routine_page_id)) ∧
  (∀ workout_id workout_page_id ex exercise_index set set_index template_page,
      idempotent_upsert database_id (composite_set_id workout_id exercise_index set_index)
        (upsert_set (H := Notion.host clock1) workout_id workout_page_id ex exercise_index
                    set set_index notion_api_key (Some database_id) template_page)
        (upsert_set (H := Notion.host clock2) workout_id workout_page_id ex exercise_index
                    set set_index notion_api_key (Some database_id) template_page)).
Proof.
  split; [|split; [|split]].
  - intros template s Hwf Hdb Hlen.
    unfold upsert_exercise_template.
    destruct (protocol_idempotent clock1 clock2 notion_api_key database_id
                (template_hevy_id template)
                (template_properties clock1 (unwrap template))
                (template_properties clock2 (unwrap template))
                (template_carries_id _ _) (template_carries_id _ _) s Hwf Hdb Hlen)
      as (page & s1 & s2 & t1 & t2 & H1 & H2 & Hrec).
    exists page, s1, s2, t1, t2. rewrite !now_bind. auto.
  - intros routine s Hwf Hdb Hlen.
    unfold upsert_routine.
    destruct (protocol_idempotent clock1 clock2 notion_api_key database_id
                (routine_hevy_id routine)
                (routine_properties clock1 (unwrap routine))
                (routine_properties clock2 (unwrap routine))
                (routine_carries_id _ _) (routine_carries_id _ _) s Hwf Hdb Hlen)
      as (page & s1 & s2 & t1 & t2 & H1 & H2 & Hrec).
    exists page, s1, s2, t1, t2. rewrite !now_bind. auto.
  - intros workout routine_page_id s Hwf Hdb Hlen.
    unfold upsert_workout.
    destruct (protocol_idempotent clock1 clock2 notion_api_key database_id
                (default "" (wk_id (unwrap workout)))
                (workout_properties clock1 (unwrap workout) routine_page_id)
                (workout_properties clock2 (unwrap workout) routine_page_id)
                (workout_carries_id _ _ _) (workout_carries_id _ _ _) s Hwf Hdb Hlen)
      as (page & s1 & s2 & t1 & t2 & H1 & H2 & Hrec).
    exists page, s1, s2, t1, t2. rewrite !now_bind. auto.
  - intros workout_id workout_page_id ex exercise_index set set_index template_page
           s Hwf Hdb Hlen.
    unfold upsert_set.
    destruct (protocol_idempotent clock1 clock2 notion_api_key database_id
                (composite_set_id workout_id exercise_index set_index)
                (set_properties clock1 workout_id workout_page_id ex exercise_index set
                                set_index template_page)
                (set_properties clock2 workout_id workout_page_id ex exercise_index set
                                set_index template_page)
                (set_carries_id _ _ _ _ _ _ _ _) (set_carries_id _ _ _ _ _ _ _ _)
                s Hwf Hdb Hlen)
      as (page & s1 & s2 & t1 & t2 & H1 & H2 & Hrec).
    exists page, s1, s2, t1, t2. rewrite !now_bind. auto.
Qed.

Lemma one_workout_store_wf : Notion.wf one_workout_store.
Proof.
  unfold Notion.wf. split; [|split].
  - refine (bool_decide_unpack _ _). vm_compute. exact I.
  - repeat constructor. discriminate.
  - constructor; [|constructor]. intros k _ Heq.
    cbv - [Py.str_of_nat] in Heq. discriminate.
Qed.

Lemma upsert_is_idempotent_witness :
  ∃ (page_id : string) (s1 s2 : Notion.store) (t1 t2 : list event),
    upsert_workout (H := Notion.host epoch) (Wrapped push_day) "secret" "workouts-db" None
                   one_workout_store
    = (Ok (Some page_id), s1, t1) ∧
    upsert_workout (H := Notion.host epoch) (Wrapped push_day) "secret" "workouts-db" None s1
    = (Ok (Some page_id), s2, t2) ∧
    length (Notion.records s1 "workouts-db" "Hevy ID" "w1") = 1 ∧
    length (Notion.records s2 "workouts-db" "Hevy ID" "w1") = 1.
Proof.
  apply (proj1 (proj2 (proj2 (upsert_is_idempotent epoch epoch "secret" "workouts-db")))
           (Wrapped push_day) None one_workout_store).
  - exact one_workout_store_wf.
  - left.
  - vm_compute. constructor.
Defined.

(** ** Composite keys of sets *)

(** C8: [upsert_set] looks the set up, and stores it, under the composite
    id "{workout_id}-{exercise_index}-{set_index}" built from the 0-based
    indices, while "Exercise Order" and "Set Number" are the indices plus
    one.  Two sets of one workout at different index pairs have different
    composite ids, and upserting them one after the other against the
    destination yields two different pages. *)
Theorem composite_key_stability (workout_id workout_page_id notion_api_key : string)
    (ex1 ex2 : exercise) (e1 e2 : nat) (set1 set2 : set_data) (i1 i2 : nat)
    (template1 template2 : option string) :
  (* the identifier of the lookup and of the stored property *)
  (∀ (W : Type) (H : Host W) (sets_db_id : option string) (w : W),
      upsert_set workout_id workout_page_id ex1 e1 set1 i1 notion_api_key sets_db_id
                 template1 w
      = resolve_and_write sets_db_id (composite_set_id workout_id e1 i1)
          (set_properties (utcnow w) workout_id workout_page_id ex1 e1 set1 i1 template1)
          notion_api_key w) ∧
  (∀ last_synced,
      let properties :=
        set_properties last_synced workout_id workout_page_id ex1 e1 set1 i1 template1 in
      Dict.get "Hevy ID" properties
      = Some (rich_text_prop (workout_id +:+ "-" +:+ Py.str_of_nat e1 +:+ "-"
                              +:+ Py.str_of_nat i1)) ∧
      Dict.get "Exercise Order" properties = Some (number_prop (JInt (Z.of_nat e1 + 1))) ∧
      Dict.get "Set Number" properties = Some (number_prop (JInt (Z.of_nat i1 + 1)))) ∧
  (* distinct index pairs, distinct ids, distinct records *)
  ((e1, i1) ≠ (e2, i2) ->
   composite_set_id workout_id e1 i1 ≠ composite_set_id workout_id e2 i2 ∧
   ∀ (clock : datetime) (sets_db : string) (s : Notion.store),
     Notion.wf s -> sets_db ∈ Notion.databases s ->
     ∃ (page1 page2 : string) (s1 s2 : Notion.store) (t1 t2 : list event),
       upsert_set (H := Notion.host clock) workout_id workout_page_id ex1 e1 set1 i1
                  notion_api_key (Some sets_db) template1 s
       = (Ok (Some page1), s1, t1) ∧
       upsert_set (H := Notion.host clock) workout_id workout_page_id ex2 e2 set2 i2
                  notion_api_key (Some sets_db) template2 s1
       = (Ok (Some page2), s2, t2) ∧
       page1 ≠ page2).
Proof.
  split; [|split].
  - intros W H sets_db_id w. unfold upsert_set. rewrite now_bind. reflexivity.
  - intros last_synced. cbv zeta. split; [apply set_identifier_property|].
    apply set_display_numbers.
  - intros Hne.
    assert (composite_set_id workout_id e1 i1 ≠ composite_set_id workout_id e2 i2) as Hids.
    { intros Heq. apply composite_set_id_inj in Heq as [-> ->]. contradiction. }
    split; [exact Hids|].
    intros clock sets_db s Hwf Hdb.
    set (c1 := composite_set_id workout_id e1 i1) in *.
    set (c2 := composite_set_id workout_id e2 i2) in *.
    set (props1 := set_properties clock workout_id workout_page_id ex1 e1 set1 i1 template1).
    set (props2 := set_properties clock workout_id workout_page_id ex2 e2 set2 i2 template2).
    destruct (UpsertFacts.resolve_and_write_on_notion clock notion_api_key s sets_db c1
                props1 Hwf Hdb) as [t1 Hrun1].
    pose proof (UpsertFacts.wf_upserted s sets_db c1 props1 Hwf) as Hwf1.
    destruct (UpsertFacts.upserted_page s sets_db c1 props1 Hwf (set_carries_id _ _ _ _ _ _ _ _))
      as (q1 & Hq1 & Hid1 & Hm1).
    set (s1 := (Notion.upserted s sets_db c1 props1).1) in *.
    assert (sets_db ∈ Notion.databases s1) as Hdb1
      by (unfold s1; rewrite databases_upserted; exact Hdb).
    destruct (UpsertFacts.resolve_and_write_on_notion clock notion_api_key s1 sets_db c2
                props2 Hwf1 Hdb1) as [t2 Hrun2].
    exists (Notion.upserted s sets_db c1 props1).2, (Notion.upserted s1 sets_db c2 props2).2,
           s1, (Notion.upserted s1 sets_db c2 props2).1, t1, t2.
    split; [|split].
    + unfold upsert_set. rewrite now_bind. exact Hrun1.
    + unfold upsert_set. rewrite now_bind. exact Hrun2.
    + rewrite <- Hid1. unfold Notion.upserted.
      destruct (Notion.records s1 sets_db "Hevy ID" c2) as [|q2 rest] eqn:Hrec; cbn [snd].
      * destruct Hwf1 as (_ & _ & Hfresh). rewrite Forall_forall in Hfresh.
        apply (Hfresh q1 Hq1). lia.
      * intros Hsame.
        assert (q2 ∈ Notion.records s1 sets_db "Hevy ID" c2) as Hq2 by (rewrite Hrec; left).
        apply UpsertFacts.elem_of_records in Hq2 as [Hq2 Hm2].
        assert (q1 = q2) as ->
          by (destruct Hwf1 as (Hnd & _); eapply NotionFacts.same_id_same_page; eauto).
        apply Hids. eapply UpsertFacts.matches_functional; eauto.
Qed.

Lemma composite_key_stability_witness :
  composite_set_id "w1" 0 0 ≠ composite_set_id "w1" 0 1 ∧
  ∀ (clock : datetime) (sets_db : string) (s : Notion.store),
    Notion.wf s -> sets_db ∈ Notion.databases s ->
    ∃ (page1 page2 : string) (s1 s2 : Notion.store) (t1 t2 : list event),
      upsert_set (H := Notion.host clock) "w1" "1a2b-3c4d" bench_press 0 heavy_set 0
                 "secret" (Some sets_db) None s
      = (Ok (Some page1), s1, t1) ∧
      upsert_set (H := Notion.host clock) "w1" "1a2b-3c4d" bench_press 0 heavy_set 1
                 "secret" (Some sets_db) None s1
      = (Ok (Some page2), s2, t2) ∧
      page1 ≠ page2.
Proof.
  apply (proj2 (proj2 (composite_key_stability "w1" "1a2b-3c4d" "secret" bench_press
                         bench_press 0 0 heavy_set heavy_set 0 1 None None))).
  intros Heq. discriminate Heq.
Defined.

(** ** Sync runs *)

(** From a run of [m ;; k] that returned, keep what [m] returned and the
    run of [k]. *)
Tactic Notation "split_run" hyp(H) "as" simple_intropattern(pat) :=
  apply mbind_ok_inv in H as (pat & ? & ? & ? & _ & H & _).
Tactic Notation "split_run" hyp(H) "as" simple_intropattern(pat) "by" ident(Hm) :=
  apply mbind_ok_inv in H as (pat & ? & ? & ? & Hm & H & _).

Section RunFacts.

Context {W : Type} `{Host W}.


Section Workouts.

Variables (notion_api_key workouts_db_id : string) (sets_db_id : option string)
          (routine_mapping exercise_template_mapping : gmap string string).




End Workouts.

Context `{HevyApi W}.




Lemma authorised_passes (environ : gmap string string) (req : http_request) :
  authorised environ req ->
  Py.truthy_opt (environ !! "WEBHOOK_AUTH_TOKEN")
  && negb (String.eqb (default "" (http_headers req !! "Authorization"))
                      ("Bearer " +:+ default "" (environ !! "WEBHOOK_AUTH_TOKEN")))
  = false.
Proof.
  intros [-> | ->]; [reflexivity|]. cbn [default from_option id].
  rewrite String.eqb_refl. apply andb_false_r.
Qed.

Lemma fits_passes (req : http_request) (w : W) :
  fits req ->
  (if Py.truthy_opt (http_headers req !! "Content-Length")
   then match Py.int_of_str (default "" (http_headers req !! "Content-Length")) with
        | Some content_length_int => mret (MAX_REQUEST_SIZE <? content_length_int)%Z
        | None => raise (ValueError (Py.int_error
                                        (default "" (http_headers req !! "Content-Length"))))
        end
   else mret false) w
  = (Ok false, w, []).
Proof.
  intros [-> | (n & -> & Hn)]; [reflexivity|].
  apply Z.ltb_ge in Hn. unfold mret. rewrite Hn.
  destruct (Py.truthy_opt _); reflexivity.
Qed.








End RunFacts.

Section RunTheorems.

Context {W : Type} `{Host W} `{HevyApi W}.





End RunTheorems.

(** *** Runs against a destination that rejects everything *)









(* ===================================================================== *)
(** * Further properties of the engine *)
(* ===================================================================== *)

(** ** The request gateway: time-outs, errors and effort *)

Section GatewayEffort.

Context {W : Type} `{Host W}.

Implicit Types (method url : string) (headers : list (string * string))
               (json_data : option json) (attempt : nat) (w : W).

Lemma sent_app (t1 t2 : list event) : sent (t1 ++ t2) = sent t1 ++ sent t2.
Proof. apply omap_app. Qed.

Lemma sleeps_app (t1 t2 : list event) : sleeps (t1 ++ t2) = sleeps t1 ++ sleeps t2.
Proof. apply omap_app. Qed.

Lemma backoff_below_ceiling attempt :
  (attempt <? NOTION_MAX_RETRIES - 1)%nat = true ->
  (inject_Z (NOTION_RETRY_BASE_DELAY * 2 ^ Z.of_nat attempt)
   <= inject_Z NOTION_MAX_RETRY_DELAY)%Q.
Proof.
  intros Hlt. apply Nat.ltb_lt in Hlt. cbn in Hlt.
  rewrite <- Zle_Qle. unfold NOTION_RETRY_BASE_DELAY, NOTION_MAX_RETRY_DELAY.
  assert (2 ^ Z.of_nat attempt <= 2 ^ 3)%Z by (apply Z.pow_le_mono_r; lia).
  change (2 ^ 3)%Z with 8%Z in *. lia.
Qed.

(** One pass sends the request at most once, sleeps at most twice and
    never longer than the ceiling. *)
Lemma attempt_once_events method url headers json_data attempt w res w1 t :
  attempt_once method url headers json_data attempt w = (res, w1, t) ->
  (sent t = [] ∨ sent t = [request_of method url headers json_data]) ∧
  length (sleeps t) ≤ 2 ∧
  Forall (fun d => (d <= inject_Z NOTION_MAX_RETRY_DELAY)%Q) (sleeps t).
Proof.
  intros Ha.
  assert ((1 # 2 <= inject_Z NOTION_MAX_RETRY_DELAY)%Q) as Hpace by discriminate.
  destruct (decide (method = "GET")) as [Hg|Hg];
    [|destruct (decide (method = "POST")) as [Hp|Hp];
      [|destruct (decide (method = "PATCH")) as [Hq|Hq]]].
  4: { rewrite attempt_once_unknown in Ha by assumption. injection Ha as _ _ <-.
       split; [left; reflexivity|]. split; [simpl; lia|]. repeat constructor. exact Hpace. }
  all: assert (known_method method) as Hm by (unfold known_method; auto).
  all: destruct (send (request_of method url headers json_data) w) as [rep w'] eqn:Hsend.
  all: rewrite (attempt_once_reply _ _ _ _ _ _ _ _ Hm Hsend) in Ha; cbv zeta in Ha.
  all: destruct rep as [r | | msg].
  all: try (injection Ha as _ _ <-;
            split; [right; reflexivity|]; split; [simpl; lia|];
            repeat constructor; exact Hpace).
  all: try (destruct (attempt <? NOTION_MAX_RETRIES - 1)%nat eqn:Hlt;
            injection Ha as _ _ <-;
            (split; [right; reflexivity|]); (split; [simpl; lia|]);
            repeat constructor; try exact Hpace; apply backoff_below_ceiling, Hlt).
  all: destruct (decide (resp_status r = 200%Z)) as [H200|H200];
    [rewrite (on_response_ok _ _ _ H200) in Ha
    |destruct (decide (resp_status r = 429%Z)) as [H429|H429];
     [destruct (suggested_delay attempt (resp_retry_after r)) as [d|] eqn:Hd;
      [rewrite (on_response_429 _ _ _ _ H429 Hd) in Ha
      |rewrite (on_response_429_malformed _ _ _ H429 Hd) in Ha]
     |rewrite (on_response_other _ _ _ H200 H429) in Ha]].
  all: injection Ha as _ _ <-.
  all: split; [right; reflexivity|]; split; [simpl; lia|].
  all: repeat constructor; try exact Hpace.
  all: rewrite <- Zle_Qle; apply Z.le_min_r.
Qed.

Lemma for_attempts_events method url headers json_data attempts w res w1 t :
  for_attempts method url headers json_data attempts w = (res, w1, t) ->
  (∃ n, n ≤ length attempts ∧
        sent t = replicate n (request_of method url headers json_data)) ∧
  length (sleeps t) ≤ 2 * length attempts ∧
  Forall (fun d => (d <= inject_Z NOTION_MAX_RETRY_DELAY)%Q) (sleeps t).
Proof.
  revert w res w1 t. induction attempts as [|a attempts IH]; intros w res w1 t Hrun.
  - injection Hrun as _ _ <-. split; [exists 0; split; [lia | reflexivity]|].
    split; [simpl; lia | constructor].
  - destruct (attempt_once method url headers json_data a w) as [[[fl|e] wa] ta] eqn:Ha.
    + destruct (attempt_once_events _ _ _ _ _ _ _ _ _ Ha) as (Hsent & Hcount & Hbound).
      destruct fl as [x|].
      * rewrite (for_attempts_return _ _ _ _ _ _ _ _ _ _ Ha) in Hrun.
        injection Hrun as _ _ <-. split; [|split; [simpl; lia | exact Hbound]].
        destruct Hsent as [-> | ->]; [exists 0 | exists 1]; split; simpl; (lia || reflexivity).
      * rewrite (for_attempts_continue _ _ _ _ _ _ _ _ _ Ha) in Hrun.
        destruct (for_attempts method url headers json_data attempts wa)
          as [[r2 w2] t2] eqn:Hrest.
        injection Hrun as _ _ <-.
        destruct (IH _ _ _ _ Hrest) as ((n & Hn & Hsent2) & Hcount2 & Hbound2).
        rewrite sent_app, sleeps_app, Hsent2, length_app. split; [|split].
        -- destruct Hsent as [-> | ->]; [exists n | exists (S n)];
             split; simpl; (lia || reflexivity).
        -- simpl. lia.
        -- apply Forall_app. split; assumption.
    + destruct (attempt_once_events _ _ _ _ _ _ _ _ _ Ha) as (Hsent & Hcount & Hbound).
      rewrite (for_attempts_raise _ _ _ _ _ _ _ _ _ _ Ha) in Hrun.
      injection Hrun as _ _ <-. split; [|split; [simpl; lia | exact Hbound]].
      destruct Hsent as [-> | ->]; [exists 0 | exists 1]; split; simpl; (lia || reflexivity).
Qed.

Lemma gateway_events method url headers json_data w
    (res : result triple) w' (t : list event) :
  notion_request_with_retry method url headers json_data w = (res, w', t) ->
  (∃ n, n ≤ NOTION_MAX_RETRIES ∧
        sent t = replicate n (request_of method url headers json_data)) ∧
  length (sleeps t) ≤ 2 * NOTION_MAX_RETRIES ∧
  Forall (fun d => (d <= inject_Z NOTION_MAX_RETRY_DELAY)%Q) (sleeps t).
Proof.
  intros Hrun. apply for_attempts_events in Hrun.
  rewrite length_seq in Hrun. exact Hrun.
Qed.

Lemma attempt_once_sends method url headers json_data attempt (w : W) res w1 t :
  known_method method ->
  attempt_once method url headers json_data attempt w = (res, w1, t) ->
  ∃ t', t = Slept NOTION_REQUEST_DELAY :: Sent (request_of method url headers json_data) :: t'.
Proof.
  intros Hm Ha.
  destruct (send (request_of method url headers json_data) w) as [rep w'] eqn:Hsend.
  rewrite (attempt_once_reply _ _ _ _ _ _ _ _ Hm Hsend) in Ha. cbv zeta in Ha.
  destruct rep as [r| |msg].
  - destruct (on_response attempt r w') as [[res' w2] t2]. injection Ha as _ _ <-. eauto.
  - destruct (attempt <? NOTION_MAX_RETRIES - 1)%nat; injection Ha as _ _ <-; eauto.
  - injection Ha as _ _ <-. eauto.
Qed.

(** For a method it knows the gateway sends at least once. *)
Lemma gateway_sends_once method url headers json_data (w : W) res w' t :
  known_method method ->
  notion_request_with_retry method url headers json_data w = (res, w', t) ->
  ∃ n, 1 ≤ n ≤ NOTION_MAX_RETRIES ∧
       sent t = replicate n (request_of method url headers json_data).
Proof.
  intros Hm Hrun.
  destruct (gateway_events _ _ _ _ _ _ _ _ Hrun) as ((n & Hn & Hsent) & _).
  exists n. split; [|exact Hsent]. split; [|exact Hn].
  destruct n as [|n]; [|lia]. exfalso.
  unfold notion_request_with_retry in Hrun. cbn [seq NOTION_MAX_RETRIES for_attempts] in Hrun.
  unfold mbind at 1 in Hrun.
  destruct (attempt_once method url headers json_data 0 w) as [[r0 w0] t0] eqn:Ha.
  apply (attempt_once_sends _ _ _ _ _ _ _ _ _ Hm) in Ha as [t' ->].
  destruct r0 as [fl|e].
  - destruct (match fl with Return t1 => mret t1 | Continue => _ end w0) as [[r2 w2] t2].
    injection Hrun as _ _ <-. discriminate Hsent.
  - injection Hrun as _ _ <-. discriminate Hsent.
Qed.

Lemma for_attempts_timing_out method url headers json_data (n attempt : nat) w w' :
  known_method method ->
  (attempt + n < NOTION_MAX_RETRIES)%nat ->
  timing_out (request_of method url headers json_data) n w w' ->
  retried method url headers json_data (seq attempt n) w
  = Some (w', concat ((fun a => timed_out_pass (request_of method url headers json_data)
                                  (NOTION_RETRY_BASE_DELAY * 2 ^ Z.of_nat a))
                        <$> seq attempt n)).
Proof.
  intros Hm. revert attempt w.
  induction n as [|n IH]; intros attempt w Hlt Hrun; simpl in Hrun.
  - subst w'. reflexivity.
  - destruct Hrun as (w1 & Hsend & Hrest). cbn [seq retried].
    rewrite (attempt_once_reply _ _ _ _ _ _ _ _ Hm Hsend). cbv zeta.
    assert ((attempt <? NOTION_MAX_RETRIES - 1)%nat = true) as ->
      by (apply Nat.ltb_lt; unfold NOTION_MAX_RETRIES in *; lia).
    rewrite (IH (S attempt) w1) by (assumption || lia). reflexivity.
Qed.

(** When each of the five sends runs into the time-out, the gateway
    returns (0, None, "Request timeout after retries").  It has sent the
    request five times, with the 0.5 s pacing before every send and the
    back-off of 2, 4, 8 and 16 seconds after the first four time-outs;
    the fifth time-out ends the run without a further sleep. *)
Theorem timeouts_exhaust_retries method url headers json_data w w' :
  known_method method ->
  timing_out (request_of method url headers json_data) NOTION_MAX_RETRIES w w' ->
  let r := request_of method url headers json_data in
  notion_request_with_retry method url headers json_data w
  = (Ok (0%Z, None, Some "Request timeout after retries"), w',
     timed_out_pass r 2 ++ timed_out_pass r 4 ++ timed_out_pass r 8 ++ timed_out_pass r 16
     ++ [Slept NOTION_REQUEST_DELAY; Sent r]).
Proof.
  intros Hm Hrun r.
  change NOTION_MAX_RETRIES with (4 + 1)%nat in Hrun.
  assert (∃ w4, timing_out r 4 w w4 ∧ send r w4 = (TimedOut, w')) as (w4 & Hfour & Hlast).
  { simpl in Hrun. destruct Hrun as (w1 & H1 & w2 & H2 & w3 & H3 & w4 & H4 & w5 & H5 & ->).
    exists w4. split; [|exact H5]. simpl. eauto 10. }
  unfold notion_request_with_retry.
  change (seq 0 NOTION_MAX_RETRIES) with (seq 0 4 ++ [4]).
  rewrite (for_attempts_retried _ _ _ _ _ _ _ _ _
             (for_attempts_timing_out method url headers json_data 4 0 w w4 Hm
                ltac:(unfold NOTION_MAX_RETRIES; lia) Hfour)).
  rewrite (for_attempts_return _ _ _ _ _ _ _ w'
             [Slept NOTION_REQUEST_DELAY; Sent r]
             (0%Z, None, Some "Request timeout after retries")).
  - reflexivity.
  - rewrite (attempt_once_reply _ _ _ _ _ _ _ _ Hm Hlast). reflexivity.
Qed.

(** Only time-outs are retried.  A connection error on any pass is raised
    to the caller as it is, and the send that met it is the last event of
    the run. *)
Theorem connection_error_is_not_retried method url headers json_data
    passes w w1 t1 (msg : string) w2 :
  known_method method ->
  (passes < NOTION_MAX_RETRIES)%nat ->
  retried method url headers json_data (seq 0 passes) w = Some (w1, t1) ->
  send (request_of method url headers json_data) w1 = (Broken msg, w2) ->
  notion_request_with_retry method url headers json_data w
  = (Raise (ClientError msg), w2,
     t1 ++ [Slept NOTION_REQUEST_DELAY;
            Sent (request_of method url headers json_data)]).
Proof.
  intros Hm Hlt Hretried Hsend.
  unfold notion_request_with_retry.
  replace NOTION_MAX_RETRIES with (passes + S (NOTION_MAX_RETRIES - S passes))%nat by lia.
  rewrite seq_app, (for_attempts_retried _ _ _ _ _ _ _ _ _ Hretried).
  cbn [seq].
  rewrite (for_attempts_raise _ _ _ _ _ _ _ w2
             [Slept NOTION_REQUEST_DELAY; Sent (request_of method url headers json_data)]
             (ClientError msg)); [reflexivity|].
  rewrite (attempt_once_reply _ _ _ _ _ _ _ _ Hm Hsend). reflexivity.
Qed.


(** A method other than GET, POST and PATCH matches no branch of the
    loop body: the gateway sends nothing, leaves the world as it is, and
    after the five pacing sleeps reports the request as rate limited. *)
Theorem unknown_method_sends_nothing method url headers json_data w :
  method ≠ "GET" -> method ≠ "POST" -> method ≠ "PATCH" ->
  notion_request_with_retry method url headers json_data w
  = (Ok (429%Z, None, Some "Rate limited after max retries"), w,
     replicate NOTION_MAX_RETRIES (Slept NOTION_REQUEST_DELAY)).
Proof.
  intros Hg Hp Hq. unfold notion_request_with_retry.
  assert (∀ attempts,
             for_attempts method url headers json_data attempts w
             = (Ok (429%Z, None, Some "Rate limited after max retries"), w,
                replicate (length attempts) (Slept NOTION_REQUEST_DELAY))) as Hall.
  { induction attempts as [|a attempts IH]; [reflexivity|].
    rewrite (for_attempts_continue _ _ _ _ _ _ _ _ _
               (attempt_once_unknown method url headers json_data a w Hg Hp Hq)).
    rewrite IH. reflexivity. }
  apply (Hall (seq 0 NOTION_MAX_RETRIES)).
Qed.

(** Whatever the destination answers and however the run ends (a result
    or an exception), the gateway sends the one request it was given at
    most five times and nothing else, sleeps at most ten times, and never
    sleeps longer than the 30 s ceiling at a time. *)
Theorem gateway_effort_is_bounded method url headers json_data w
    (res : result triple) w' (t : list event) :
  notion_request_with_retry method url headers json_data w = (res, w', t) ->
  (∃ n, n ≤ NOTION_MAX_RETRIES ∧
        sent t = replicate n (request_of method url headers json_data)) ∧
  length (sleeps t) ≤ 2 * NOTION_MAX_RETRIES ∧
  Forall (fun d => (d <= inject_Z NOTION_MAX_RETRY_DELAY)%Q) (sleeps t).
Proof.
  intros Hrun. apply for_attempts_events in Hrun.
  rewrite length_seq in Hrun. exact Hrun.
Qed.

(** A 200 reply ends the request at whatever pass it arrives, after any
    number of passes that were retried: the gateway returns the decoded
    body without error text. *)
Theorem success_after_retries method url headers json_data
    passes w w1 t1 (r : response) w2 :
  known_method method ->
  (passes < NOTION_MAX_RETRIES)%nat ->
  retried method url headers json_data (seq 0 passes) w = Some (w1, t1) ->
  send (request_of method url headers json_data) w1 = (Response r, w2) ->
  resp_status r = 200%Z ->
  notion_request_with_retry method url headers json_data w
  = (Ok (200%Z, decoded (resp_json r), None), w2,
     t1 ++ [Slept NOTION_REQUEST_DELAY;
            Sent (request_of method url headers json_data)]).
Proof.
  intros Hm Hlt Hretried Hsend Hs.
  unfold notion_request_with_retry.
  replace NOTION_MAX_RETRIES with (passes + S (NOTION_MAX_RETRIES - S passes))%nat by lia.
  rewrite seq_app, (for_attempts_retried _ _ _ _ _ _ _ _ _ Hretried).
  cbn [seq].
  rewrite (for_attempts_return _ _ _ _ _ _ _ w2
             [Slept NOTION_REQUEST_DELAY; Sent (request_of method url headers json_data)]
             (200%Z, decoded (resp_json r), None)); [reflexivity|].
  rewrite (attempt_once_reply _ _ _ _ _ _ _ _ Hm Hsend). cbv zeta.
  rewrite (on_response_ok _ _ _ Hs). reflexivity.
Qed.

End GatewayEffort.

(** Five time-outs in a row. *)
Lemma timeouts_exhaust_retries_witness :
  let r := request_of "POST" "https://api.notion.com/v1/pages" [] None in
  notion_request_with_retry (H := unreachable) "POST" "https://api.notion.com/v1/pages" []
    None tt
  = (Ok (0%Z, None, Some "Request timeout after retries"), tt,
     timed_out_pass r 2 ++ timed_out_pass r 4 ++ timed_out_pass r 8 ++ timed_out_pass r 16
     ++ [Slept NOTION_REQUEST_DELAY; Sent r]).
Proof.
  apply (timeouts_exhaust_retries (H := unreachable) "POST"
           "https://api.notion.com/v1/pages" [] None tt tt).
  - right; left; reflexivity.
  - simpl. repeat (exists tt; split; [reflexivity|]). reflexivity.
Defined.

(** One 429 reply, then the connection breaks. *)
Lemma connection_error_is_not_retried_witness :
  let r := request_of "POST" "https://api.notion.com/v1/pages" [] None in
  notion_request_with_retry (H := scripted) "POST" "https://api.notion.com/v1/pages" [] None
    [ Response (rate_limit (Some "1")); Broken "connection reset"; no_match ]
  = (Raise (ClientError "connection reset"), [no_match],
     limited_pass r 1 ++ [Slept NOTION_REQUEST_DELAY; Sent r]).
Proof.
  apply (connection_error_is_not_retried (H := scripted) "POST"
           "https://api.notion.com/v1/pages" [] None 1
           _ [Broken "connection reset"; no_match]
           (limited_pass (request_of "POST" "https://api.notion.com/v1/pages" [] None) 1)).
  - right; left; reflexivity.
  - unfold NOTION_MAX_RETRIES. lia.
  - vm_compute. reflexivity.
  - reflexivity.
Defined.


Lemma unknown_method_sends_nothing_witness :
  notion_request_with_retry (H := scripted) "DELETE" "https://api.notion.com/v1/pages/p1" []
    None [no_match]
  = (Ok (429%Z, None, Some "Rate limited after max retries"), [no_match],
     replicate NOTION_MAX_RETRIES (Slept NOTION_REQUEST_DELAY)).
Proof.
  apply (unknown_method_sends_nothing (H := scripted) "DELETE"); discriminate.
Defined.

(** A 429 reply, a time-out, then a 200. *)
Lemma gateway_effort_is_bounded_witness :
  let run :=
    notion_request_with_retry (H := scripted) "POST" "https://api.notion.com/v1/pages" []
      None [ Response (rate_limit (Some "120")); TimedOut; created "page-1" ] in
  (∃ n, n ≤ NOTION_MAX_RETRIES ∧
        sent run.2 = replicate n (request_of "POST" "https://api.notion.com/v1/pages" []
                                             None)) ∧
  length (sleeps run.2) ≤ 2 * NOTION_MAX_RETRIES ∧
  Forall (fun d => (d <= inject_Z NOTION_MAX_RETRY_DELAY)%Q) (sleeps run.2).
Proof.
  intros run.
  apply (gateway_effort_is_bounded (H := scripted) "POST" "https://api.notion.com/v1/pages"
           [] None [ Response (rate_limit (Some "120")); TimedOut; created "page-1" ]
           run.1.1 run.1.2 run.2).
  vm_compute. reflexivity.
Defined.

(** One 429 reply, then the page is created. *)
Lemma success_after_retries_witness :
  let r := request_of "POST" "https://api.notion.com/v1/pages" [] None in
  notion_request_with_retry (H := scripted) "POST" "https://api.notion.com/v1/pages" [] None
    [ Response (rate_limit (Some "1")); created "page-1" ]
  = (Ok (200%Z, Some (JDict [("object", JStr "page"); ("id", JStr "page-1")]), None), [],
     limited_pass r 1 ++ [Slept NOTION_REQUEST_DELAY; Sent r]).
Proof.
  apply (success_after_retries (H := scripted) "POST"
           "https://api.notion.com/v1/pages" [] None 1
           _ [created "page-1"]
           (limited_pass (request_of "POST" "https://api.notion.com/v1/pages" [] None) 1)
           {| resp_status := 200; resp_retry_after := None;
              resp_json := JDict [("object", JStr "page"); ("id", JStr "page-1")];
              resp_text := "" |}).
  - right; left; reflexivity.
  - unfold NOTION_MAX_RETRIES. lia.
  - vm_compute. reflexivity.
  - reflexivity.
  - reflexivity.
Defined.

(** ** The upsert protocol: requests *)

Section Silent.

Context {W : Type} `{Host W}.

Lemma mbind_inv {A B} (m : M W A) (k : A -> M W B) (w : W) res w2 t :
  mbind m k w = (res, w2, t) ->
  (∃ e, m w = (Raise e, w2, t) ∧ res = Raise e) ∨
  (∃ a w1 t1 t2, m w = (Ok a, w1, t1) ∧ k a w1 = (res, w2, t2) ∧ t = t1 ++ t2).
Proof.
  unfold mbind. destruct (m w) as [[[a|e] w1] t1].
  - destruct (k a w1) as [[r w2'] t2] eqn:Hk. intros [= <- <- <-].
    right. exists a, w1, t1, t2. auto.
  - intros [= <- <- <-]. left. exists e. auto.
Qed.

Lemma silent_mret {A} (a : A) : silent (W := W) (mret a).
Proof. intros w. eexists. reflexivity. Qed.

Lemma silent_raise {A} (e : exn) : silent (W := W) (A := A) (raise e).
Proof. intros w. eexists. reflexivity. Qed.

Lemma silent_mbind {A B} (m : M W A) (k : A -> M W B) :
  silent m -> (∀ a, silent (k a)) -> silent (mbind m k).
Proof.
  intros Hm Hk w. destruct (Hm w) as [[a|e] Hrun]; unfold mbind; rewrite Hrun.
  - destruct (Hk a w) as [r ->]. eexists. reflexivity.
  - eexists. reflexivity.
Qed.

Lemma silent_body_get (key : string) (default : json) (data : option json) :
  silent (W := W) (body_get key default data).
Proof.
  unfold body_get. destruct data as [[]|]; try apply silent_raise. apply silent_mret.
Qed.

Lemma silent_as_page_id (j : json) : silent (W := W) (as_page_id j).
Proof. destruct j; try apply silent_raise; apply silent_mret. Qed.

Lemma silent_first_result_id (results : json) : silent (W := W) (first_result_id results).
Proof.
  unfold first_result_id. destruct results as [| | | | |items|]; try apply silent_raise.
  destruct items as [|[] ?]; try apply silent_raise.
  destruct (Dict.get "id" fields); [apply silent_as_page_id | apply silent_raise].
Qed.

(** What follows a silent continuation is the run of what came before. *)
Lemma mbind_silent {A B} (m : M W A) (k : A -> M W B) (w : W) res w2 t :
  (∀ a, silent (k a)) ->
  mbind m k w = (res, w2, t) -> ∃ res0, m w = (res0, w2, t).
Proof.
  intros Hk Hrun. apply mbind_inv in Hrun as [(e & Hm & _) | (a & w1 & t1 & t2 & Hm & Hka & ->)].
  - eauto.
  - destruct (Hk a w1) as [r Hr]. rewrite Hr in Hka. injection Hka as _ <- <-.
    rewrite app_nil_r. eauto.
Qed.

Lemma find_page_by_hevy_id_sends (database_id hevy_id notion_api_key : string)
    (w : W) res w' t :
  find_page_by_hevy_id (Some database_id) "Hevy ID" hevy_id notion_api_key "rich_text" w
  = (res, w', t) ->
  ∃ n, n ≤ NOTION_MAX_RETRIES ∧
       sent t = replicate n (Notion.query_request notion_api_key database_id hevy_id).
Proof.
  unfold find_page_by_hevy_id. cbv zeta. intros Hrun.
  apply mbind_silent in Hrun as [res0 Hrun].
  - apply gateway_events in Hrun as (Hsent & _). exact Hsent.
  - intros [[status data] error].
    destruct ((status =? 200)%Z && body_truthy data); [|apply silent_mret].
    apply silent_mbind; [apply silent_body_get|].
    intros results. destruct (json_truthy results);
      [apply silent_first_result_id | apply silent_mret].
Qed.

Lemma create_or_update_page_sends (database_id : string) (page_id : option string)
    (props : dict) (notion_api_key : string) (w : W) res w' t :
  create_or_update_page (Some database_id) page_id props notion_api_key w = (res, w', t) ->
  ∃ m, m ≤ NOTION_MAX_RETRIES ∧
       sent t = replicate m
                  (if Py.truthy_opt page_id
                   then Notion.update_request notion_api_key (default "" page_id) props
                   else Notion.create_request notion_api_key database_id props).
Proof.
  unfold create_or_update_page. cbv zeta. intros Hrun.
  apply mbind_silent in Hrun as [res0 Hrun].
  - destruct (Py.truthy_opt page_id);
      apply gateway_events in Hrun as (Hsent & _); exact Hsent.
  - intros [[status data] error].
    destruct ((status =? 200)%Z && body_truthy data); [|apply silent_mret].
    apply silent_mbind; [apply silent_body_get|]. intros id. apply silent_as_page_id.
Qed.

Lemma resolve_and_write_sends (database_id hevy_id : string) (props : dict)
    (notion_api_key : string) (w : W) res w' t :
  resolve_and_write (Some database_id) hevy_id props notion_api_key w = (res, w', t) ->
  query_then_write notion_api_key database_id hevy_id props t.
Proof.
  unfold resolve_and_write. intros Hrun.
  apply mbind_inv in Hrun
    as [(e & Hfind & _) | (existing & w1 & t1 & t2 & Hfind & Hwrite & ->)].
  - apply find_page_by_hevy_id_sends in Hfind as (n & Hn & Hsent).
    exists n, 0, (Notion.create_request notion_api_key database_id props).
    split; [exact Hn|]. split; [lia|]. split; [|left; reflexivity].
    rewrite Hsent, app_nil_r. reflexivity.
  - apply find_page_by_hevy_id_sends in Hfind as (n & Hn & Hsent).
    apply create_or_update_page_sends in Hwrite as (m & Hm & Hsent2).
    exists n, m. eexists. split; [exact Hn|]. split; [exact Hm|].
    split; [rewrite sent_app, Hsent, Hsent2; reflexivity|].
    destruct existing as [[|c page]|]; cbn [Py.truthy_opt Py.truthy];
      [left; reflexivity | right | left; reflexivity].
    exists (String c page). split; [discriminate | reflexivity].
Qed.






(** Whatever the destination answers and however the upsert ends, an
    entity upsert sends the query for its source id at most five times and
    then one write at most five times, which either creates a page with
    the property set or patches one page with it; it sends nothing else.
    A set whose workout was written is queried under its composite id. *)
Theorem upsert_sends_query_then_write (notion_api_key database_id : string) (w : W)
    (res : result (option string)) (w' : W) (t : list event) :
  (∀ template,
      upsert_exercise_template template notion_api_key database_id w = (res, w', t) ->
      query_then_write notion_api_key database_id (template_hevy_id template)
                       (template_properties (utcnow w) (unwrap template)) t) ∧
  (∀ routine,
      upsert_routine routine notion_api_key database_id w = (res, w', t) ->
      query_then_write notion_api_key database_id (routine_hevy_id routine)
                       (routine_properties (utcnow w) (unwrap routine)) t) ∧
  (∀ workout routine_page_id,
      upsert_workout workout notion_api_key database_id routine_page_id w = (res, w', t) ->
      query_then_write notion_api_key database_id (default "" (wk_id (unwrap workout)))
                       (workout_properties (utcnow w) (unwrap workout) routine_page_id) t) ∧
  (∀ workout_id workout_page_id ex exercise_index set set_index template_page,
      upsert_set workout_id workout_page_id ex exercise_index set set_index notion_api_key
                 (Some database_id) template_page w = (res, w', t) ->
      query_then_write notion_api_key database_id
                       (composite_set_id workout_id exercise_index set_index)
                       (set_properties (utcnow w) workout_id workout_page_id ex
                                       exercise_index set set_index template_page) t).
Proof.
  split; [|split; [|split]].
  - intros template. unfold upsert_exercise_template. rewrite now_bind.
    apply resolve_and_write_sends.
  - intros routine. unfold upsert_routine. rewrite now_bind.
    apply resolve_and_write_sends.
  - intros workout routine_page_id. unfold upsert_workout. rewrite now_bind.
    apply resolve_and_write_sends.
  - intros workout_id workout_page_id ex exercise_index set set_index template_page.
    unfold upsert_set. rewrite now_bind. apply resolve_and_write_sends.
Qed.

(** A search that is answered with an error status is read as "no page
    found": the resolver returns None, and the upsert goes on to create a
    page, whether or not a record for the source id exists. *)
Theorem failed_search_leads_to_create (wk : enveloped workout)
    (notion_api_key workouts_db_id : string) (routine_page_id : option string)
    (w w1 w2 : W) (failure answer : response) (fields : dict) (page_id : string) :
  let hevy_id := default "" (wk_id (unwrap wk)) in
  let props := workout_properties (utcnow w) (unwrap wk) routine_page_id in
  let query := Notion.query_request notion_api_key workouts_db_id hevy_id in
  let create := Notion.create_request notion_api_key workouts_db_id props in
  send query w = (Response failure, w1) ->
  resp_status failure ≠ 200%Z ->
  resp_status failure ≠ 429%Z ->
  send create w1 = (Response answer, w2) ->
  resp_status answer = 200%Z ->
  resp_json answer = JDict fields ->
  Dict.get "id" fields = Some (JStr page_id) ->
  find_page_by_hevy_id (Some workouts_db_id) "Hevy ID" hevy_id notion_api_key "rich_text" w
  = (Ok None, w1, [Slept NOTION_REQUEST_DELAY; Sent query]) ∧
  upsert_workout wk notion_api_key workouts_db_id routine_page_id w
  = (Ok (Some page_id), w2,
     [Slept NOTION_REQUEST_DELAY; Sent query; Slept NOTION_REQUEST_DELAY; Sent create]).
Proof.
  intros hevy_id props query create Hsend H200 H429 Hsend2 Hok Hjson Hid.
  assert (find_page_by_hevy_id (Some workouts_db_id) "Hevy ID" hevy_id notion_api_key
                               "rich_text" w
          = (Ok None, w1, [Slept NOTION_REQUEST_DELAY; Sent query])) as Hfind.
  { unfold find_page_by_hevy_id. cbv zeta.
    change (String.eqb "rich_text" "title") with false. cbv iota.
    pose proof (for_attempts_return "POST"
                  (Notion.query_url workouts_db_id) (get_notion_headers notion_api_key)
                  (Some (JDict [("filter",
                                 JDict [ ("property", JStr "Hevy ID");
                                         ("rich_text", JDict [("equals", JStr hevy_id)]) ])]))
                  0 (seq 1 4) w w1 [Slept NOTION_REQUEST_DELAY; Sent query]
                  (resp_status failure, None, Some (resp_text failure))) as Hgate.
    unfold notion_request_with_retry. cbn [seq NOTION_MAX_RETRIES].
    erewrite mbind_ok; [|apply Hgate].
    - cbv beta iota. apply Z.eqb_neq in H200. rewrite H200. reflexivity.
    - rewrite (attempt_once_reply _ _ _ _ _ _ _ _
                 (or_intror (or_introl eq_refl)) Hsend). cbv zeta.
      rewrite (on_response_other _ _ _ H200 H429). reflexivity. }
  split; [exact Hfind|].
  unfold upsert_workout. rewrite now_bind.
  fold hevy_id. fold props. rewrite (mbind_ok _ _ _ _ _ _ Hfind).
  unfold create_or_update_page. cbv zeta. cbn [Py.truthy_opt].
  erewrite mbind_ok;
    [|apply request_answered; [right; left; reflexivity | exact Hsend2 | exact Hok]].
  rewrite Hjson. cbn [decoded Z.eqb Pos.eqb andb body_truthy json_truthy].
  destruct fields as [|field fields]; [discriminate|].
  cbv iota. unfold body_get. rewrite Hid. reflexivity.
Qed.

End Silent.

(** ** The upsert protocol: records *)

Module RecordFacts.

Import Notion NotionFacts UpsertFacts.

Lemma matches_carried (database_id value value' : string) (p : page) :
  carries (properties p) value ->
  matches database_id "rich_text" "Hevy ID" value' p
  = String.eqb (parent p) database_id && String.eqb value value'.
Proof.
  intros Hc. unfold matches. unfold carries in Hc. rewrite Hc.
  change (plain_text "rich_text" (rich_text_prop value)) with (Some value).
  reflexivity.
Qed.

Lemma matches_parent (database_id value : string) (p : page) :
  matches database_id "rich_text" "Hevy ID" value p = true -> parent p = database_id.
Proof.
  unfold matches. intros Hm. apply andb_true_iff in Hm as [Hm _].
  apply String.eqb_eq, Hm.
Qed.

(** A page that answers one query answers no other. *)
Lemma matches_elsewhere (database_id value database_id' value' : string) (p : page) :
  matches database_id "rich_text" "Hevy ID" value p = true ->
  (database_id', value') ≠ (database_id, value) ->
  matches database_id' "rich_text" "Hevy ID" value' p = false.
Proof.
  intros Hm Hne.
  destruct (matches database_id' "rich_text" "Hevy ID" value' p) eqn:Hm'; [|reflexivity].
  exfalso. apply Hne. f_equal.
  - rewrite <- (matches_parent _ _ _ Hm), <- (matches_parent _ _ _ Hm'). reflexivity.
  - symmetry. eapply matches_functional.
    + exact Hm.
    + unfold matches in *. apply andb_true_iff in Hm as [Hp Hv], Hm' as [Hp' Hv'].
      apply andb_true_iff. split; [exact Hp | exact Hv'].
Qed.

Lemma carried_elsewhere (database_id value database_id' value' : string) (p : page) :
  carries (properties p) value -> parent p = database_id ->
  (database_id', value') ≠ (database_id, value) ->
  matches database_id' "rich_text" "Hevy ID" value' p = false.
Proof.
  intros Hc Hparent Hne. rewrite (matches_carried _ value) by exact Hc.
  destruct (String.eqb (parent p) database_id') eqn:Hp; [|reflexivity].
  destruct (String.eqb value value') eqn:Hv; [|reflexivity].
  apply String.eqb_eq in Hp, Hv. exfalso. apply Hne. congruence.
Qed.

Section Patch.

Variables (s : store) (database_id value : string) (props : dict) (p : page).

Hypothesis Hwf : wf s.
Hypothesis Hc : carries props value.
Hypothesis Hp : p ∈ pages s.
Hypothesis Hm : matches database_id "rich_text" "Hevy ID" value p = true.

Lemma patched_other (q : page) :
  page_id q ≠ page_id p -> patched (page_id p) props q = q.
Proof.
  intros Hne. unfold patched. apply String.eqb_neq in Hne. rewrite Hne. reflexivity.
Qed.

Lemma the_target (q : page) : q ∈ pages s -> page_id q = page_id p -> q = p.
Proof. intros Hq Hid. destruct Hwf as (Hnd & _). eapply same_id_same_page; eauto. Qed.

Lemma patched_target_matches :
  matches database_id "rich_text" "Hevy ID" value (patched (page_id p) props p) = true.
Proof.
  unfold patched. rewrite String.eqb_refl.
  rewrite matches_carrying by (apply carries_merge, Hc). cbn [parent].
  rewrite (matches_parent _ _ _ Hm). apply String.eqb_refl.
Qed.

Lemma patched_records :
  records (with_patched_page s (page_id p) props) database_id "Hevy ID" value
  = patched (page_id p) props <$> records s database_id "Hevy ID" value.
Proof.
  unfold records, with_patched_page. cbn [pages].
  apply filter_fmap_agree. intros q Hq.
  destruct (decide (page_id q = page_id p)) as [Hid | Hne].
  - rewrite (the_target q Hq Hid), patched_target_matches, Hm. reflexivity.
  - rewrite patched_other by assumption. reflexivity.
Qed.

Lemma patched_records_elsewhere (database_id' value' : string) :
  (database_id', value') ≠ (database_id, value) ->
  records (with_patched_page s (page_id p) props) database_id' "Hevy ID" value'
  = records s database_id' "Hevy ID" value'.
Proof.
  intros Hne. unfold records, with_patched_page. cbn [pages].
  rewrite filter_fmap_agree.
  - rewrite <- (list_fmap_id (List.filter _ (pages s))) at 2.
    apply list_fmap_ext. intros i q Hi. cbn.
    apply list_elem_of_lookup_2, list_elem_of_In, filter_In in Hi as [Hq Hmq].
    apply patched_other. intros Hid.
    rewrite (the_target q (proj2 (list_elem_of_In _ _) Hq) Hid) in Hmq.
    rewrite (matches_elsewhere _ _ _ _ _ Hm Hne) in Hmq. discriminate.
  - intros q Hq. destruct (decide (page_id q = page_id p)) as [Hid | Hneq].
    + rewrite (the_target q Hq Hid), (matches_elsewhere _ _ _ _ _ Hm Hne).
      apply carried_elsewhere with (database_id := database_id) (value := value).
      * unfold patched. rewrite String.eqb_refl. apply carries_merge, Hc.
      * unfold patched. rewrite String.eqb_refl. cbn [parent].
        apply (matches_parent _ _ _ Hm).
      * exact Hne.
    + rewrite patched_other by assumption. reflexivity.
Qed.

End Patch.

Lemma upserted_length (s : store) (database_id value : string) (props : dict) :
  wf s -> carries props value ->
  length (records (upserted s database_id value props).1 database_id "Hevy ID" value)
  = Nat.max 1 (length (records s database_id "Hevy ID" value)).
Proof.
  intros Hwf Hc. unfold upserted.
  destruct (records s database_id "Hevy ID" value) as [|p rest] eqn:Hrec; cbn [fst].
  - unfold records, with_new_page in *. cbn [pages].
    rewrite List.filter_app, Hrec. cbn [List.filter app].
    rewrite matches_carrying by exact Hc. cbn [new_page parent].
    rewrite String.eqb_refl. reflexivity.
  - assert (p ∈ records s database_id "Hevy ID" value) as Hp by (rewrite Hrec; left).
    apply elem_of_records in Hp as [Hp Hm].
    rewrite (patched_records s database_id value props p Hwf Hc Hp Hm), Hrec.
    rewrite length_fmap. simpl. lia.
Qed.

Lemma upserted_elsewhere (s : store) (database_id value : string) (props : dict)
    (database_id' value' : string) :
  wf s -> carries props value ->
  (database_id', value') ≠ (database_id, value) ->
  records (upserted s database_id value props).1 database_id' "Hevy ID" value'
  = records s database_id' "Hevy ID" value'.
Proof.
  intros Hwf Hc Hne. unfold upserted.
  destruct (records s database_id "Hevy ID" value) as [|p rest] eqn:Hrec; cbn [fst].
  - unfold records, with_new_page. cbn [pages].
    rewrite List.filter_app. cbn [List.filter].
    rewrite (carried_elsewhere database_id value); [apply app_nil_r | exact Hc | reflexivity
                                                    | exact Hne].
  - assert (p ∈ records s database_id "Hevy ID" value) as Hp by (rewrite Hrec; left).
    apply elem_of_records in Hp as [Hp Hm].
    apply (patched_records_elsewhere s database_id value props p Hwf Hc Hp Hm _ _ Hne).
Qed.

Lemma protocol_touches_one_record (clock : datetime) (notion_api_key : string)
    (database_id value : string) (props : dict) :
  carries props value ->
  touches_one_record database_id value
    (resolve_and_write (H := host clock) (Some database_id) value props notion_api_key).
Proof.
  intros Hc s Hwf Hdb.
  destruct (resolve_and_write_on_notion clock notion_api_key s database_id value props
              Hwf Hdb) as [t Hrun].
  exists (upserted s database_id value props).2, (upserted s database_id value props).1, t.
  split; [exact Hrun|]. split; [apply wf_upserted, Hwf|]. split; [|split].
  - destruct (upserted_page s database_id value props Hwf Hc) as (q & Hq & Hid & Hm).
    exists q. split; [|exact Hid]. apply elem_of_records. auto.
  - apply upserted_length; assumption.
  - intros database_id' value' Hne. apply upserted_elsewhere; assumption.
Qed.

End RecordFacts.

(** Against the destination, with every request answered, an entity
    upsert returns the id of a record that carries the source id
    afterwards.  It adds a record only when the database held none for
    that source id; when it held several (duplicates written elsewhere),
    their number stays what it was.  The records of every other source id
    and of every other database are left exactly as they were. *)
Theorem upsert_touches_one_record (clock : datetime) (notion_api_key database_id : string) :
  (∀ template,
      touches_one_record database_id (template_hevy_id template)
        (upsert_exercise_template (H := Notion.host clock) template notion_api_key
                                  database_id)) ∧
  (∀ routine,
      touches_one_record database_id (routine_hevy_id routine)
        (upsert_routine (H := Notion.host clock) routine notion_api_key database_id)) ∧
  (∀ workout routine_page_id,
      touches_one_record database_id (default "" (wk_id (unwrap workout)))
        (upsert_workout (H := Notion.host clock) workout notion_api_key database_id
                        routine_page_id)) ∧
  (∀ workout_id workout_page_id ex exercise_index set set_index template_page,
      touches_one_record database_id (composite_set_id workout_id exercise_index set_index)
        (upsert_set (H := Notion.host clock) workout_id workout_page_id ex exercise_index
                    set set_index notion_api_key (Some database_id) template_page)).
Proof.
  split; [|split; [|split]].
  - intros template s Hwf Hdb. unfold upsert_exercise_template. rewrite now_bind.
    apply (RecordFacts.protocol_touches_one_record clock notion_api_key database_id _ _
             (template_carries_id _ _) s Hwf Hdb).
  - intros routine s Hwf Hdb. unfold upsert_routine. rewrite now_bind.
    apply (RecordFacts.protocol_touches_one_record clock notion_api_key database_id _ _
             (routine_carries_id _ _) s Hwf Hdb).
  - intros workout routine_page_id s Hwf Hdb. unfold upsert_workout. rewrite now_bind.
    apply (RecordFacts.protocol_touches_one_record clock notion_api_key database_id _ _
             (workout_carries_id _ _ _) s Hwf Hdb).
  - intros workout_id workout_page_id ex exercise_index set set_index template_page
           s Hwf Hdb.
    unfold upsert_set. rewrite now_bind.
    apply (RecordFacts.protocol_touches_one_record clock notion_api_key database_id _ _
             (set_carries_id _ _ _ _ _ _ _ _) s Hwf Hdb).
Qed.


(** C5 as stated fails for the empty string, which Python's truth test
    treats like a missing value.  The mapping has an entry for the
    routine id of each of the two workouts, "r-1" and the empty id (the
    id under which [sync_routines] files a routine that has none); the
    first entry is an empty page id.  Neither workout is written with a
    "Routine" relation. *)
Lemma empty_ids_give_no_relation :
  let routine_mapping : gmap string string := {[ "r-1" := ""; "" := "1a2b-3c4d" ]} in
  routine_mapping !! "r-1" = Some "" ∧
  routine_mapping !! "" = Some "1a2b-3c4d" ∧
  ∃ props1 props2 : dict,
    sent (sync_workouts_and_sets (H := Notion.host epoch)
            [Bare (routine_day "w1" (Some "r-1")); Bare (routine_day "w2" (Some ""))]
            "secret" "workouts-db" (Some "sets-db") routine_mapping ∅ blank_store).2
    = [ Notion.query_request "secret" "workouts-db" "w1";
        Notion.create_request "secret" "workouts-db" props1;
        Notion.query_request "secret" "workouts-db" "w2";
        Notion.create_request "secret" "workouts-db" props2 ] ∧
    Dict.get "Routine" props1 = None ∧
    Dict.get "Routine" props2 = None.
Proof.
  cbv zeta. split; [vm_compute; reflexivity|]. split; [vm_compute; reflexivity|].
  eexists _, _. split; [vm_compute; reflexivity|]. split; reflexivity.
Qed.


(** The query is retried once after a 429, finds nothing, and the page is
    created. *)
Lemma upsert_sends_query_then_write_witness :
  let run :=
    upsert_workout (H := scripted) (Bare leg_day) "secret" "workouts-db" None
      [ Response (rate_limit (Some "1")); no_match; created "page-1" ] in
  query_then_write "secret" "workouts-db" "w1" (workout_properties epoch leg_day None) run.2.
Proof.
  intros run.
  apply (proj1 (proj2 (proj2
           (upsert_sends_query_then_write (H := scripted) "secret" "workouts-db"
              [ Response (rate_limit (Some "1")); no_match; created "page-1" ]
              run.1.1 run.1.2 run.2)))
           (Bare leg_day) None).
  vm_compute. reflexivity.
Defined.

(** The search meets a 502; the page is created all the same. *)
Lemma failed_search_leads_to_create_witness :
  let query := Notion.query_request "secret" "workouts-db" "w1" in
  let create :=
    Notion.create_request "secret" "workouts-db" (workout_properties epoch leg_day None) in
  find_page_by_hevy_id (H := scripted) (Some "workouts-db") "Hevy ID" "w1" "secret"
                       "rich_text" [server_error; created "page-9"]
  = (Ok None, [created "page-9"], [Slept NOTION_REQUEST_DELAY; Sent query]) ∧
  upsert_workout (H := scripted) (Bare leg_day) "secret" "workouts-db" None
                 [server_error; created "page-9"]
  = (Ok (Some "page-9"), [],
     [Slept NOTION_REQUEST_DELAY; Sent query; Slept NOTION_REQUEST_DELAY; Sent create]).
Proof.
  apply (failed_search_leads_to_create (H := scripted) (Bare leg_day) "secret" "workouts-db"
           None [server_error; created "page-9"] [created "page-9"] []
           {| resp_status := 502; resp_retry_after := None; resp_json := JNull;
              resp_text := "Bad Gateway" |}
           {| resp_status := 200; resp_retry_after := None;
              resp_json := JDict [("object", JStr "page"); ("id", JStr "page-9")];
              resp_text := "" |}
           [("object", JStr "page"); ("id", JStr "page-9")] "page-9").
  - reflexivity.
  - discriminate.
  - discriminate.
  - reflexivity.
  - reflexivity.
  - reflexivity.
  - reflexivity.
Defined.

Lemma duplicated_store_wf : Notion.wf duplicated_store.
Proof.
  unfold Notion.wf. split; [|split].
  - refine (bool_decide_unpack _ _). vm_compute. exact I.
  - repeat constructor; discriminate.
  - repeat constructor; intros k _ Heq; cbv - [Py.str_of_nat] in Heq; discriminate.
Qed.

(** An upsert into a database that already holds two records for the
    source id: the first is patched, both stay, the third is untouched. *)
Lemma upsert_touches_one_record_witness :
  ∃ (page_id : string) (s' : Notion.store) (t : list event),
    upsert_workout (H := Notion.host epoch) (Bare push_day) "secret" "workouts-db" None
                   duplicated_store
    = (Ok (Some page_id), s', t) ∧
    Notion.wf s' ∧
    (∃ q, q ∈ Notion.records s' "workouts-db" "Hevy ID" "w1" ∧ Notion.page_id q = page_id) ∧
    length (Notion.records s' "workouts-db" "Hevy ID" "w1")
    = Nat.max 1 (length (Notion.records duplicated_store "workouts-db" "Hevy ID" "w1")) ∧
    ∀ database_id' hevy_id',
      (database_id', hevy_id') ≠ ("workouts-db", "w1") ->
      Notion.records s' database_id' "Hevy ID" hevy_id'
      = Notion.records duplicated_store database_id' "Hevy ID" hevy_id'.
Proof.
  apply (proj1 (proj2 (proj2 (upsert_touches_one_record epoch "secret" "workouts-db")))
           (Bare push_day) None duplicated_store).
  - exact duplicated_store_wf.
  - left.
Defined.

(** ** Property sets: texts, categories, relations and totals *)

Lemma prefix_length (n : nat) (s : string) :
  String.length (Py.prefix n s) = Nat.min n (String.length s).
Proof.
  unfold Py.prefix. revert s. induction n as [|n IH]; intros [|c s]; simpl; auto.
Qed.





(** *** Categories *)

Lemma cased_char (c : ascii) :
  cased c = true ->
  cased (Py.upper c) = true ∧ Py.upper (Py.upper c) = Py.upper c ∧ Py.upper c ≠ "_"%char ∧
  cased (Py.lower c) = true ∧ Py.lower (Py.lower c) = Py.lower c ∧ Py.lower c ≠ "_"%char.
Proof.
  destruct c as [[] [] [] [] [] [] [] []]; vm_compute; intros Hc;
    try discriminate Hc; repeat split; discriminate.
Qed.

Lemma replace_length (s : string) :
  String.length (Py.replace "_" " " s) = String.length s.
Proof.
  induction s as [|c s IH]; [reflexivity|]. simpl.
  destruct (Ascii.eqb c "_");
    [change (" " +:+ Py.replace "_" " " s) with (String " " (Py.replace "_" " " s))|];
    simpl; rewrite IH; reflexivity.
Qed.

Lemma replace_lacks (s : string) : lacks "_" (Py.replace "_" " " s).
Proof.
  induction s as [|c s IH]; [exact I|]. simpl.
  destruct (Ascii.eqb c "_") eqn:Hc.
  - change (" " +:+ Py.replace "_" " " s) with (String " " (Py.replace "_" " " s)).
    split; [discriminate | exact IH].
  - split; [apply Ascii.eqb_neq, Hc | exact IH].
Qed.

Lemma replace_absent (s : string) : lacks "_" s -> Py.replace "_" " " s = s.
Proof.
  induction s as [|c s IH]; [reflexivity|]. intros [Hc Hs]. simpl.
  apply Ascii.eqb_neq in Hc. rewrite Hc, (IH Hs). reflexivity.
Qed.

Lemma title_from_length (b : bool) (s : string) :
  String.length (Py.title_from b s) = String.length s.
Proof.
  revert b. induction s as [|c s IH]; intros b; [reflexivity|]. simpl.
  destruct (Py.is_lower c || Py.is_upper c); simpl; rewrite IH; reflexivity.
Qed.

Lemma title_from_lacks (b : bool) (s : string) :
  lacks "_" s -> lacks "_" (Py.title_from b s).
Proof.
  revert b. induction s as [|c s IH]; intros b; [auto|]. intros [Hc Hs]. simpl.
  destruct (Py.is_lower c || Py.is_upper c) eqn:Hcased.
  - destruct (cased_char c Hcased) as (_ & _ & Hu & _ & _ & Hl).
    split; [destruct b; assumption | apply IH, Hs].
  - split; [exact Hc | apply IH, Hs].
Qed.

Lemma title_from_idempotent (b : bool) (s : string) :
  Py.title_from b (Py.title_from b s) = Py.title_from b s.
Proof.
  revert b. induction s as [|c s IH]; intros b; [reflexivity|]. simpl.
  destruct (Py.is_lower c || Py.is_upper c) eqn:Hcased; simpl.
  - destruct (cased_char c Hcased) as (Hu & Huu & _ & Hl & Hll & _).
    unfold cased in Hu, Hl. destruct b.
    + rewrite Hl, Hll, IH. reflexivity.
    + rewrite Hu, Huu, IH. reflexivity.
  - rewrite Hcased, IH. reflexivity.
Qed.

(** Category names (muscle groups, equipment) are normalised before they
    are written: every underscore becomes a space and every word is
    capitalised.  The normal form has the length of the source name and
    holds no underscore, and normalising a normal form changes nothing, so
    a name read back from the destination is stable. *)
Theorem categories_are_normalised (s : string) :
  String.length (pretty_category s) = String.length s ∧
  lacks "_" (pretty_category s) ∧
  pretty_category (pretty_category s) = pretty_category s ∧
  pretty_category "upper_back" = "Upper Back".
Proof.
  unfold pretty_category, Py.title. split; [|split; [|split]].
  - rewrite title_from_length. apply replace_length.
  - apply title_from_lacks, replace_lacks.
  - rewrite (replace_absent (Py.title_from false _))
      by apply title_from_lacks, replace_lacks.
    apply title_from_idempotent.
  - reflexivity.
Qed.

(** *** Relations of a set *)

Lemma replace_dashless (s : string) : dashless (Py.replace "-" "" s).
Proof.
  induction s as [|c s IH]; [exact I|]. simpl.
  destruct (Ascii.eqb c "-") eqn:Hc.
  - exact IH.
  - split; [apply Ascii.eqb_neq, Hc | exact IH].
Qed.

(** A set refers to its workout and to its exercise template by page id
    with the "-" removed.  The template page is the one the mapping holds
    for the template id of the exercise; an exercise whose template id has
    no entry gets no "Exercise" relation, and a set whose workout page id
    is empty gets no "Workout" relation. *)
Theorem set_relation_integrity (exercise_template_mapping : gmap string string)
    (last_synced : datetime) (workout_id workout_page_id : string) (ex : exercise)
    (exercise_index : nat) (set : set_data) (set_index : nat) :
  let template_page :=
    exercise_template_mapping !! default "" (exercise_template_id ex) in
  let props := set_properties last_synced workout_id workout_page_id ex exercise_index set
                              set_index template_page in
  Dict.get "Workout" props
  = (if Py.truthy workout_page_id
     then Some (relation_to (Py.replace "-" "" workout_page_id)) else None) ∧
  Dict.get "Exercise" props
  = match template_page with
    | Some (String c page) => Some (relation_to (Py.replace "-" "" (String c page)))
    | _ => None
    end ∧
  ∀ page_id, dashless (Py.replace "-" "" page_id).
Proof.
  cbv zeta. split; [|split].
  - unfold set_properties. cbv zeta. lookup_key.
    destruct (Py.truthy workout_page_id); reflexivity.
  - unfold set_properties. cbv zeta. lookup_key.
    destruct (exercise_template_mapping !! default "" (exercise_template_id ex))
      as [[|c page]|]; reflexivity.
  - apply replace_dashless.
Qed.

(** *** Totals *)

Section Totals.

Context {W : Type} `{Host W}.

Lemma length_concat_imap {A B} (f : nat -> A -> list B) (l : list A) :
  length (concat (imap f l)) = list_sum (imap (fun i x => length (f i x)) l).
Proof.
  revert f. induction l as [|x l IH]; intros f; [reflexivity|].
  cbn [imap concat list_sum]. rewrite length_app, IH. reflexivity.
Qed.

Lemma imap_const {A B} (g : A -> B) (l : list A) : imap (fun _ x => g x) l = g <$> l.
Proof. induction l as [|x l IH]; [reflexivity|]. cbn. f_equal. exact IH. Qed.

Lemma length_set_tasks (workout_id workout_page_id : string) (exercises : list exercise)
    (notion_api_key : string) (sets_db_id : option string)
    (exercise_template_mapping : gmap string string) :
  length (set_tasks (W := W) workout_id workout_page_id exercises notion_api_key sets_db_id
                    exercise_template_mapping)
  = list_sum ((fun ex => length (default [] (ex_sets ex))) <$> exercises).
Proof.
  unfold set_tasks. rewrite length_concat_imap. cbv zeta.
  rewrite <- imap_const. f_equal. apply imap_ext. intros i ex _.
  apply length_imap.
Qed.

(** The "Total Sets" number written on the page of a workout is the
    number of set upserts [sync_workout_sets] issues for its exercises,
    and "Exercise Count" is the number of its exercises. *)
Theorem total_sets_counts_set_upserts (last_synced : datetime) (workout_data : workout)
    (routine_page_id : option string) (workout_id workout_page_id notion_api_key : string)
    (sets_db_id : option string) (exercise_template_mapping : gmap string string) :
  let exercises := default [] (wk_exercises workout_data) in
  let props := workout_properties last_synced workout_data routine_page_id in
  Dict.get "Total Sets" props
  = Some (number_prop
            (json_of_nat
               (length (set_tasks (W := W) workout_id workout_page_id exercises
                                  notion_api_key sets_db_id exercise_template_mapping)))) ∧
  Dict.get "Exercise Count" props = Some (number_prop (json_of_nat (length exercises))).
Proof.
  cbv zeta. rewrite length_set_tasks. unfold workout_properties. cbv zeta.
  split; lookup_key; reflexivity.
Qed.

End Totals.

(** ** Counters of a sync run *)

Section Counters.

Context {W : Type} `{Host W}.

Lemma list_sum_cons (x : nat) (l : list nat) : list_sum (x :: l) = x + list_sum l.
Proof. reflexivity. Qed.

Lemma count_synced_bound (results : list outcome) : count_synced results ≤ length results.
Proof.
  unfold count_synced. induction results as [|r results IH]; [reflexivity|].
  cbn [List.filter]. destruct r as [[?|]|?]; simpl; lia.
Qed.

Lemma sync_workout_sets_bound (workout_id workout_page_id : string)
    (exercises : list exercise) (notion_api_key : string) (sets_db_id : option string)
    (exercise_template_mapping : gmap string string) (w w' : W) (n : nat) (t : list event) :
  sync_workout_sets workout_id workout_page_id exercises notion_api_key sets_db_id
                    exercise_template_mapping w = (Ok n, w', t) ->
  n ≤ list_sum ((fun ex => length (default [] (ex_sets ex))) <$> exercises).
Proof.
  unfold sync_workout_sets. cbv zeta.
  rewrite <- (length_set_tasks (W := W) workout_id workout_page_id exercises notion_api_key
                sets_db_id exercise_template_mapping).
  destruct (set_tasks workout_id workout_page_id exercises notion_api_key sets_db_id
                      exercise_template_mapping) as [|task tasks] eqn:Htasks.
  - intros [= <- _ _]. simpl. lia.
  - intros Hrun. apply mbind_ok_inv in Hrun as (results & w1 & t1 & t2 & Hg & Hk & _).
    injection Hk as <- _ _. apply gather_length in Hg. rewrite <- Hg.
    apply count_synced_bound.
Qed.

Lemma for_workouts_bound (workouts : list (enveloped workout))
    (notion_api_key workouts_db_id : string) (sets_db_id : option string)
    (routine_mapping exercise_template_mapping : gmap string string)
    (workout_count set_count workout_count' set_count' : nat) (w w' : W) (t : list event) :
  for_workouts workouts notion_api_key workouts_db_id sets_db_id routine_mapping
               exercise_template_mapping workout_count set_count w
  = (Ok (workout_count', set_count'), w', t) ->
  workout_count' ≤ workout_count + length workouts ∧
  set_count' ≤ set_count + list_sum ((fun wk => sets_of (unwrap wk)) <$> workouts).
Proof.
  revert workout_count set_count w t.
  induction workouts as [|wk rest IH]; intros workout_count set_count w t Hrun.
  - injection Hrun as <- <- _ _. simpl. lia.
  - cbn [for_workouts] in Hrun. cbv zeta in Hrun.
    apply mbind_ok_inv in Hrun as (page & w1 & t1 & t2 & _ & Hrun & _).
    destruct (Py.truthy_opt page).
    + apply mbind_ok_inv in Hrun as (n & w2 & t3 & t4 & Hsets & Hrun & _).
      apply sync_workout_sets_bound in Hsets. apply IH in Hrun as [Hw Hs].
      rewrite fmap_cons, list_sum_cons. cbn [length]. unfold sets_of at 1. lia.
    + apply IH in Hrun as [Hw Hs]. rewrite fmap_cons, list_sum_cons. cbn [length]. lia.
Qed.

(** The counters a sync reports never exceed what it was given: a run
    of [sync_workout_sets] that returns counts at most the sets of the
    exercises, and a run of [sync_workouts_and_sets] counts at most the
    workouts of the list and at most the sets they hold. *)
Theorem sync_counters_are_bounded (notion_api_key workouts_db_id : string)
    (sets_db_id : option string)
    (routine_mapping exercise_template_mapping : gmap string string) :
  (∀ workout_id workout_page_id exercises (w w' : W) n t,
      sync_workout_sets workout_id workout_page_id exercises notion_api_key sets_db_id
                        exercise_template_mapping w = (Ok n, w', t) ->
      n ≤ list_sum ((fun ex => length (default [] (ex_sets ex))) <$> exercises)) ∧
  (∀ workouts (w w' : W) workout_count set_count t,
      sync_workouts_and_sets workouts notion_api_key workouts_db_id sets_db_id
                             routine_mapping exercise_template_mapping w
      = (Ok (workout_count, set_count), w', t) ->
      workout_count ≤ length workouts ∧
      set_count ≤ list_sum ((fun wk => sets_of (unwrap wk)) <$> workouts)).
Proof.
  split.
  - intros. eapply sync_workout_sets_bound. eassumption.
  - intros workouts w w' workout_count set_count t Hrun.
    apply for_workouts_bound in Hrun. simpl in Hrun. exact Hrun.
Qed.

(** A workout without sets costs no request: when no exercise holds a
    set, [sync_workout_sets] returns 0 at once, without sending, sleeping
    or touching the world. *)
Theorem no_sets_no_requests (workout_id workout_page_id : string)
    (exercises : list exercise) (notion_api_key : string) (sets_db_id : option string)
    (exercise_template_mapping : gmap string string) (w : W) :
  Forall (fun ex => default [] (ex_sets ex) = []) exercises ->
  sync_workout_sets workout_id workout_page_id exercises notion_api_key sets_db_id
                    exercise_template_mapping w
  = (Ok 0, w, []).
Proof.
  intros Hempty. unfold sync_workout_sets. cbv zeta.
  assert (set_tasks (W := W) workout_id workout_page_id exercises notion_api_key
                    sets_db_id exercise_template_mapping = []) as ->; [|reflexivity].
  apply length_zero_iff_nil. rewrite length_set_tasks.
  induction Hempty as [|ex exercises Hex _ IH]; [reflexivity|].
  rewrite fmap_cons, list_sum_cons, Hex, IH. reflexivity.
Qed.

End Counters.

(** The page of the second set is rejected; the second workout has no
    exercise. *)
Lemma sync_counters_are_bounded_witness :
  ((sync_workout_sets (H := faulty (turned_down ["w1-0-1"]) epoch) "w1" "page-1"
                      [bench_press] "secret" (Some "sets-db") ∅ blank_store).1.1 = Ok 1 ∧
   1 ≤ list_sum ((fun ex => length (default [] (ex_sets ex))) <$> [bench_press])) ∧
  ((sync_workouts_and_sets (H := faulty (turned_down ["w1-0-1"]) epoch)
                           [Bare leg_day; Bare push_day] "secret"
                           "workouts-db" (Some "sets-db") ∅ ∅ blank_store).1.1 = Ok (2, 1) ∧
   2 ≤ length [Bare leg_day; Bare push_day] ∧
   1 ≤ list_sum ((fun wk => sets_of (unwrap wk)) <$> [Bare leg_day; Bare push_day])).
Proof.
  split; (split; [vm_compute; reflexivity|]).
  - eapply (proj1 (sync_counters_are_bounded (H := faulty (turned_down ["w1-0-1"]) epoch)
                     "secret" "workouts-db" (Some "sets-db") ∅ ∅)
              "w1" "page-1" [bench_press] blank_store).
    vm_compute. reflexivity.
  - eapply (proj2 (sync_counters_are_bounded (H := faulty (turned_down ["w1-0-1"]) epoch)
                     "secret" "workouts-db" (Some "sets-db") ∅ ∅)
              [Bare leg_day; Bare push_day] blank_store).
    vm_compute. reflexivity.
Defined.

Lemma no_sets_no_requests_witness :
  sync_workout_sets (H := scripted) "w1" "page-1"
    [ {| ex_title := Some "Plank"; ex_superset_id := None; ex_notes := None;
         exercise_template_id := None; ex_sets := None |};
      {| ex_title := Some "Stretch"; ex_superset_id := None; ex_notes := None;
         exercise_template_id := None; ex_sets := Some [] |} ]
    "secret" (Some "sets-db") ∅ [no_match]
  = (Ok 0, [no_match], []).
Proof.
  apply (no_sets_no_requests (H := scripted)). repeat constructor.
Defined.

(** ** Batches with repeated source ids *)

Lemma foldl_store_pair_reverse (pairs : list (string * string))
    (id_mapping : gmap string string) :
  foldl store_pair id_mapping pairs = list_to_map (reverse pairs) ∪ id_mapping.
Proof.
  revert id_mapping. induction pairs as [|[k v] pairs IH]; intros id_mapping.
  - simpl. rewrite (left_id_L ∅ (∪)). reflexivity.
  - cbn [foldl]. rewrite IH, reverse_cons, list_to_map_app. unfold store_pair. cbn [fst snd].
    rewrite <- (assoc_L (∪)). f_equal. cbn [list_to_map foldr].
    rewrite insert_union_singleton_l, insert_empty. reflexivity.
Qed.

Lemma size_list_to_map_le (pairs : list (string * string)) :
  size (list_to_map pairs : gmap string string) ≤ length pairs.
Proof.
  induction pairs as [|[k v] pairs IH]; [cbn [list_to_map foldr]; rewrite map_size_empty; simpl; lia|].
  cbn [list_to_map foldr length]. rewrite map_size_insert.
  cbn [fst]. destruct ((list_to_map pairs : gmap string string) !! k); unfold id; lia.
Qed.

Lemma last_pair_wins (earlier later : list (string * string)) (id page_id : string) :
  id ∉ later.*1 ->
  (list_to_map (reverse (earlier ++ (id, page_id) :: later)) : gmap string string) !! id
  = Some page_id.
Proof.
  intros Hlater. rewrite reverse_app, reverse_cons, <- app_assoc, list_to_map_app.
  rewrite lookup_union_r.
  - cbn [app list_to_map foldr]. apply lookup_insert_eq.
  - apply not_elem_of_list_to_map_1. rewrite fmap_reverse, elem_of_reverse. exact Hlater.
Qed.

Lemma tally_any {A} (hevy_id : A -> string) (entities : list A) (results : list outcome) :
  length results = length entities ->
  let pairs := synced hevy_id entities results in
  tally hevy_id entities 0 results 0 ∅
  = Ok (length pairs, list_to_map (reverse pairs)).
Proof.
  intros Hlen pairs. rewrite tally_from by (simpl; lia). rewrite drop_0.
  rewrite foldl_store_pair_reverse, (right_id_L ∅ (∪)). reflexivity.
Qed.

(** Source ids may repeat inside a batch.  The count of a batch fan-out
    is the number of tasks that returned a page id, while the mapping
    holds one entry for each source id: where several entities with the
    same id succeed, the page id of the last of them stays, and the
    mapping is smaller than the count. *)
Theorem last_success_of_an_id_is_kept {W : Type} `{Host W}
    (notion_api_key database_id : string) (w : W) :
  (∀ (templates : list (enveloped exercise_template)) (results : list outcome)
     (w' : W) (t : list event),
      gather ((fun e => upsert_exercise_template e notion_api_key database_id) <$> templates) w
      = (Ok results, w', t) ->
      let pairs := synced template_hevy_id templates results in
      let mapping : gmap string string := list_to_map (reverse pairs) in
      sync_exercise_templates templates notion_api_key database_id w
      = (Ok (length pairs, mapping), w', t) ∧
      size mapping ≤ length pairs ∧
      (∀ earlier id page_id later,
          pairs = earlier ++ (id, page_id) :: later -> id ∉ later.*1 ->
          mapping !! id = Some page_id)) ∧
  (∀ (routines : list (enveloped routine)) (results : list outcome)
     (w' : W) (t : list event),
      gather ((fun e => upsert_routine e notion_api_key database_id) <$> routines) w
      = (Ok results, w', t) ->
      let pairs := synced routine_hevy_id routines results in
      let mapping : gmap string string := list_to_map (reverse pairs) in
      sync_routines routines notion_api_key database_id w
      = (Ok (length pairs, mapping), w', t) ∧
      size mapping ≤ length pairs ∧
      (∀ earlier id page_id later,
          pairs = earlier ++ (id, page_id) :: later -> id ∉ later.*1 ->
          mapping !! id = Some page_id)).
Proof.
  split.
  - intros templates results w' t Hgather pairs mapping.
    pose proof (gather_length _ _ _ _ _ Hgather) as Hlen. rewrite length_fmap in Hlen.
    split; [|split].
    + unfold sync_exercise_templates. rewrite (mbind_ok _ _ _ _ _ _ Hgather).
      rewrite (tally_any template_hevy_id templates results Hlen).
      simpl. rewrite app_nil_r. reflexivity.
    + subst mapping. rewrite <- (length_reverse pairs). apply size_list_to_map_le.
    + intros earlier id page_id later Hpairs Hlater. subst mapping. rewrite Hpairs.
      apply last_pair_wins, Hlater.
  - intros routines results w' t Hgather pairs mapping.
    pose proof (gather_length _ _ _ _ _ Hgather) as Hlen. rewrite length_fmap in Hlen.
    split; [|split].
    + unfold sync_routines. rewrite (mbind_ok _ _ _ _ _ _ Hgather).
      rewrite (tally_any routine_hevy_id routines results Hlen).
      simpl. rewrite app_nil_r. reflexivity.
    + subst mapping. rewrite <- (length_reverse pairs). apply size_list_to_map_le.
    + intros earlier id page_id later Hpairs Hlater. subst mapping. rewrite Hpairs.
      apply last_pair_wins, Hlater.
Qed.

(** Both twins are created, each under its own name; the mapping keeps
    the page of the second. *)
Lemma last_success_of_an_id_is_kept_witness :
  let results : list outcome := [Ok (Some "Squat"); Ok (Some "Squat (Barbell)")] in
  let pairs := synced template_hevy_id twin_templates results in
  let mapping : gmap string string := list_to_map (reverse pairs) in
  ∃ t,
    sync_exercise_templates (H := naming (fun _ => None)) twin_templates "secret"
                            "templates-db" tt
    = (Ok (2, mapping), tt, t) ∧
    size mapping ≤ 2 ∧
    mapping !! "T1" = Some "Squat (Barbell)".
Proof.
  cbv zeta. eexists.
  destruct (proj1 (last_success_of_an_id_is_kept (H := naming (fun _ => None)) "secret"
                     "templates-db" tt)
              twin_templates [Ok (Some "Squat"); Ok (Some "Squat (Barbell)")] tt _
              ltac:(vm_compute; reflexivity)) as (Hrun & Hsize & Hlast).
  split; [exact Hrun|]. split; [exact Hsize|].
  apply (Hlast [("T1", "Squat")] "T1" "Squat (Barbell)" []); [reflexivity|].
  apply not_elem_of_nil.
Defined.

(** ** The endpoints: configuration, authorization and validation *)

Section Endpoints.

Context {W : Type} `{Host W} `{HevyApi W}.

(** The full sync needs HEVY_API_KEY, NOTION_API_KEY and
    NOTION_WORKOUTS_DATABASE_ID.  When one of them is missing or empty,
    the endpoint answers 500 with a JSON object that names the first
    missing variable in this order, and does nothing else: nothing is
    fetched, sent or slept. *)
Theorem full_sync_requires_configuration (environ : gmap string string) (w : W) :
  let missing name :=
    (Ok (json_response (JDict [("error", JStr (name +:+ " not configured"))]) 500), w,
     @nil event) in
  (Py.truthy_opt (environ !! "HEVY_API_KEY") = false ->
   full_sync_handler environ w = missing "HEVY_API_KEY") ∧
  (Py.truthy_opt (environ !! "HEVY_API_KEY") = true ->
   Py.truthy_opt (environ !! "NOTION_API_KEY") = false ->
   full_sync_handler environ w = missing "NOTION_API_KEY") ∧
  (Py.truthy_opt (environ !! "HEVY_API_KEY") = true ->
   Py.truthy_opt (environ !! "NOTION_API_KEY") = true ->
   Py.truthy_opt (environ !! "NOTION_WORKOUTS_DATABASE_ID") = false ->
   full_sync_handler environ w = missing "NOTION_WORKOUTS_DATABASE_ID").
Proof.
  cbv zeta. unfold full_sync_handler, try_except, full_sync_handler_body. cbv zeta.
  split; [|split].
  - intros ->. reflexivity.
  - intros -> ->. reflexivity.
  - intros -> -> ->. reflexivity.
Qed.

(** With WEBHOOK_AUTH_TOKEN configured, a request whose Authorization
    header is not exactly "Bearer " followed by the token, or is missing,
    is answered 401 "Unauthorized" before anything else happens.  With
    the token missing or empty, the endpoint is unprotected: its answer
    does not depend on the Authorization header at all. *)
Theorem webhook_checks_bearer_token (environ : gmap string string) (req : http_request)
    (w : W) :
  (∀ token,
      environ !! "WEBHOOK_AUTH_TOKEN" = Some token -> token ≠ "" ->
      http_headers req !! "Authorization" ≠ Some ("Bearer " +:+ token) ->
      hevy_workout_webhook environ req w = (Ok (text_response "Unauthorized" 401), w, [])) ∧
  (Py.truthy_opt (environ !! "WEBHOOK_AUTH_TOKEN") = false ->
   ∀ authorization,
     hevy_workout_webhook environ
       (with_headers (<["Authorization" := authorization]> (http_headers req)) req) w
     = hevy_workout_webhook environ req w).
Proof.
  split.
  - intros token Htoken Hne Hheader.
    unfold hevy_workout_webhook, try_except, hevy_workout_webhook_body. cbv zeta.
    rewrite Htoken. cbn [Py.truthy_opt default from_option id].
    rewrite (truthy_nonempty _ Hne).
    assert (String.eqb (default "" (http_headers req !! "Authorization"))
                       ("Bearer " +:+ token) = false) as ->; [|reflexivity].
    apply String.eqb_neq.
    destruct (http_headers req !! "Authorization") as [header|]; cbn.
    + congruence.
    + discriminate.
  - intros Hfalsy authorization.
    unfold hevy_workout_webhook, hevy_workout_webhook_body. cbv zeta.
    rewrite Hfalsy. cbn [andb with_headers http_headers http_json].
    rewrite lookup_insert_ne by discriminate. reflexivity.
Qed.


(** The payload of an event must be a JSON object with a non-empty "id"
    and, under "payload", an object with a non-empty "workoutId".  A body
    that is not JSON, and an object that lacks one of the two, is answered
    400; a body or a "payload" that is JSON but not an object makes the
    lookup raise and is answered 500 "Internal server error".  In each
    case nothing is fetched or sent. *)
Theorem webhook_validates_payload (environ : gmap string string) (req : http_request)
    (w : W) :
  authorised environ req ->
  fits req ->
  let missing :=
    (Ok (text_response "Missing required fields: 'id' and 'payload.workoutId' are required"
                       400), w, @nil event) in
  let internal := (Ok (text_response "Internal server error" 500), w, @nil event) in
  (http_json req = None ->
   hevy_workout_webhook environ req w
   = (Ok (text_response "Invalid JSON payload" 400), w, [])) ∧
  (∀ fields,
      http_json req = Some (JDict fields) ->
      (Dict.get "payload" fields = None ->
       hevy_workout_webhook environ req w = missing) ∧
      (∀ payload,
          Dict.get "payload" fields = Some (JDict payload) ->
          json_truthy (field "id" fields) && json_truthy (field "workoutId" payload)
          = false ->
          hevy_workout_webhook environ req w = missing) ∧
      (∀ payload,
          Dict.get "payload" fields = Some payload -> is_object payload = false ->
          hevy_workout_webhook environ req w = internal)) ∧
  (∀ body,
      http_json req = Some body -> is_object body = false ->
      hevy_workout_webhook environ req w = internal).
Proof.
  intros Hauth Hfits. cbv zeta.
  unfold hevy_workout_webhook, try_except, hevy_workout_webhook_body. cbv zeta.
  rewrite (authorised_passes _ _ Hauth).
  rewrite (mbind_ok _ _ _ _ _ _ (fits_passes req w Hfits)).
  split; [|split].
  - intros ->. reflexivity.
  - intros fields ->. unfold body_get. split; [|split].
    + intros Hpayload. unfold mbind, mret. rewrite Hpayload. cbn.
      rewrite orb_true_r. reflexivity.
    + intros payload Hpayload Hfalsy. unfold mbind, mret. rewrite Hpayload. cbn.
      unfold field in Hfalsy.
      rewrite <- negb_andb, Hfalsy. reflexivity.
    + intros payload Hpayload Hobject. unfold mbind, mret. rewrite Hpayload. cbn.
      destruct payload; try discriminate Hobject; reflexivity.
  - intros body -> Hobject. destruct body; try discriminate Hobject; reflexivity.
Qed.

(** When the source has no workout for the id of the event,
    [process_workout_webhook] raises the ValueError that names the id
    right after the fetch: nothing is sent to the destination. *)
Theorem missing_workout_aborts_webhook_run (workout_id webhook_id notion_api_key : string)
    (workouts_db_id : string) (routines_db_id templates_db_id sets_db_id : option string)
    (w w1 : W) (routine_data : option (enveloped routine)) (t1 : list event) :
  get_workout_and_routine_async workout_id w = (Ok (None, routine_data), w1, t1) ->
  process_workout_webhook workout_id webhook_id notion_api_key workouts_db_id
                          routines_db_id templates_db_id sets_db_id w
  = (Raise (ValueError ("Failed to fetch workout data for ID: " +:+ workout_id)), w1, t1).
Proof.
  intros Hfetch. unfold process_workout_webhook.
  rewrite (mbind_ok _ _ _ _ _ _ Hfetch). cbv beta iota. unfold raise.
  rewrite app_nil_r. reflexivity.
Qed.

End Endpoints.

Lemma full_sync_requires_configuration_witness :
  let missing name :=
    (Ok (json_response (JDict [("error", JStr (name +:+ " not configured"))]) 500),
     @nil reply, @nil event) in
  full_sync_handler (H := scripted) (H0 := one_workout_source) ∅ [] = missing "HEVY_API_KEY" ∧
  full_sync_handler (H := scripted) (H0 := one_workout_source)
                    {[ "HEVY_API_KEY" := "hevy-key"; "NOTION_API_KEY" := "" ]} []
  = missing "NOTION_API_KEY" ∧
  full_sync_handler (H := scripted) (H0 := one_workout_source)
                    {[ "HEVY_API_KEY" := "hevy-key"; "NOTION_API_KEY" := "secret" ]} []
  = missing "NOTION_WORKOUTS_DATABASE_ID".
Proof.
  cbv zeta. split; [|split].
  - apply (proj1 (full_sync_requires_configuration (H := scripted)
                    (H0 := one_workout_source) ∅ [])).
    reflexivity.
  - apply (proj1 (proj2 (full_sync_requires_configuration (H := scripted)
                           (H0 := one_workout_source)
                           {[ "HEVY_API_KEY" := "hevy-key"; "NOTION_API_KEY" := "" ]} []))).
    + vm_compute. reflexivity.
    + vm_compute. reflexivity.
  - apply (proj2 (proj2 (full_sync_requires_configuration (H := scripted)
                           (H0 := one_workout_source)
                           {[ "HEVY_API_KEY" := "hevy-key"; "NOTION_API_KEY" := "secret" ]}
                           []))).
    + vm_compute. reflexivity.
    + vm_compute. reflexivity.
    + vm_compute. reflexivity.
Defined.

(** An event with the wrong token, and an unprotected endpoint. *)
Lemma webhook_checks_bearer_token_witness :
  hevy_workout_webhook (H := scripted) (H0 := one_workout_source) guarded
    (event_of {[ "Authorization" := "Bearer guess" ]} (http_json workout_event)) all_created
  = (Ok (text_response "Unauthorized" 401), all_created, []) ∧
  hevy_workout_webhook (H := scripted) (H0 := one_workout_source) configured
    (with_headers (<["Authorization" := "Bearer guess"]> (http_headers workout_event))
                  workout_event) all_created
  = hevy_workout_webhook (H := scripted) (H0 := one_workout_source) configured workout_event
                         all_created.
Proof.
  split.
  - apply (proj1 (webhook_checks_bearer_token (H := scripted) (H0 := one_workout_source)
                    guarded
                    (event_of {[ "Authorization" := "Bearer guess" ]}
                              (http_json workout_event)) all_created)
             "s3cret").
    + vm_compute. reflexivity.
    + discriminate.
    + vm_compute. discriminate.
  - apply (proj2 (webhook_checks_bearer_token (H := scripted) (H0 := one_workout_source)
                    configured workout_event all_created)).
    vm_compute. reflexivity.
Defined.


(** A body that is not JSON, an event without workout id, and a body that
    is a JSON list. *)
Lemma webhook_validates_payload_witness :
  hevy_workout_webhook (H := scripted) (H0 := one_workout_source) configured
    (event_of ∅ None) all_created
  = (Ok (text_response "Invalid JSON payload" 400), all_created, []) ∧
  hevy_workout_webhook (H := scripted) (H0 := one_workout_source) configured
    (event_of ∅ (Some (JDict [("id", JStr "evt-1"); ("payload", JDict [])]))) all_created
  = (Ok (text_response "Missing required fields: 'id' and 'payload.workoutId' are required"
                       400), all_created, []) ∧
  hevy_workout_webhook (H := scripted) (H0 := one_workout_source) configured
    (event_of ∅ (Some (JList [JStr "evt-1"]))) all_created
  = (Ok (text_response "Internal server error" 500), all_created, []).
Proof.
  split; [|split].
  - apply (proj1 (webhook_validates_payload (H := scripted) (H0 := one_workout_source)
                    configured (event_of ∅ None) all_created
                    ltac:(left; vm_compute; reflexivity)
                    ltac:(left; vm_compute; reflexivity))).
    reflexivity.
  - apply (proj1 (proj2 (proj1 (proj2
             (webhook_validates_payload (H := scripted) (H0 := one_workout_source)
                configured
                (event_of ∅ (Some (JDict [("id", JStr "evt-1"); ("payload", JDict [])])))
                all_created
                ltac:(left; vm_compute; reflexivity)
                ltac:(left; vm_compute; reflexivity)))
             [("id", JStr "evt-1"); ("payload", JDict [])] eq_refl))
             []).
    + reflexivity.
    + reflexivity.
  - apply (proj2 (proj2 (webhook_validates_payload (H := scripted)
                           (H0 := one_workout_source) configured
                           (event_of ∅ (Some (JList [JStr "evt-1"]))) all_created
                           ltac:(left; vm_compute; reflexivity)
                           ltac:(left; vm_compute; reflexivity)))
             (JList [JStr "evt-1"])).
    + reflexivity.
    + reflexivity.
Defined.

Lemma missing_workout_aborts_webhook_run_witness :
  process_workout_webhook (H := scripted) (H0 := empty_source (list reply)) "w404" "evt-1"
                          "secret" "workouts-db" None None (Some "sets-db") all_created
  = (Raise (ValueError "Failed to fetch workout data for ID: w404"), all_created, []).
Proof.
  apply (missing_workout_aborts_webhook_run (H := scripted)
           (H0 := empty_source (list reply)) "w404" "evt-1" "secret" "workouts-db"
           None None (Some "sets-db") all_created all_created None []).
  reflexivity.
Defined.

(** ** The legacy writer *)

Section LegacyFacts.

Context {W : Type} `{Host W}.

Lemma sends_at_most_weaken {A} (n n' : nat) (m : M W A) :
  n ≤ n' -> sends_at_most n m -> sends_at_most n' m.
Proof. intros Hle Hm w res w' t Hrun. destruct (Hm _ _ _ _ Hrun). split; [assumption | lia]. Qed.

Lemma sends_at_most_silent {A} (m : M W A) : silent m -> sends_at_most 0 m.
Proof.
  intros Hm w res w' t Hrun. destruct (Hm w) as [r Hr]. rewrite Hr in Hrun.
  injection Hrun as _ _ <-. split; reflexivity.
Qed.

Lemma sends_at_most_mbind {A B} (n k : nat) (m : M W A) (f : A -> M W B) :
  sends_at_most n m -> (∀ a, sends_at_most k (f a)) -> sends_at_most (n + k) (mbind m f).
Proof.
  intros Hm Hf w res w' t Hrun.
  apply mbind_inv in Hrun as [(e & Hrun & _) | (a & w1 & t1 & t2 & Hrun & Hk & ->)].
  - destruct (Hm _ _ _ _ Hrun). split; [assumption | lia].
  - destruct (Hm _ _ _ _ Hrun) as [Hs1 Hn1], (Hf a _ _ _ _ Hk) as [Hs2 Hn2].
    rewrite sleeps_app, sent_app, length_app, Hs1, Hs2. split; [reflexivity | lia].
Qed.

Lemma sends_at_most_rbind {A B} (n k : nat) (m : M W (request_exception + A))
    (f : A -> M W (request_exception + B)) :
  sends_at_most n m -> (∀ a, sends_at_most k (f a)) -> sends_at_most (n + k) (rbind m f).
Proof.
  intros Hm Hf. unfold rbind. apply sends_at_most_mbind; [exact Hm|].
  intros [e|a]; [|apply Hf].
  apply (sends_at_most_weaken 0); [lia|]. apply sends_at_most_silent, silent_mret.
Qed.

Lemma requests_call_reply (r : request) (w w1 : W) (rep : reply) :
  send r w = (rep, w1) ->
  requests_call r w
  = (Ok match rep with
        | Response resp => inr resp
        | TimedOut => inl ReadTimeout
        | Broken msg => inl (ConnectionError msg)
        end, w1, [Sent r]).
Proof. intros Hsend. unfold requests_call. rewrite Hsend. destruct rep; reflexivity. Qed.

Lemma sends_at_most_requests_call (r : request) : sends_at_most 1 (requests_call r).
Proof.
  intros w res w' t Hrun. destruct (send r w) as [rep w1] eqn:Hsend.
  rewrite (requests_call_reply _ _ _ _ Hsend) in Hrun. injection Hrun as _ _ <-.
  split; [reflexivity | simpl; lia].
Qed.

Lemma silent_raise_for_status (r : response) : silent (W := W) (raise_for_status r).
Proof. unfold raise_for_status. destruct (_ && _); apply silent_mret. Qed.

Lemma sends_at_most_search_and_update (db : string) (headers : list (string * string))
    (workout_id : string) (properties : dict) :
  sends_at_most 2 (search_and_update db headers workout_id properties).
Proof.
  unfold search_and_update. cbv zeta.
  apply (sends_at_most_rbind 1 1); [apply sends_at_most_requests_call|].
  intros search_response. destruct (resp_status search_response =? 200)%Z.
  2: { apply (sends_at_most_weaken 0); [lia|]. apply sends_at_most_silent, silent_mret. }
  apply (sends_at_most_mbind 0 1); [apply sends_at_most_silent, silent_body_get|].
  intros results. destruct (json_truthy results).
  2: { apply (sends_at_most_weaken 0); [lia|]. apply sends_at_most_silent, silent_mret. }
  apply (sends_at_most_mbind 0 1); [apply sends_at_most_silent, silent_first_result_id|].
  intros page_id.
  apply (sends_at_most_rbind 1 0); [apply sends_at_most_requests_call|].
  intros update_response. apply sends_at_most_silent.
  destruct (resp_status update_response =? 200)%Z; [apply silent_mret|].
  unfold rbind. apply silent_mbind; [apply silent_raise_for_status|].
  intros [e|[]]; apply silent_mret.
Qed.

(** The legacy writer needs NOTION_API_KEY and
    NOTION_WORKOUTS_DATABASE_ID and raises a ValueError before it sends
    anything when one of them is missing or empty.  Otherwise it sends at
    most three requests (search, update, create), each once, and never
    sleeps: it has neither the pacing nor the retries of the gateway. *)
Theorem legacy_writer_sends_at_most_three (environ : gmap string string)
    (workout_data : workout) (routine_name : option string) (w : W) :
  (Py.truthy_opt (environ !! "NOTION_API_KEY")
   && Py.truthy_opt (environ !! "NOTION_WORKOUTS_DATABASE_ID") = false ->
   add_workout_to_notion environ workout_data routine_name w
   = (Raise (ValueError "NOTION_API_KEY and NOTION_WORKOUTS_DATABASE_ID must be set"),
      w, [])) ∧
  (∀ res w' t,
      add_workout_to_notion environ workout_data routine_name w = (res, w', t) ->
      sleeps t = [] ∧ length (sent t) ≤ 3).
Proof.
  split.
  - intros Hmissing. unfold add_workout_to_notion. cbv zeta.
    rewrite <- negb_andb, Hmissing. reflexivity.
  - revert w.
    change (sends_at_most 3 (add_workout_to_notion environ workout_data routine_name)).
    unfold add_workout_to_notion. cbv zeta. destruct (_ || _).
    { apply (sends_at_most_weaken 0); [lia|]. apply sends_at_most_silent, silent_raise. }
    apply (sends_at_most_mbind 0 3).
    { apply sends_at_most_silent. intros w. eexists. reflexivity. }
    intros last_synced.
    apply (sends_at_most_mbind 2 1); [apply sends_at_most_search_and_update|].
    assert (∀ payload headers,
               sends_at_most 1
                 (let? response :=
                    requests_call {| req_method := "POST";
                                     req_url := "https://api.notion.com/v1/pages";
                                     req_headers := headers; req_json := Some payload |} in
                  if negb (resp_status response =? 200)%Z
                  then let? _ := raise_for_status response in
                       mret (inr (resp_json response))
                  else mret (inr (resp_json response)))) as Hcreate.
    { intros payload headers.
      apply (sends_at_most_rbind 1 0); [apply sends_at_most_requests_call|].
      intros response. apply sends_at_most_silent.
      destruct (negb _); [|apply silent_mret].
      unfold rbind. apply silent_mbind; [apply silent_raise_for_status|].
      intros [e|[]]; apply silent_mret. }
    intros [e|[page|]]; try apply Hcreate.
    apply (sends_at_most_weaken 0); [lia|]. apply sends_at_most_silent, silent_mret.
Qed.

End LegacyFacts.

Section LegacyUpdate.

Context {W : Type} `{Host W}.

Lemma legacy_create (environ : gmap string string) (notion_api_key db : string)
    (workout_data : workout) (routine_name : option string) (w w1 w2 : W)
    (attempt : request_exception + option json) (t1 : list event) (answer : response) :
  environ !! "NOTION_API_KEY" = Some notion_api_key -> notion_api_key ≠ "" ->
  environ !! "NOTION_WORKOUTS_DATABASE_ID" = Some db -> db ≠ "" ->
  let props := legacy_properties (utcnow w) workout_data in
  search_and_update db (get_notion_headers notion_api_key)
                    (default "" (wk_id workout_data)) props w
  = (Ok attempt, w1, t1) ->
  (∀ page, attempt ≠ inr (Some page)) ->
  send (Notion.create_request notion_api_key db props) w1 = (Response answer, w2) ->
  resp_status answer = 200%Z ->
  add_workout_to_notion environ workout_data routine_name w
  = (Ok (inr (resp_json answer)), w2,
     t1 ++ [Sent (Notion.create_request notion_api_key db props)]).
Proof.
  intros Hkey Hkey' Hdb Hdb' props Htry Hnone Hsend Hok.
  unfold add_workout_to_notion. cbv zeta. rewrite Hkey, Hdb.
  cbn [Py.truthy_opt default from_option id].
  rewrite (truthy_nonempty _ Hkey'), (truthy_nonempty _ Hdb'). cbn [negb orb].
  rewrite now_bind. fold props. rewrite (mbind_ok _ _ _ _ _ _ Htry).
  assert ((let? response :=
             requests_call (Notion.create_request notion_api_key db props) in
           if negb (resp_status response =? 200)%Z
           then let? _ := raise_for_status response in mret (inr (resp_json response))
           else mret (inr (resp_json response))) w1
          = (Ok (inr (resp_json answer)), w2,
             [Sent (Notion.create_request notion_api_key db props)])) as Hcreate.
  { unfold rbind at 1. rewrite (mbind_ok _ _ _ _ _ _ (requests_call_reply _ _ _ _ Hsend)).
    rewrite Hok. reflexivity. }
  destruct attempt as [e|[page|]].
  - cbv beta iota. change (json_of_str (Some db)) with (JStr db).
    unfold Notion.create_request, request_of, Notion.pages_url in Hcreate.
    cbn [String.eqb Ascii.eqb Bool.eqb] in Hcreate. rewrite Hcreate. reflexivity.
  - exfalso. apply (Hnone page). reflexivity.
  - cbv beta iota. change (json_of_str (Some db)) with (JStr db).
    unfold Notion.create_request, request_of, Notion.pages_url in Hcreate.
    cbn [String.eqb Ascii.eqb Bool.eqb] in Hcreate. rewrite Hcreate. reflexivity.
Qed.

(** When the search finds a page but the update of that page is not
    answered 200 (an error status, whose HTTPError the function catches
    itself, another status, a time-out or a connection error), the legacy
    writer goes on to create a new page, and returns it when the creation
    is answered 200: the workout then has two records. *)
Theorem legacy_failed_update_creates_page (environ : gmap string string)
    (notion_api_key db : string) (workout_data : workout) (routine_name : option string)
    (w w1 w2 w3 : W) (found answer : response) (fields page : dict) (others : list json)
    (page_id : string) (update : reply) :
  environ !! "NOTION_API_KEY" = Some notion_api_key -> notion_api_key ≠ "" ->
  environ !! "NOTION_WORKOUTS_DATABASE_ID" = Some db -> db ≠ "" ->
  let props := legacy_properties (utcnow w) workout_data in
  let query := Notion.query_request notion_api_key db (default "" (wk_id workout_data)) in
  let patch := Notion.update_request notion_api_key page_id props in
  let create := Notion.create_request notion_api_key db props in
  send query w = (Response found, w1) ->
  resp_status found = 200%Z ->
  resp_json found = JDict fields ->
  Dict.get "results" fields = Some (JList (JDict page :: others)) ->
  Dict.get "id" page = Some (JStr page_id) ->
  send patch w1 = (update, w2) ->
  (∀ r, update = Response r -> resp_status r ≠ 200%Z) ->
  send create w2 = (Response answer, w3) ->
  resp_status answer = 200%Z ->
  add_workout_to_notion environ workout_data routine_name w
  = (Ok (inr (resp_json answer)), w3, [Sent query; Sent patch; Sent create]).
Proof.
  intros Hkey Hkey' Hdb Hdb' props query patch create
         Hquery Hfound Hjson Hresults Hid Hpatch Hupdate Hcreate Hok.
  assert (∃ attempt,
             search_and_update db (get_notion_headers notion_api_key)
                               (default "" (wk_id workout_data)) props w
             = (Ok attempt, w2, [Sent query; Sent patch]) ∧
             ∀ p, attempt ≠ inr (Some p)) as (attempt & Htry & Hnone).
  { unfold search_and_update. cbv zeta. unfold rbind at 1.
    rewrite (mbind_ok _ _ _ _ _ _ (requests_call_reply query _ _ _ Hquery)).
    cbv beta iota. rewrite Hfound, Hjson. cbn [Z.eqb Pos.eqb decoded].
    unfold body_get. rewrite Hresults. cbn [from_option id].
    unfold mbind at 1. unfold mret at 1. cbn [json_truthy].
    unfold first_result_id. rewrite Hid. cbn [as_page_id].
    unfold mbind at 1. unfold mret at 1. cbn [Py.format].
    unfold rbind at 1.
    rewrite (mbind_ok _ _ _ _ _ _ (requests_call_reply patch _ _ _ Hpatch)).
    destruct update as [r| |msg].
    - specialize (Hupdate r eq_refl). apply Z.eqb_neq in Hupdate.
      cbv beta iota. rewrite Hupdate. unfold rbind, raise_for_status.
      destruct (_ && _); eexists; (split; [reflexivity | discriminate]).
    - eexists. split; [reflexivity | discriminate].
    - eexists. split; [reflexivity | discriminate]. }
  apply (legacy_create environ notion_api_key db workout_data routine_name w w2 w3 attempt
           [Sent query; Sent patch] answer); assumption.
Qed.

End LegacyUpdate.

(** The update of the page found meets a 409; a second page is created. *)
Lemma legacy_failed_update_creates_page_witness :
  let props := legacy_properties epoch leg_day in
  add_workout_to_notion (H := scripted) legacy_environ leg_day None
    [ one_match;
      Response {| resp_status := 409; resp_retry_after := None; resp_json := JNull;
                  resp_text := "conflict_error" |};
      created "page-2" ]
  = (Ok (inr (JDict [("object", JStr "page"); ("id", JStr "page-2")])), [],
     [ Sent (Notion.query_request "secret" "workouts-db" "w1");
       Sent (Notion.update_request "secret" "1a2b-3c4d" props);
       Sent (Notion.create_request "secret" "workouts-db" props) ]).
Proof.
  apply (legacy_failed_update_creates_page (H := scripted) legacy_environ "secret"
           "workouts-db" leg_day None _
           [ Response {| resp_status := 409; resp_retry_after := None; resp_json := JNull;
                         resp_text := "conflict_error" |};
             created "page-2" ]
           [created "page-2"] []
           {| resp_status := 200; resp_retry_after := None;
              resp_json := JDict [ ("object", JStr "list");
                                   ("results",
                                    JList [JDict [ ("object", JStr "page");
                                                   ("id", JStr "1a2b-3c4d") ]]) ];
              resp_text := "" |}
           {| resp_status := 200; resp_retry_after := None;
              resp_json := JDict [("object", JStr "page"); ("id", JStr "page-2")];
              resp_text := "" |}
           [ ("object", JStr "list");
             ("results", JList [JDict [("object", JStr "page"); ("id", JStr "1a2b-3c4d")]]) ]
           [("object", JStr "page"); ("id", JStr "1a2b-3c4d")] [] "1a2b-3c4d"
           (Response {| resp_status := 409; resp_retry_after := None; resp_json := JNull;
                        resp_text := "conflict_error" |})).
  - vm_compute. reflexivity.
  - discriminate.
  - vm_compute. reflexivity.
  - discriminate.
  - reflexivity.
  - reflexivity.
  - reflexivity.
  - reflexivity.
  - reflexivity.
  - reflexivity.
  - intros r [= <-]. discriminate.
  - reflexivity.
  - reflexivity.
Defined.

Lemma legacy_writer_sends_at_most_three_witness :
  add_workout_to_notion (H := scripted) ∅ leg_day None [one_match]
  = (Raise (ValueError "NOTION_API_KEY and NOTION_WORKOUTS_DATABASE_ID must be set"),
     [one_match], []) ∧
  let run :=
    add_workout_to_notion (H := scripted) legacy_environ leg_day None
      [one_match; rejected; created "page-2"] in
  sleeps run.2 = [] ∧ length (sent run.2) ≤ 3.
Proof.
  split.
  - apply (proj1 (legacy_writer_sends_at_most_three (H := scripted) ∅ leg_day None
                    [one_match])).
    reflexivity.
  - intros run.
    apply (proj2 (legacy_writer_sends_at_most_three (H := scripted) legacy_environ leg_day
                    None [one_match; rejected; created "page-2"])
             run.1.1 run.1.2 run.2).
    vm_compute. reflexivity.
Defined.

Module LegacyOnNotion.

Import Notion NotionFacts UpsertFacts RecordFacts.

Lemma legacy_carries_id (last_synced : datetime) (workout_data : workout) :
  carries (legacy_properties last_synced workout_data) (default "" (wk_id workout_data)).
Proof. unfold carries, legacy_properties. lookup_key. reflexivity. Qed.

(** A second upsert of the same source id names the page of the first. *)
Lemma upserted_again (s : store) (database_id value : string) (props props' : dict) :
  wf s -> carries props value ->
  (upserted (upserted s database_id value props).1 database_id value props').2
  = (upserted s database_id value props).2.
Proof.
  intros Hwf Hc. unfold upserted at 2 3.
  destruct (records s database_id "Hevy ID" value) as [|p rest] eqn:Hrec; cbn [fst snd].
  - unfold upserted.
    assert (records (with_new_page s database_id props) database_id "Hevy ID" value
            = [new_page s database_id props]) as ->; [|reflexivity].
    unfold records, with_new_page in *. cbn [pages].
    rewrite List.filter_app, Hrec. cbn [List.filter app].
    rewrite matches_carrying by exact Hc. cbn [new_page parent].
    rewrite String.eqb_refl. reflexivity.
  - assert (p ∈ records s database_id "Hevy ID" value) as Hp by (rewrite Hrec; left).
    apply elem_of_records in Hp as [Hp Hm].
    unfold upserted.
    rewrite (patched_records s database_id value props p Hwf Hc Hp Hm), Hrec.
    cbn [fmap list_fmap snd]. apply page_id_patched.
Qed.

Section Run.

Variables (clock : datetime) (environ : gmap string string) (notion_api_key db : string).

Hypothesis Hkey : environ !! "NOTION_API_KEY" = Some notion_api_key.
Hypothesis Hkey' : notion_api_key ≠ "".
Hypothesis Hdb : environ !! "NOTION_WORKOUTS_DATABASE_ID" = Some db.
Hypothesis Hdb' : db ≠ "".

Lemma legacy_on_notion (workout_data : workout) (routine_name : option string) (s : store) :
  wf s -> db ∈ databases s ->
  let value := default "" (wk_id workout_data) in
  let props := legacy_properties clock workout_data in
  ∃ q t,
    add_workout_to_notion (H := host clock) environ workout_data routine_name s
    = (Ok (inr (page_json q)), (upserted s db value props).1, t) ∧
    page_id q = (upserted s db value props).2.
Proof.
  intros Hwf Hin value props.
  pose proof Hwf as (Hnd & Hne & _).
  pose proof (serve_query notion_api_key s db value Hin) as Hquery.
  unfold upserted.
  destruct (records s db "Hevy ID" value) as [|p rest] eqn:Hrec; cbn [fst snd].
  - exists (new_page s db props). eexists. split; [|reflexivity].
    apply (legacy_create (H := host clock) environ notion_api_key db workout_data
             routine_name s s (with_new_page s db props) (inr None)
             [Sent (query_request notion_api_key db value)]
             (ok (page_json (new_page s db props))) Hkey Hkey' Hdb Hdb').
    + unfold search_and_update. cbv zeta. unfold rbind at 1.
      rewrite (mbind_ok _ _ _ _ _ _
                 (requests_call_reply (H := host clock) (query_request notion_api_key db value)
                    _ _ _ Hquery)).
      reflexivity.
    + discriminate.
    + apply (serve_create notion_api_key s db props Hin).
    + reflexivity.
  - assert (p ∈ pages s) as Hp.
    { apply (elem_of_records s db value). rewrite Hrec. left. }
    exists (patched (page_id p) props p). eexists. split; [|apply page_id_patched].
    unfold add_workout_to_notion. cbv zeta. rewrite Hkey, Hdb.
    cbn [Py.truthy_opt default from_option id].
    rewrite (truthy_nonempty _ Hkey'), (truthy_nonempty _ Hdb'). cbn [negb orb].
    rewrite now_bind.
    assert (search_and_update (H := host clock) db (get_notion_headers notion_api_key)
                              value props s
            = (Ok (inr (Some (page_json (patched (page_id p) props p)))),
               with_patched_page s (page_id p) props,
               [ Sent (query_request notion_api_key db value);
                 Sent (update_request notion_api_key (page_id p) props) ])) as Htry.
    { unfold search_and_update. cbv zeta. unfold rbind at 1.
      rewrite (mbind_ok _ _ _ _ _ _
                 (requests_call_reply (H := host clock) (query_request notion_api_key db value)
                    _ _ _ Hquery)).
      cbv beta iota. cbn [ok resp_status resp_json Z.eqb Pos.eqb decoded].
      unfold body_get. cbn [Dict.get String.eqb Ascii.eqb Bool.eqb from_option id].
      unfold mbind at 1. unfold mret at 1. cbn [fmap list_fmap json_truthy].
      unfold first_result_id. cbn [page_json Dict.get String.eqb Ascii.eqb Bool.eqb as_page_id].
      unfold mbind at 1. unfold mret at 1. cbn [Py.format].
      unfold rbind at 1.
      rewrite (mbind_ok _ _ _ _ _ _
                 (requests_call_reply (H := host clock)
                    (update_request notion_api_key (page_id p) props) _ _ _
                    (serve_update notion_api_key s p props Hnd Hp))).
      reflexivity. }
    change (utcnow (Host := host clock) s) with clock. fold value. fold props.
    rewrite (mbind_ok _ _ _ _ _ _ Htry). reflexivity.
Qed.

End Run.

End LegacyOnNotion.

(** Against the destination, with every request answered, the legacy
    writer is an upsert on the same "Hevy ID" property as the engine: it
    patches the first record that carries the id of the workout or creates
    one, returns that page, adds a record only when there was none, and
    leaves the records of every other id as they were.  The two writers
    agree on the page: an [upsert_workout] of the same workout that runs
    next resolves to the page the legacy writer returned. *)
Theorem legacy_writer_agrees_with_upsert (clock clock' : datetime)
    (environ : gmap string string) (notion_api_key db : string) (workout_data : workout)
    (routine_name routine_page_id : option string) (s : Notion.store) :
  environ !! "NOTION_API_KEY" = Some notion_api_key -> notion_api_key ≠ "" ->
  environ !! "NOTION_WORKOUTS_DATABASE_ID" = Some db -> db ≠ "" ->
  Notion.wf s -> db ∈ Notion.databases s ->
  let hevy_id := default "" (wk_id workout_data) in
  ∃ (page_id : string) (q : Notion.page) (s' s'' : Notion.store) (t t' : list event),
    add_workout_to_notion (H := Notion.host clock) environ workout_data routine_name s
    = (Ok (inr (Notion.page_json q)), s', t) ∧
    Notion.page_id q = page_id ∧
    Notion.wf s' ∧
    length (Notion.records s' db "Hevy ID" hevy_id)
    = Nat.max 1 (length (Notion.records s db "Hevy ID" hevy_id)) ∧
    (∀ db' hevy_id',
        (db', hevy_id') ≠ (db, hevy_id) ->
        Notion.records s' db' "Hevy ID" hevy_id' = Notion.records s db' "Hevy ID" hevy_id') ∧
    upsert_workout (H := Notion.host clock') (Bare workout_data) notion_api_key db
                   routine_page_id s'
    = (Ok (Some page_id), s'', t').
Proof.
  intros Hkey Hkey' Hdb Hdb' Hwf Hin hevy_id.
  pose proof (LegacyOnNotion.legacy_carries_id clock workout_data) as Hc.
  destruct (LegacyOnNotion.legacy_on_notion clock environ notion_api_key db Hkey Hkey' Hdb
              Hdb' workout_data routine_name s Hwf Hin) as (q & t & Hrun & Hq).
  fold hevy_id in Hc, Hrun, Hq.
  set (props := legacy_properties clock workout_data) in *.
  set (s' := (Notion.upserted s db hevy_id props).1) in *.
  pose proof (UpsertFacts.wf_upserted s db hevy_id props Hwf) as Hwf'. fold s' in Hwf'.
  assert (db ∈ Notion.databases s') as Hin'
    by (unfold s'; rewrite databases_upserted; exact Hin).
  destruct (UpsertFacts.resolve_and_write_on_notion clock' notion_api_key s' db hevy_id
              (workout_properties clock' workout_data routine_page_id) Hwf' Hin')
    as [t' Hnext].
  exists (Notion.upserted s db hevy_id props).2, q, s'. eexists. exists t, t'.
  split; [exact Hrun|]. split; [exact Hq|]. split; [exact Hwf'|]. split; [|split].
  - apply RecordFacts.upserted_length; assumption.
  - intros db' hevy_id' Hne. apply RecordFacts.upserted_elsewhere; assumption.
  - unfold upsert_workout. rewrite now_bind. cbn [unwrap]. fold hevy_id.
    change (utcnow (Host := Notion.host clock') s') with clock'.
    unfold resolve_and_write in Hnext. rewrite Hnext. unfold s'.
    rewrite (LegacyOnNotion.upserted_again s db hevy_id props
               (workout_properties clock' workout_data routine_page_id) Hwf Hc).
    reflexivity.
Qed.

(** The legacy writer patches the page another client wrote. *)
Lemma legacy_writer_agrees_with_upsert_witness :
  ∃ (page_id : string) (q : Notion.page) (s' s'' : Notion.store) (t t' : list event),
    add_workout_to_notion (H := Notion.host epoch) legacy_environ push_day None
                          one_workout_store
    = (Ok (inr (Notion.page_json q)), s', t) ∧
    Notion.page_id q = page_id ∧
    Notion.wf s' ∧
    length (Notion.records s' "workouts-db" "Hevy ID" "w1")
    = Nat.max 1 (length (Notion.records one_workout_store "workouts-db" "Hevy ID" "w1")) ∧
    (∀ db' hevy_id',
        (db', hevy_id') ≠ ("workouts-db", "w1") ->
        Notion.records s' db' "Hevy ID" hevy_id'
        = Notion.records one_workout_store db' "Hevy ID" hevy_id') ∧
    upsert_workout (H := Notion.host epoch) (Bare push_day) "secret" "workouts-db" None s'
    = (Ok (Some page_id), s'', t').
Proof.
  apply (legacy_writer_agrees_with_upsert epoch epoch legacy_environ "secret" "workouts-db"
           push_day None None one_workout_store).
  - vm_compute. reflexivity.
  - discriminate.
  - vm_compute. reflexivity.
  - discriminate.
  - exact one_workout_store_wf.
  - left.
Defined.

(** ** Sets without a sets database *)

Section UnsetSetsDatabase.

Context {W : Type} `{Host W} `{HevyApi W}.

(** A missing NOTION_SETS_DATABASE_ID.  The webhook run guards the set
    stage: without sets database a run that succeeds reports 0 sets.
    [upsert_set] itself has no such guard: handed no database id, it
    still sends its query, at least once, to the database named "None",
    and a creation that follows names a null parent. *)
Theorem sets_stage_without_sets_database (notion_api_key : string) :
  (∀ workout_id webhook_id workouts_db_id routines_db_id templates_db_id sets_db_id
     (w w' : W) result t,
      Py.truthy_opt sets_db_id = false ->
      process_workout_webhook workout_id webhook_id notion_api_key workouts_db_id
                              routines_db_id templates_db_id sets_db_id w
      = (Ok result, w', t) ->
      Dict.get "sets_synced" result = Some (JInt 0)) ∧
  (∀ workout_id workout_page_id ex exercise_index set set_index template_page
     (w w' : W) res t,
      upsert_set workout_id workout_page_id ex exercise_index set set_index notion_api_key
                 None template_page w
      = (res, w', t) ->
      let props := set_properties (utcnow w) workout_id workout_page_id ex exercise_index
                                  set set_index template_page in
      ∃ (n m : nat) (write : request),
        1 ≤ n ≤ NOTION_MAX_RETRIES ∧ m ≤ NOTION_MAX_RETRIES ∧
        sent t
        = replicate n (Notion.query_request notion_api_key "None"
                         (composite_set_id workout_id exercise_index set_index))
          ++ replicate m write ∧
        (write = request_of "POST" Notion.pages_url (get_notion_headers notion_api_key)
                   (Some (JDict [ ("parent", JDict [("database_id", JNull)]);
                                  ("properties", JDict props) ])) ∨
         ∃ page_id, page_id ≠ "" ∧
                    write = Notion.update_request notion_api_key page_id props)).
Proof.
  split.
  - intros workout_id webhook_id workouts_db_id routines_db_id templates_db_id sets_db_id
           w w' result t Hunset Hrun.
    unfold process_workout_webhook in Hrun.
    split_run Hrun as [fetched routine_data].
    destruct fetched as [workout_data|]; [|discriminate].
    split_run Hrun as routine_page_id.
    split_run Hrun as [template_count template_mapping].
    split_run Hrun as page. destruct (negb (Py.truthy_opt page)); [discriminate|].
    rewrite Hunset in Hrun.
    split_run Hrun as set_count by Hsets. injection Hsets as <- _ _.
    split_run Hrun as stamp. injection Hrun as <- _ _. reflexivity.
  - intros workout_id workout_page_id ex exercise_index set set_index template_page
           w w' res t Hrun props.
    unfold upsert_set in Hrun. rewrite now_bind in Hrun. fold props in Hrun.
    apply mbind_inv in Hrun
      as [(e & Hfind & _) | (existing & w1 & t1 & t2 & Hfind & Hwrite & ->)].
    + unfold find_page_by_hevy_id in Hfind. cbv zeta in Hfind.
      apply mbind_silent in Hfind as [res0 Hfind].
      * apply gateway_sends_once in Hfind as (n & Hn & Hsent);
          [|right; left; reflexivity].
        exists n, 0. eexists. split; [exact Hn|]. split; [lia|].
        split; [rewrite Hsent, app_nil_r; reflexivity | left; reflexivity].
      * intros [[status data] error].
        destruct ((status =? 200)%Z && body_truthy data); [|apply silent_mret].
        apply silent_mbind; [apply silent_body_get|].
        intros results. destruct (json_truthy results);
          [apply silent_first_result_id | apply silent_mret].
    + unfold find_page_by_hevy_id in Hfind. cbv zeta in Hfind.
      apply mbind_silent in Hfind as [res0 Hfind].
      * apply gateway_sends_once in Hfind as (n & Hn & Hsent);
          [|right; left; reflexivity].
        unfold create_or_update_page in Hwrite. cbv zeta in Hwrite.
        apply mbind_silent in Hwrite as [res1 Hwrite].
        -- exists n.
           destruct existing as [[|c page]|]; cbn [Py.truthy_opt Py.truthy] in Hwrite;
             apply gateway_events in Hwrite as ((m & Hm & Hsent2) & _);
             exists m; eexists; (split; [exact Hn|]); (split; [exact Hm|]);
             (split; [rewrite sent_app, Hsent, Hsent2; reflexivity|]).
           ++ left. reflexivity.
           ++ right. exists (String c page). split; [discriminate | reflexivity].
           ++ left. reflexivity.
        -- intros [[status data] error].
           destruct ((status =? 200)%Z && body_truthy data); [|apply silent_mret].
           apply silent_mbind; [apply silent_body_get|]. intros id. apply silent_as_page_id.
      * intros [[status data] error].
        destruct ((status =? 200)%Z && body_truthy data); [|apply silent_mret].
        apply silent_mbind; [apply silent_body_get|].
        intros results. destruct (json_truthy results);
          [apply silent_first_result_id | apply silent_mret].
Qed.

End UnsetSetsDatabase.

(** A webhook run and a set upsert without sets database, against a
    destination that creates the workout and rejects the rest. *)
Lemma sets_stage_without_sets_database_witness :
  (∃ result w' t,
      process_workout_webhook (H := scripted) (H0 := one_workout_source) "w1" "evt-1"
                              "secret" "workouts-db" None None None all_created
      = (Ok result, w', t) ∧
      Dict.get "sets_synced" result = Some (JInt 0)) ∧
  let run :=
    upsert_set (H := rejecting) "w1" "page-1" bench_press 0 heavy_set 0 "secret" None None
               tt in
  let props := set_properties epoch "w1" "page-1" bench_press 0 heavy_set 0 None in
  ∃ (n m : nat) (write : request),
    1 ≤ n ≤ NOTION_MAX_RETRIES ∧ m ≤ NOTION_MAX_RETRIES ∧
    sent run.2
    = replicate n (Notion.query_request "secret" "None" (composite_set_id "w1" 0 0))
      ++ replicate m write ∧
    (write = request_of "POST" Notion.pages_url (get_notion_headers "secret")
               (Some (JDict [ ("parent", JDict [("database_id", JNull)]);
                              ("properties", JDict props) ])) ∨
     ∃ page_id, page_id ≠ "" ∧ write = Notion.update_request "secret" page_id props).
Proof.
  split.
  - eexists _, _, _. split; [vm_compute; reflexivity|].
    eapply (proj1 (sets_stage_without_sets_database (H := scripted)
                     (H0 := one_workout_source) "secret")
              "w1" "evt-1" "workouts-db" None None None all_created).
    + reflexivity.
    + vm_compute. reflexivity.
  - intros run props.
    apply (proj2 (sets_stage_without_sets_database (H := rejecting)
                    (H0 := canned_source unit) "secret")
             "w1" "page-1" bench_press 0 heavy_set 0 None tt run.1.2 run.1.1 run.2).
    vm_compute. reflexivity.
Defined.

(** ** The request limiter *)

Section Limiter.

Variable identifier : string.

Lemma filter_filter_above (c c' : Z) (times : list Z) :
  (c <= c')%Z ->
  List.filter (fun t => (c' <? t)%Z) (List.filter (fun t => (c <? t)%Z) times)
  = List.filter (fun t => (c' <? t)%Z) times.
Proof.
  intros Hle. induction times as [|t times IH]; [reflexivity|]. cbn [List.filter].
  destruct (c' <? t)%Z eqn:Hc'.
  - assert ((c <? t)%Z = true) as -> by (apply Z.ltb_lt; apply Z.ltb_lt in Hc'; lia).
    cbn [List.filter]. rewrite Hc', IH. reflexivity.
  - destruct (c <? t)%Z; cbn [List.filter]; rewrite ?Hc'; exact IH.
Qed.

Lemma within_minute_app (T : Z) (l1 l2 : list Z) :
  within_minute T (l1 ++ l2) = within_minute T l1 ++ within_minute T l2.
Proof. apply List.filter_app. Qed.

(** Of times that are all at most [now], those within a minute that
    holds [now] are later than a minute before [now]. *)
Lemma within_minute_recent (T now : Z) (times : list Z) :
  (T - one_minute < now <= T)%Z ->
  length (within_minute T times)
  ≤ length (List.filter (fun t => (now - one_minute <? t)%Z) times).
Proof.
  intros Hnow. unfold within_minute.
  induction times as [|t times IH]; [reflexivity|]. cbn [List.filter].
  destruct ((T - one_minute <? t)%Z && (t <=? T)%Z) eqn:Hin.
  - apply andb_true_iff in Hin as [Hlo _]. apply Z.ltb_lt in Hlo.
    assert ((now - one_minute <? t)%Z = true) as -> by (apply Z.ltb_lt; lia).
    simpl. lia.
  - destruct (now - one_minute <? t)%Z; simpl; lia.
Qed.

Lemma admitted_cons (id : string) (now : Z) (ok : bool) (calls : list (string * Z))
    (allowed : list bool) :
  admitted identifier ((id, now) :: calls) (ok :: allowed)
  = (if ok && String.eqb id identifier then [now] else [])
    ++ admitted identifier calls allowed.
Proof.
  unfold admitted. cbn [zip_with omap list_omap fst snd].
  destruct (ok && String.eqb id identifier); reflexivity.
Qed.

Lemma limiter_keeps_window (calls : list (string * Z))
    (request_counts : gmap string (list Z)) (A : list Z) (lo : Z) :
  tracks identifier request_counts A lo ->
  non_decreasing_from lo (snd <$> calls) ->
  ∀ T, length (within_minute T (A ++ admitted identifier calls
                                       (decisions calls request_counts)))
       ≤ MAX_REQUESTS_PER_MINUTE.
Proof.
  revert request_counts A lo.
  induction calls as [|[id now] calls IH]; intros request_counts A lo Htracks Hclock T.
  - cbn. rewrite app_nil_r. apply Htracks.
  - destruct Htracks as (Hpast & (c & Hc & Hheld) & Hwindow).
    cbn [fmap list_fmap snd non_decreasing_from] in Hclock. destruct Hclock as [Hlo Hclock].
    assert (Forall (fun t => (t <= now)%Z) A) as Hpast'.
    { eapply Forall_impl; [exact Hpast|]. cbn. intros t Ht. lia. }
    cbn [decisions]. unfold check_rate_limit. cbv zeta.
    destruct (String.eqb id identifier) eqn:Hid.
    + apply String.eqb_eq in Hid. subst id. rewrite Hheld.
      rewrite (filter_filter_above c (now - one_minute) A) by lia.
      set (recent := List.filter (fun t => (now - one_minute <? t)%Z) A) in *.
      destruct (MAX_REQUESTS_PER_MINUTE <=? length recent)%nat eqn:Hfull.
      * (* refused: nothing is recorded *)
        rewrite admitted_cons. cbn [andb app].
        apply (IH _ A now); [|exact Hclock].
        split; [exact Hpast'|]. split; [|exact Hwindow].
        exists (now - one_minute)%Z. split; [lia|].
        rewrite lookup_insert_eq. reflexivity.
      * (* let through: the reading is recorded *)
        apply Nat.leb_gt in Hfull.
        rewrite admitted_cons, String.eqb_refl. cbn [andb].
        rewrite (app_assoc A [now]).
        apply (IH _ (A ++ [now]) now); [|exact Hclock].
        split; [|split].
        -- apply Forall_app. split; [exact Hpast'|]. constructor; [lia | constructor].
        -- exists (now - one_minute)%Z. split; [lia|].
           rewrite lookup_insert_eq, List.filter_app. cbn [default from_option id List.filter].
           assert ((now - one_minute <? now)%Z = true) as ->
             by (apply Z.ltb_lt; unfold one_minute; lia).
           reflexivity.
        -- intros T'. rewrite within_minute_app, length_app.
           unfold within_minute at 2. cbn [List.filter].
           destruct ((T' - one_minute <? now)%Z && (now <=? T')%Z) eqn:Hin.
           ++ apply andb_true_iff in Hin as [H1 H2].
              apply Z.ltb_lt in H1. apply Z.leb_le in H2.
              pose proof (within_minute_recent T' now A (conj H1 H2)) as Hle.
              fold recent in Hle. simpl. lia.
           ++ specialize (Hwindow T'). simpl. lia.
    + (* another client: what is held for [identifier] stays *)
      assert (id ≠ identifier) as Hne by (apply String.eqb_neq, Hid).
      destruct (MAX_REQUESTS_PER_MINUTE <=? _)%nat;
        rewrite admitted_cons, Hid, andb_false_r; cbn [app];
        (apply (IH _ A now); [|exact Hclock]);
        (split; [exact Hpast'|]); (split; [|exact Hwindow]);
        exists c; (split; [lia|]); rewrite <- Hheld;
        rewrite ?lookup_insert_ne by exact Hne; reflexivity.
Qed.

End Limiter.

(** The limiter is a sliding window.  Started with no history and run
    on any sequence of requests whose clock readings do not go back, it
    lets through at most MAX_REQUESTS_PER_MINUTE = 10 requests of one
    client within any minute, wherever that minute begins. *)
Theorem at_most_ten_requests_a_minute (calls : list (string * Z)) (identifier : string)
    (lo T : Z) :
  non_decreasing_from lo (snd <$> calls) ->
  length (within_minute T (admitted identifier calls (decisions calls ∅)))
  ≤ MAX_REQUESTS_PER_MINUTE.
Proof.
  intros Hclock.
  apply (limiter_keeps_window identifier calls ∅ [] lo); [|exact Hclock].
  split; [constructor|]. split; [|intros T'; cbn; lia].
  exists (lo - one_minute)%Z. split; [lia | reflexivity].
Qed.

Lemma at_most_ten_requests_a_minute_witness :
  length (admitted "10.0.0.1" burst (decisions burst ∅)) = 10 ∧
  length (within_minute 11000000 (admitted "10.0.0.1" burst (decisions burst ∅)))
  ≤ MAX_REQUESTS_PER_MINUTE.
Proof.
  split; [vm_compute; reflexivity|].
  apply (at_most_ten_requests_a_minute burst "10.0.0.1" 0 11000000).
  vm_compute. repeat split; discriminate.
Defined.

Lemma check_rate_limit_own (identifier : string) (now : Z)
    (counts counts' : gmap string (list Z)) :
  counts !! identifier = counts' !! identifier ->
  (check_rate_limit identifier now counts).1 = (check_rate_limit identifier now counts').1 ∧
  (check_rate_limit identifier now counts).2 !! identifier
  = (check_rate_limit identifier now counts').2 !! identifier.
Proof.
  intros Heq. unfold check_rate_limit. cbv zeta. rewrite Heq.
  destruct (MAX_REQUESTS_PER_MINUTE <=? _)%nat; cbn [fst snd];
    rewrite !lookup_insert_eq; auto.
Qed.

Lemma check_rate_limit_other (identifier other : string) (now : Z)
    (counts : gmap string (list Z)) :
  other ≠ identifier ->
  (check_rate_limit other now counts).2 !! identifier = counts !! identifier.
Proof.
  intros Hne. unfold check_rate_limit. cbv zeta.
  destruct (MAX_REQUESTS_PER_MINUTE <=? _)%nat; cbn [snd];
    rewrite !lookup_insert_ne by exact Hne; reflexivity.
Qed.

Lemma decisions_cons (identifier : string) (now : Z) (calls : list (string * Z))
    (counts : gmap string (list Z)) :
  decisions ((identifier, now) :: calls) counts
  = (check_rate_limit identifier now counts).1.1
    :: decisions calls (check_rate_limit identifier now counts).2.
Proof.
  cbn [decisions]. destruct (check_rate_limit identifier now counts) as [[ok after] counts'].
  reflexivity.
Qed.

Lemma decided_alone (identifier : string) (calls : list (string * Z))
    (counts counts' : gmap string (list Z)) :
  counts !! identifier = counts' !! identifier ->
  decided identifier calls (decisions calls counts)
  = decisions (List.filter (fun call => String.eqb call.1 identifier) calls) counts'.
Proof.
  revert counts counts'.
  induction calls as [|[id now] calls IH]; intros counts counts' Heq; [reflexivity|].
  rewrite decisions_cons. unfold decided. cbn [zip_with omap list_omap fst snd List.filter].
  fold (decided identifier calls (decisions calls (check_rate_limit id now counts).2)).
  destruct (String.eqb id identifier) eqn:Hid.
  - apply String.eqb_eq in Hid. subst id. rewrite decisions_cons.
    destruct (check_rate_limit_own identifier now counts counts' Heq) as [Hsame Hnext].
    rewrite Hsame. f_equal. apply IH, Hnext.
  - apply IH. rewrite check_rate_limit_other by (apply String.eqb_neq, Hid). exact Heq.
Qed.

(** Clients do not affect one another: the decisions the limiter takes
    for the requests of one client, inside any sequence of requests, are
    the decisions it takes when that client's requests arrive alone. *)
Theorem limiter_is_per_client (calls : list (string * Z)) (identifier : string) :
  decided identifier calls (decisions calls ∅)
  = decisions (List.filter (fun call => String.eqb call.1 identifier) calls) ∅.
Proof. apply decided_alone. reflexivity. Qed.

(** ** The input sanitiser *)

Lemma join_if_every (keep : ascii -> bool) (s : string) :
  every keep (FunctionApp.join_if keep s).
Proof.
  induction s as [|c s IH]; [exact I|]. cbn [FunctionApp.join_if].
  destruct (keep c) eqn:Hc; [split; assumption | exact IH].
Qed.

Lemma join_if_length (keep : ascii -> bool) (s : string) :
  String.length (FunctionApp.join_if keep s) ≤ String.length s.
Proof.
  induction s as [|c s IH]; [reflexivity|]. cbn [FunctionApp.join_if].
  destruct (keep c); simpl; lia.
Qed.

Lemma join_if_all (keep : ascii -> bool) (s : string) :
  every keep s -> FunctionApp.join_if keep s = s.
Proof.
  induction s as [|c s IH]; [reflexivity|]. intros [Hc Hs].
  cbn [FunctionApp.join_if]. rewrite Hc, (IH Hs). reflexivity.
Qed.

(** What the sanitiser returns is never the empty string, is at most
    [max_length] characters long and holds printable characters and white
    space only: control characters are gone.  A text that is already of
    this kind, and has no white space at either end, comes back as it
    is. *)
Theorem sanitised_text_is_clean (text : option string) (field_name : string)
    (max_length : nat) :
  (∀ out,
      FunctionApp.sanitize_text_input text field_name max_length = Some out ->
      out ≠ "" ∧ String.length out ≤ max_length ∧ every presentable out) ∧
  (∀ s,
      text = Some s -> s ≠ "" -> FunctionApp.strip s = s ->
      String.length s ≤ max_length -> every presentable s ->
      FunctionApp.sanitize_text_input text field_name max_length = Some s).
Proof.
  split.
  - intros out. unfold FunctionApp.sanitize_text_input. cbv zeta.
    destruct (negb (Py.truthy_opt text)); [discriminate|].
    set (stripped := FunctionApp.strip (default "" text)).
    set (cut := if (max_length <? String.length stripped)%nat
                then Py.prefix max_length stripped else stripped).
    assert (String.length cut ≤ max_length) as Hcut.
    { unfold cut. destruct (max_length <? String.length stripped)%nat eqn:Hlong.
      - rewrite prefix_length. lia.
      - apply Nat.ltb_ge in Hlong. exact Hlong. }
    destruct (Py.truthy _) eqn:Hfull; [|discriminate]. intros [= <-].
    split; [|split].
    + intros Hempty. rewrite Hempty in Hfull. discriminate.
    + pose proof (join_if_length (fun char => FunctionApp.isprintable char
                                              || FunctionApp.isspace char) cut). lia.
    + apply (join_if_every presentable).
  - intros s -> Hne Hstrip Hlen Hclean.
    unfold FunctionApp.sanitize_text_input. cbv zeta.
    cbn [Py.truthy_opt default from_option id]. rewrite (truthy_nonempty _ Hne).
    cbn [negb]. rewrite Hstrip.
    assert ((max_length <? String.length s)%nat = false) as -> by (apply Nat.ltb_ge, Hlen).
    change (fun char => FunctionApp.isprintable char || FunctionApp.isspace char)
      with presentable.
    rewrite (join_if_all presentable s Hclean), (truthy_nonempty _ Hne). reflexivity.
Qed.

(** A comment with a NUL byte, a bell and surrounding blanks, cut to
    eight characters; and a clean one. *)
Lemma sanitised_text_is_clean_witness :
  FunctionApp.sanitize_text_input (Some (String "000" (String "007" "  easy run today  ")))
                                  "comment" 8
  = Some "  easy" ∧
  ("  easy" ≠ "" ∧ String.length "  easy" ≤ 8 ∧ every presentable "  easy") ∧
  FunctionApp.sanitize_text_input (Some "easy run") "comment" 500 = Some "easy run".
Proof.
  split; [vm_compute; reflexivity|]. split.
  - apply (proj1 (sanitised_text_is_clean
                    (Some (String "000" (String "007" "  easy run today  "))) "comment" 8)).
    vm_compute. reflexivity.
  - apply (proj2 (sanitised_text_is_clean (Some "easy run") "comment" 500) "easy run").
    + reflexivity.
    + discriminate.
    + vm_compute. reflexivity.
    + vm_compute. lia.
    + vm_compute. repeat split.
Defined.
